(** * The NWS point-forecast-matrix decoder of bin/user/forecast.py

    A shallow embedding of [ParseNWSForecast], [filldata] and [date2ts]
    (forecast.py, lines 633-781) together with the properties of the
    decoder that the specification states.

    Python 2 byte strings are modelled as [string], Python lists as
    [list], Python dictionaries as stdpp's [gmap], Python integers as [Z]
    (column positions) or [nat] (slot indices, which only ever count up
    from zero), and a raised exception as the [Raise] case of [result]. *)

From Stdlib Require Import ZArith Ascii String List Bool Lia Sorted.
From stdpp Require Import base option list gmap strings.

Local Open Scope Z_scope.

(** ** Exceptions *)

Inductive exn : Set :=
  | IndexError
  | KeyError
  | ValueError
  | TypeError
  | UnboundLocalError.

Inductive result (A : Type) : Type :=
  | Return (a : A)
  | Raise (e : exn).
Arguments Return {A} a.
Arguments Raise {A} e.

Global Instance result_ret : MRet result := λ A a, Return a.
Global Instance result_bind : MBind result := λ A B k r,
  match r with
  | Return a => k a
  | Raise e => Raise e
  end.

Definition raises {A : Type} (r : result A) : Prop :=
  match r with Raise _ => True | Return _ => False end.

(** [d[k]] on a dictionary: [KeyError] when the key is absent. *)
Definition getitem `{Countable K} {V : Type} (d : gmap K V) (k : K) : result V :=
  match d !! k with
  | Some v => Return v
  | None => Raise KeyError
  end.

(** [l[i]] on a list with a non-negative index: [IndexError] out of range. *)
Definition index {A : Type} (l : list A) (i : nat) : result A :=
  match l !! i with
  | Some a => Return a
  | None => Raise IndexError
  end.

(** [l[i] = x] on a list with a non-negative index. *)
Definition setitem {A : Type} (l : list A) (i : nat) (x : A) : result (list A) :=
  if decide (i < length l)%nat then Return (<[i:=x]> l) else Raise IndexError.

(** ** Python 2 [str] methods *)

Module Str.

(** The code of a byte. *)
Definition ord (c : ascii) : Z := Z.of_N (N_of_ascii c).

(** [c.isspace()] for one byte in the C locale: the blank and the five
    control characters from tab (9) to carriage return (13). *)
Definition isspace (c : ascii) : bool :=
  bool_decide (ord c = 32 ∨ 9 <= ord c <= 13).

Definition len (s : string) : Z := Z.of_nat (String.length s).

(** [s.startswith(p)] *)
Fixpoint startswith (s p : string) : bool :=
  match p, s with
  | EmptyString, _ => true
  | String _ _, EmptyString => false
  | String a p', String b s' => if decide (a = b) then startswith s' p' else false
  end.

(** [s.endswith(p)] *)
Definition endswith (s p : string) : bool :=
  startswith (String.rev s) (String.rev p).

(** [s[:n]] and [s[n:]] for a non-negative [n]. *)
Fixpoint take (n : nat) (s : string) : string :=
  match n, s with
  | S n', String a s' => String a (take n' s')
  | _, _ => EmptyString
  end.

Fixpoint drop (n : nat) (s : string) : string :=
  match n, s with
  | S n', String _ s' => drop n' s'
  | _, _ => s
  end.

(** [s[a:b]] for [0 <= a <= b]. *)
Definition slice (a b : nat) (s : string) : string := take (b - a) (drop a s).

Fixpoint lstrip (s : string) : string :=
  match s with
  | String a s' => if isspace a then lstrip s' else s
  | EmptyString => EmptyString
  end.

Definition rstrip (s : string) : string := String.rev (lstrip (String.rev s)).

(** [s.strip()] *)
Definition strip (s : string) : string := rstrip (lstrip s).

(** [s.split(sep)] for a one-character separator: every occurrence
    splits, so adjacent separators give empty parts. *)
Fixpoint split_go (sep : ascii) (cur : string) (s : string) : list string :=
  match s with
  | EmptyString => [String.rev cur]
  | String a s' =>
      if decide (a = sep) then String.rev cur :: split_go sep EmptyString s'
      else split_go sep (String a cur) s'
  end.
Definition split (sep : ascii) (s : string) : list string :=
  split_go sep EmptyString s.

(** [s.splitlines()] on a byte string: a line ends at "\n", "\r" or
    "\r\n"; the terminators are dropped and a last line without a
    terminator is kept when it is not empty. *)
Fixpoint splitlines_go (cur : string) (s : string) : list string :=
  match s with
  | EmptyString =>
      match cur with EmptyString => [] | _ => [String.rev cur] end
  | String "010" s' => String.rev cur :: splitlines_go EmptyString s'
  | String "013" s' =>
      String.rev cur ::
        match s' with
        | String "010" s'' => splitlines_go EmptyString s''
        | _ => splitlines_go EmptyString s'
        end
  | String a s' => splitlines_go (String a cur) s'
  end.
Definition splitlines (s : string) : list string :=
  splitlines_go EmptyString s.

(** [int(s)] in base ten: surrounding white space is ignored, one sign
    is allowed, and at least one digit must follow; anything else is a
    [ValueError]. *)
Definition digit (c : ascii) : option Z :=
  if decide (48 <= ord c <= 57) then Some (ord c - 48) else None.

Fixpoint digits (acc : Z) (s : string) : option Z :=
  match s with
  | EmptyString => Some acc
  | String c s' =>
      match digit c with
      | Some d => digits (10 * acc + d) s'
      | None => None
      end
  end.

Definition unsigned (s : string) : option Z :=
  match s with
  | EmptyString => None
  | _ => digits 0 s
  end.

Definition int (s : string) : result Z :=
  let r :=
    match strip s with
    | String "-" s' => Z.opp <$> unsigned s'
    | String "+" s' => unsigned s'
    | s' => unsigned s'
    end in
  match r with
  | Some z => Return z
  | None => Raise ValueError
  end.

End Str.

(** [for x in l: s = body(s, x)], stopping at the first exception. *)
Fixpoint for_each {A S : Type} (body : S → A → result S) (s : S) (l : list A)
    : result S :=
  match l with
  | [] => Return s
  | x :: l' => s' ← body s x; for_each body s' l'
  end.

(** [range(0, stop, step)] for a positive [step]. *)
Definition range_step (stop step : nat) : list nat :=
  (λ k, k * step)%nat <$> seq 0 ((stop + step - 1) / step)%nat.

(** ** The label table *)

Definition nws_label_dict : gmap string string :=
  list_to_map
    [ ("HOUR", "hour");
      ("MIN/MAX", "tempMinMax");
      ("MAX/MIN", "tempMaxMin");
      ("TEMP", "temp");
      ("DEWPT", "dewpoint");
      ("RH", "humidity");
      ("WIND DIR", "windDir");
      ("PWIND DIR", "windDir");
      ("WIND SPD", "windSpeed");
      ("WIND GUST", "windGust");
      ("WIND CHAR", "windChar");
      ("CLOUDS", "clouds");
      ("AVG CLOUDS", "clouds");
      ("POP 12HR", "pop");
      ("QPF 12HR", "qpf");
      ("SNOW 12HR", "qsf");
      ("RAIN", "rain");
      ("RAIN SHWRS", "rainshwrs");
      ("TSTMS", "tstms");
      ("DRIZZLE", "drizzle");
      ("SNOW", "snow");
      ("SNOW SHWRS", "snowshwrs");
      ("FLURRIES", "flurries");
      ("SLEET", "sleet");
      ("FRZNG RAIN", "frzngrain");
      ("FRZNG DRZL", "frzngdrzl");
      ("OBVIS", "obvis");
      ("WIND CHILL", "windChill");
      ("HEAT INDEX", "heatIndex") ].

(** ** The block of one station (forecast.py, lines 639-651) *)

(** The loop over [alllines]; [lines] is [None] until the first line that
    starts with [id], and the loop breaks at a line starting with "$$"
    once a block has begun. A line starting with [id] is tested first and
    always begins the block anew. *)
Fixpoint block_loop (id : string) (lines : option (list string))
    (alllines : list string) : option (list string) :=
  match alllines with
  | [] => lines
  | line :: rest =>
      if Str.startswith line id then block_loop id (Some [line]) rest
      else
        match lines with
        | Some ls =>
            if Str.startswith line "$$" then lines
            else block_loop id (Some (ls ++ [line])) rest
        | None => block_loop id None rest
        end
  end.

Definition station_block (alllines : list string) (id : string)
    : option (list string) :=
  block_loop id None alllines.

(** ** Sorting the rows by granularity (forecast.py, lines 653-671) *)

(** The local variables of the loop: [mode] is unbound ([None]) until the
    first hour row. *)
Record rowsets : Type := Rowsets {
  mode : option Z;
  rows3 : gmap string string;
  rows6 : gmap string string
}.

Definition label_of (line : string) : string := Str.strip (Str.slice 0 14 line).
Definition data_of (line : string) : string := Str.drop 14 line.

Definition classify_line (st : rowsets) (line : string) : result rowsets :=
  let label := label_of line in
  if Str.startswith label "UTC" then Return st
  else
    let '(label, mode') :=
      if Str.endswith label "3HRLY" then ("HOUR", Some 3)
      else if Str.endswith label "6HRLY" then ("HOUR", Some 6)
      else (label, mode st) in
    match nws_label_dict !! label with
    | Some field =>
        match mode' with
        | None => Raise UnboundLocalError
        | Some m =>
            if decide (m = 3) then
              Return (Rowsets mode' (<[field := data_of line]> (rows3 st)) (rows6 st))
            else if decide (m = 6) then
              Return (Rowsets mode' (rows3 st) (<[field := data_of line]> (rows6 st)))
            else Return (Rowsets mode' (rows3 st) (rows6 st))
        end
    | None => Return (Rowsets mode' (rows3 st) (rows6 st))
    end.

Definition classify (lines : list string) : result rowsets :=
  for_each classify_line (Rowsets None ∅ ∅) lines.

(** ** The time axis (forecast.py, lines 678-720) *)

(** The running calendar and the two lists [matrix['ts']] and
    [matrix['hour']], which grow in step with [idx]. *)
Record axis : Type := Axis {
  day : Z;
  lasth : option Z;
  ts : list Z;
  hour : list Z;
  idx : nat
}.

(** [if lasth is not None and h < lasth: day += 24 * 3600] *)
Definition rollover (d : Z) (last : option Z) (h : Z) : Z :=
  match last with
  | Some l => if decide (h < l) then d + 24 * 3600 else d
  | None => d
  end.

(** One pass of the 3-hour loop for the cell that starts at column [i]. *)
Definition hour3_cell (row : string) (st : axis * gmap Z nat) (i : nat)
    : result (axis * gmap Z nat) :=
  let '(a, indices3) := st in
  h ← Str.int (Str.slice i (i + 2) row);
  let d := rollover (day a) (lasth a) h in
  Return (Axis d (Some h) (ts a ++ [d + h * 3600]) (hour a ++ [h]) (S (idx a)),
          <[Z.of_nat i + 1 := idx a]> indices3).

Definition hours3 (row : string) (a : axis) : result (axis * gmap Z nat) :=
  for_each (hour3_cell row) (a, ∅) (range_step (String.length row) 3).

(** A token of the 6-hour row closed by white space at column [i]. *)
Definition hour6_token (s : string) (i : Z) (st : axis * gmap Z nat)
    : result (axis * gmap Z nat) :=
  let '(a, indices6) := st in
  h ← Str.int s;
  let d := rollover (day a) (lasth a) h in
  Return (Axis d (Some h) (ts a ++ [d + h * 3600]) (hour a ++ [h]) (S (idx a)),
          <[i - 1 := idx a]> indices6).

(** The 6-hour loop from column [i] on, with the pending token [s]. *)
Fixpoint hours6_loop (row : string) (i : Z) (s : string)
    (st : axis * gmap Z nat) : result (string * (axis * gmap Z nat)) :=
  match row with
  | EmptyString => Return (s, st)
  | String c row' =>
      if Str.isspace c then
        st' ← (if decide (0 < Str.len s) then hour6_token s i st else Return st);
        hours6_loop row' (i + 1) "" st'
      else hours6_loop row' (i + 1) (s +:+ String c "") st
  end.

(** The token left pending at the end of the 6-hour row: the day is not
    advanced here and [lasth] is not updated. *)
Definition hour6_last (row s : string) (st : axis * gmap Z nat)
    : result (axis * gmap Z nat) :=
  let '(a, indices6) := st in
  if decide (0 < Str.len s) then
    h ← Str.int s;
    Return (Axis (day a) (lasth a) (ts a ++ [day a + h * 3600]) (hour a ++ [h])
              (S (idx a)),
            <[Str.len row - 1 := idx a]> indices6)
  else Return st.

Definition hours6 (row : string) (a : axis) : result (axis * gmap Z nat) :=
  '(s, st) ← hours6_loop row 0 "" (a, ∅);
  hour6_last row s st.

(** ** The forecast matrix *)

(** An entry of a per-slot list: [None] is Python's [None]. *)
Inductive pyval : Set :=
  | PInt (z : Z)
  | PStr (s : string).

Abbreviation cell := (option pyval).

(** The dictionary [matrix]. Its four scalar entries ('id', 'desc',
    'location', 'dateTime') are record fields; [m_lists] holds every
    list-valued entry ('ts', 'hour', the decoded fields, 'tempMin' and
    'tempMax'). No value of [nws_label_dict] is the name of a scalar
    entry, so [filldata] only ever reads and writes [m_lists]. *)
Record matrix : Type := Matrix {
  m_id : string;
  m_desc : string;
  m_location : string;
  m_dateTime : Z;
  m_lists : gmap string (list cell)
}.

(** ** Filling in the data rows (forecast.py, lines 727-769) *)

(** [matrix[label][indices[k]] = s] *)
Definition store (indices : gmap Z nat) (k : Z) (s : string) (l : list cell)
    : result (list cell) :=
  j ← getitem indices k;
  setitem l j (Some (PStr s)).

(** The scan of one row from column [i] on, with the pending token [s]. *)
Fixpoint fill_loop (indices : gmap Z nat) (row : string) (i : Z) (s : string)
    (l : list cell) : result (string * list cell) :=
  match row with
  | EmptyString => Return (s, l)
  | String c row' =>
      if Str.isspace c then
        l' ← (if decide (0 < Str.len s) then store indices (i - 1) s l
              else Return l);
        fill_loop indices row' (i + 1) "" l'
      else fill_loop indices row' (i + 1) (s +:+ String c "") l
  end.

Definition fill_row (indices : gmap Z nat) (row : string) (l : list cell)
    : result (list cell) :=
  '(s, l') ← fill_loop indices row 0 "" l;
  if decide (0 < Str.len s) then store indices (Str.len row - 1) s l'
  else Return l'.

(** [if key not in matrix.keys(): matrix[key] = [None]*nidx] *)
Definition default_none (key : string) (nidx : nat)
    (m : gmap string (list cell)) : gmap string (list cell) :=
  match m !! key with
  | Some _ => m
  | None => <[key := replicate nidx None]> m
  end.

(** The body of [for label in rows.keys()]. *)
Definition fill_label (nidx : nat) (indices : gmap Z nat)
    (m : gmap string (list cell)) (lr : string * string)
    : result (gmap string (list cell)) :=
  let '(label, row) := lr in
  let m := default_none label nidx m in
  l ← getitem m label;
  l' ← fill_row indices row l;
  Return (<[label := l']> m).

(** One slot of the min/max walk; [state] is 0 when the next value is a
    minimum and 1 when it is a maximum. *)
Definition minmax_slot (src : list cell) (st : Z * list cell * list cell)
    (i : nat) : result (Z * list cell * list cell) :=
  let '(state, tmin, tmax) := st in
  v ← index src i;
  match v with
  | None => Return st
  | Some _ =>
      if decide (state = 0) then
        tmin' ← setitem tmin i v; Return (1, tmin', tmax)
      else
        tmax' ← setitem tmax i v; Return (0, tmin, tmax')
  end.

Definition minmax_walk (state : Z) (nidx : nat) (src tmin tmax : list cell)
    : result (Z * list cell * list cell) :=
  for_each (minmax_slot src) (state, tmin, tmax) (seq 0 nidx).

(** [if key in matrix.keys(): ...; del matrix[key]] for the combined
    sequence stored under [key]. *)
Definition resolve (key : string) (state : Z) (nidx : nat)
    (m : gmap string (list cell)) : result (gmap string (list cell)) :=
  match m !! key with
  | None => Return m
  | Some src =>
      tmin ← getitem m "tempMin";
      tmax ← getitem m "tempMax";
      '(_, tmin', tmax') ← minmax_walk state nidx src tmin tmax;
      Return (delete key (<["tempMax" := tmax']> (<["tempMin" := tmin']> m)))
  end.

(** The dictionary [rows] is walked in the order of [map_to_list]; the
    order of [rows.keys()] is unspecified in Python 2, and each label
    writes to a list of its own. *)
Definition filldata (m : gmap string (list cell)) (nidx : nat)
    (rows : gmap string string) (indices : gmap Z nat)
    : result (gmap string (list cell)) :=
  m ← for_each (fill_label nidx indices) m (map_to_list rows);
  let m := default_none "tempMin" nidx m in
  let m := default_none "tempMax" nidx m in
  m ← resolve "tempMinMax" 0 nidx m;
  resolve "tempMaxMin" 1 nidx m.

(** ** The issuance time (forecast.py, lines 771-781) *)

(** The two library calls the decoder makes: [strptime_mktime s] is
    [time.mktime(time.strptime(s, "%H%M %b %d %Y"))], which depends on the
    local time zone and raises when [s] does not match the format, and
    [startOfDay] is [weeutil.weeutil.startOfDay]. *)
Class TimeLib : Type := {
  strptime_mktime : string → result Z;
  startOfDay : Z → Z
}.

Definition date2ts `{TimeLib} (tstr : string) : result Z :=
  let parts := Str.split " " tstr in
  p0 ← index parts 0;
  p4 ← index parts 4;
  p5 ← index parts 5;
  p6 ← index parts 6;
  let s := p0 +:+ " " +:+ p4 +:+ " " +:+ p5 +:+ " " +:+ p6 in
  t ← strptime_mktime s;
  p1 ← index parts 1;
  Return (if decide (p1 = "PM") then t + 12 * 3600 else t).

(** ** The decoder (forecast.py, lines 633-725) *)

Definition ints (l : list Z) : list cell := (λ z, Some (PInt z)) <$> l.

Definition ParseNWSForecast `{TimeLib} (text id : string)
    : result (option matrix) :=
  match station_block (Str.splitlines text) id with
  | None => Return None
  | Some lines =>
      hdr ← index lines 3;
      t ← date2ts hdr;
      let day_ts := startOfDay t in
      rs ← classify lines;
      desc ← index lines 1;
      location ← index lines 2;
      row3 ← getitem (rows3 rs) "hour";
      '(a3, indices3) ← hours3 row3 (Axis day_ts None [] [] 0);
      row6 ← getitem (rows6 rs) "hour";
      '(a6, indices6) ← hours6 row6 a3;
      let m := <["hour" := ints (hour a6)]> (<["ts" := ints (ts a6)]> ∅) in
      m ← filldata m (idx a6) (rows3 rs) indices3;
      m ← filldata m (idx a6) (rows6 rs) indices6;
      Return (Some (Matrix id desc location t m))
  end.

(** ** A host in the UTC time zone

    An instance of [TimeLib] to run the decoder on sample bulletins. It
    stands in for the two library calls on a host whose local time zone
    is UTC: [parse_time] reads the format "%H%M %b %d %Y" field by field,
    for fields without white space: an hour of two digits when they make
    an hour and leave a minute, of one digit otherwise; a month name in
    either case; a day that the month has; a year of four digits. Years
    before 1900, which the library treats in a way of its own, are
    refused. The properties are stated for every instance; this one only
    runs the samples. *)

Module UTC.

Definition upper_char (c : ascii) : ascii :=
  if decide (97 <= Str.ord c <= 122) then ascii_of_N (N_of_ascii c - 32) else c.

Fixpoint upper (s : string) : string :=
  match s with
  | EmptyString => EmptyString
  | String c s' => String (upper_char c) (upper s')
  end.

Definition month (s : string) : option Z :=
  let s := upper s in
  if decide (s = "JAN") then Some 1 else if decide (s = "FEB") then Some 2
  else if decide (s = "MAR") then Some 3 else if decide (s = "APR") then Some 4
  else if decide (s = "MAY") then Some 5 else if decide (s = "JUN") then Some 6
  else if decide (s = "JUL") then Some 7 else if decide (s = "AUG") then Some 8
  else if decide (s = "SEP") then Some 9 else if decide (s = "OCT") then Some 10
  else if decide (s = "NOV") then Some 11 else if decide (s = "DEC") then Some 12
  else None.

(** Days from 1970-01-01 to the given day of the Gregorian calendar. *)
Definition days_from_civil (y m d : Z) : Z :=
  let y := if decide (m <= 2) then y - 1 else y in
  let era := y `div` 400 in
  let yoe := y - era * 400 in
  let doy := (153 * (if decide (2 < m) then m - 3 else m + 9) + 2) `div` 5 + d - 1 in
  let doe := yoe * 365 + yoe `div` 4 - yoe `div` 100 + doy in
  era * 146097 + doe - 719468.

(** [%M] on what the hour leaves: two digits up to 59, or one digit. *)
Definition minute (s : string) : option Z :=
  match s with
  | String a EmptyString => Str.digit a
  | String a (String b EmptyString) =>
      match Str.digit a, Str.digit b with
      | Some x, Some y => if decide (x <= 5) then Some (10 * x + y) else None
      | _, _ => None
      end
  | _ => None
  end.

(** [%H%M]: "418" is 4:18, "100" is 10:00 and "1618" is 16:18. *)
Definition hour_minute (s : string) : option (Z * Z) :=
  match s with
  | String a (String b rest) =>
      let one :=
        match Str.digit a, minute (String b rest) with
        | Some x, Some m => Some (x, m)
        | _, _ => None
        end in
      match Str.digit a, Str.digit b, minute rest with
      | Some x, Some y, Some m =>
          if decide (10 * x + y <= 23) then Some (10 * x + y, m) else one
      | _, _, _ => one
      end
  | _ => None
  end.

Definition days_in_month (y m : Z) : Z :=
  if decide (m = 2) then
    (if decide (y `mod` 4 = 0 ∧ (y `mod` 100 ≠ 0 ∨ y `mod` 400 = 0)) then 29
     else 28)
  else if decide (m = 4 ∨ m = 6 ∨ m = 9 ∨ m = 11) then 30
  else 31.

(** [%d]: one or two digits, not zero. *)
Definition day (s : string) : option Z :=
  match Str.unsigned s with
  | Some d => if decide (Str.len s <= 2 ∧ 1 <= d) then Some d else None
  | None => None
  end.

(** [%Y]: four digits. *)
Definition year (s : string) : option Z :=
  if decide (Str.len s = 4) then Str.unsigned s else None.

Definition parse_time (s : string) : result Z :=
  match Str.split " " s with
  | [hm; mon; d; y] =>
      match hour_minute hm, month mon, day d, year y with
      | Some (h, mi), Some mon, Some d, Some y =>
          if decide (d <= days_in_month y mon ∧ 1900 <= y) then
            Return (days_from_civil y mon d * 86400 + h * 3600 + mi * 60)
          else Raise ValueError
      | _, _, _, _ => Raise ValueError
      end
  | _ => Raise ValueError
  end.

Definition midnight (t : Z) : Z := t - t `mod` 86400.

#[export] Instance timelib : TimeLib :=
  {| strptime_mktime := parse_time; startOfDay := midnight |}.

End UTC.

(** The text whose lines are [ls], each ended by a newline. *)
Definition unlines (ls : list string) : string :=
  foldr (λ l acc, l +:+ String "010" acc) "" ls.

(** ** Notions used to state the properties *)

(** A line that begins the block, and a line at which the loop breaks
    once the block has begun. *)
Definition id_line (id line : string) : Prop := Str.startswith line id = true.
Definition end_line (id line : string) : Prop :=
  Str.startswith line id = false ∧ Str.startswith line "$$" = true.

(** The block as the specification words it: from the first line that
    starts with the identifier up to, and without, the first later line
    that starts with "$$". *)
Fixpoint until_end (ls : list string) : list string :=
  match ls with
  | [] => []
  | l :: ls' => if Str.startswith l "$$" then [] else l :: until_end ls'
  end.

Fixpoint first_block (alllines : list string) (id : string)
    : option (list string) :=
  match alllines with
  | [] => None
  | l :: ls =>
      if Str.startswith l id then Some (l :: until_end ls)
      else first_block ls id
  end.


(** The rows that set the granularity: the label, which must not start
    with "UTC" (such lines are skipped), ends with "3HRLY" or "6HRLY". *)
Definition hour_row (g : Z) (line : string) : Prop :=
  Str.startswith (label_of line) "UTC" = false ∧
  (g = 3 ∧ Str.endswith (label_of line) "3HRLY" = true
   ∨ g = 6 ∧ Str.endswith (label_of line) "6HRLY" = true).

(** A labeled data row for the field [field]: not skipped, not an hour
    row, and its label is in the table. *)
Definition data_row (field : string) (line : string) : Prop :=
  Str.startswith (label_of line) "UTC" = false ∧
  Str.endswith (label_of line) "3HRLY" = false ∧
  Str.endswith (label_of line) "6HRLY" = false ∧
  nws_label_dict !! label_of line = Some field.

(** A line that is not an hour row of either granularity, whether or not
    its label starts with "UTC". *)
Definition no_hour_label (line : string) : Prop :=
  Str.endswith (label_of line) "3HRLY" = false ∧
  Str.endswith (label_of line) "6HRLY" = false.

(** An hour-label row as the specification words it: a row whose label
    ends with "3HRLY" or "6HRLY", whatever the label starts with. *)
Definition hour_label (g : Z) (line : string) : Prop :=
  g = 3 ∧ Str.endswith (label_of line) "3HRLY" = true
  ∨ g = 6 ∧ Str.endswith (label_of line) "6HRLY" = true.

(** The tokens of a data row, each with the column of its last
    character. *)
Fixpoint tokens_from (row : string) (i : Z) (s : string) : list (string * Z) :=
  match row with
  | EmptyString => if decide (0 < Str.len s) then [(s, i - 1)] else []
  | String c row' =>
      if Str.isspace c then
        (if decide (0 < Str.len s) then [(s, i - 1)] else [])
        ++ tokens_from row' (i + 1) ""
      else tokens_from row' (i + 1) (s +:+ String c "")
  end.

Definition tokens (row : string) : list (string * Z) := tokens_from row 0 "".

(** The min/max resolver as the specification words it: a two-valued
    state, flipped by every value that is not null. *)
Inductive turn : Set := NextMin | NextMax.

Definition turn_of (state : Z) : turn :=
  if decide (state = 0) then NextMin else NextMax.

Fixpoint resolver (t : turn) (src : list cell) : list cell * list cell :=
  match src with
  | [] => ([], [])
  | None :: src' =>
      let '(tmin, tmax) := resolver t src' in (None :: tmin, None :: tmax)
  | Some v :: src' =>
      match t with
      | NextMin =>
          let '(tmin, tmax) := resolver NextMax src' in
          (Some v :: tmin, None :: tmax)
      | NextMax =>
          let '(tmin, tmax) := resolver NextMin src' in
          (None :: tmin, Some v :: tmax)
      end
  end.

(** The state of the 3-hour loop once the first [n] cells are done:
    one entry of [ts] and of [hour] per cell, in the order of the cells,
    and one entry of the index map per cell, under the column of the
    cell's second character. *)
Definition cells_done (row : string) (n : nat) (a : axis) (ind : gmap Z nat)
    : Prop :=
  length (ts a) = n ∧ length (hour a) = n ∧ idx a = n ∧
  (∀ k, (k < n)%nat →
     ∃ h d, Str.int (Str.slice (k * 3) (k * 3 + 2) row) = Return h ∧
            hour a !! k = Some h ∧ ts a !! k = Some (d + h * 3600)) ∧
  (∀ z j, ind !! z = Some j ↔ (j < n)%nat ∧ z = Z.of_nat (j * 3) + 1).

(** The same walk over targets that already hold values: a null source
    value leaves both targets as they are. *)
Fixpoint overlay (t : turn) (src tmin tmax : list cell)
    : list cell * list cell :=
  match src, tmin, tmax with
  | None :: src', x :: tmin', y :: tmax' =>
      let '(mn, mx) := overlay t src' tmin' tmax' in (x :: mn, y :: mx)
  | Some v :: src', x :: tmin', y :: tmax' =>
      match t with
      | NextMin =>
          let '(mn, mx) := overlay NextMax src' tmin' tmax' in
          (Some v :: mn, y :: mx)
      | NextMax =>
          let '(mn, mx) := overlay NextMin src' tmin' tmax' in
          (x :: mn, Some v :: mx)
      end
  | _, _, _ => ([], [])
  end.

(** The combined sequence of the specification's example. *)
Definition src_example : list cell :=
  [None; Some (PStr "45"); None; Some (PStr "62"); Some (PStr "30")].

(** A row that decodes to [src_example] on five 3-hour slots, and the
    index map of five 3-hour cells. *)
Definition row_example : string := "   45    62 30".
Definition indices_example : gmap Z nat :=
  list_to_map [(1, 0%nat); (4, 1%nat); (7, 2%nat); (10, 3%nat); (13, 4%nat)].

(** Storing one token at the slot of its last column. *)
Definition store_token (indices : gmap Z nat) (l : list cell)
    (tk : string * Z) : result (list cell) :=
  store indices tk.2 tk.1 l.

(** A token the index map has no slot for. *)
Definition unassignable (indices : gmap Z nat) (tk : string * Z) : Prop :=
  indices !! tk.2 = None.

(** Every list of the matrix has [nidx] entries. *)
Definition all_length (nidx : nat) (m : gmap string (list cell)) : Prop :=
  ∀ name l, m !! name = Some l → length l = nidx.

(** Every slot of the index map is below [nidx]. *)
Definition slots_below (nidx : nat) (indices : gmap Z nat) : Prop :=
  ∀ k j, indices !! k = Some j → (j < nidx)%nat.

Global Instance unassignable_dec indices tk : Decision (unassignable indices tk).
Proof. unfold unassignable. apply _. Defined.

(** The lists [ts] and [hour] have one entry per slot counted so far. *)
Definition axis_ok (a : axis) : Prop :=
  length (ts a) = idx a ∧ length (hour a) = idx a.

(** The list stored under [name] in the matrix a parse returned. *)
Definition list_of (name : string) (r : result (option matrix))
    : option (list cell) :=
  match r with
  | Return (Some m) => m_lists m !! name
  | _ => None
  end.

(** The starting point of the time axis. *)
Definition axis0 (day_ts : Z) : axis := Axis day_ts None [] [] 0.

(** ** Sample bulletins *)

Definition header : list string :=
  [ "ABC123-120800-"; "Somewhere"; "42.00N 71.00W";
    "418 PM EDT SAT MAY 11 2013" ].

(** A block whose 6-hour row ends in the token "02", with no white space
    after it. *)
Definition bulletin_trailing : string :=
  unlines (header ++
    [ "";
      "DATE             SAT 05/11/13";
      "EDT 3HRLY     14 17";
      "UTC 3HRLY     18 21";
      "MIN/MAX          55";
      "TEMP          50 60";
      "EDT 6HRLY     20 02";
      "MAX/MIN       70";
      "$$";
      "XYZ789-120800-" ]).

(** The same block with white space after the last hour. *)
Definition bulletin_padded : string :=
  unlines (header ++
    [ "";
      "EDT 3HRLY     14 17";
      "TEMP          50 60";
      "EDT 6HRLY     20 02 ";
      "MAX/MIN       70";
      "$$" ]).

(** The matrix decoded from [bulletin_padded] on a host in UTC. *)
Definition matrix_padded : matrix :=
  Eval vm_compute in
    match @ParseNWSForecast UTC.timelib bulletin_padded "ABC123" with
    | Return (Some m) => m
    | _ => Matrix "" "" "" 0 ∅
    end.

(** A block whose "TEMP" row has a token ending in a column where the
    3-hour row has no hour. *)
Definition bulletin_shifted : string :=
  unlines (header ++
    [ "EDT 3HRLY     14 17";
      "TEMP          50  60";
      "EDT 6HRLY     20 02 ";
      "$$" ]).

(** A block whose fourth line is not an issuance time. *)
Definition bulletin_bad_header : string :=
  unlines [ "ABC123-120800-"; "Somewhere"; "42.00N 71.00W"; "NO TIME HERE";
            "EDT 3HRLY     14 17"; "EDT 6HRLY     20 02 "; "$$" ].

(** A block without hour rows. *)
Definition bulletin_no_hours : string :=
  unlines (header ++ [ ""; "DATE             SAT 05/11/13"; "$$" ]).

(** The lines of a block in which a "TEMP" row follows a local 3-hour
    row and then a 6-hour row labeled in UTC. *)
Definition lines_utc_hour_row : list string :=
  header ++
    [ "EDT 3HRLY     14 17";
      "UTC 6HRLY     18 00";
      "TEMP          50 60" ].

(** A bulletin in which the identifier starts two lines before the
    terminator. *)
Definition lines_twice : list string :=
  [ "PREAMBLE"; "ABC123 first"; "one"; "ABC123 second"; "two"; "$$"; "three" ].

(** ** The calendar walk *)

(** The timestamps of the hours [hs], walked from day [d] with [last] the
    hour seen before them: the day advances at every hour that is less
    than the one before. *)
Fixpoint stamps (d : Z) (last : option Z) (hs : list Z) : list Z :=
  match hs with
  | [] => []
  | h :: hs' =>
      let d' := rollover d last h in
      (d' + h * 3600) :: stamps d' (Some h) hs'
  end.

(** The day and the last hour at the end of that walk. *)
Fixpoint calendar_end (d : Z) (last : option Z) (hs : list Z)
    : Z * option Z :=
  match hs with
  | [] => (d, last)
  | h :: hs' => calendar_end (rollover d last h) (Some h) hs'
  end.

(** The axis [a] is the axis [a0] walked on through the hours [hs]. *)
Definition walked (a0 : axis) (hs : list Z) (a : axis) : Prop :=
  ts a = ts a0 ++ stamps (day a0) (lasth a0) hs ∧
  hour a = hour a0 ++ hs ∧
  (day a, lasth a) = calendar_end (day a0) (lasth a0) hs ∧
  idx a = (idx a0 + length hs)%nat.

(** Each entry is less than the next one. *)
Definition increasing (l : list Z) : Prop :=
  ∀ k x y, l !! k = Some x → l !! S k = Some y → x < y.

(** No entry equals the next one. *)
Definition no_repeat (l : list Z) : Prop :=
  ∀ k x y, l !! k = Some x → l !! S k = Some y → x ≠ y.

(** The row is empty or its last character is white space, so that the
    scan leaves no token pending. *)
Definition ends_blank (row : string) : Prop :=
  row = "" ∨ ∃ r c, row = r +:+ String c "" ∧ Str.isspace c = true.

(** The two passes on the rows "14 17" and "20 02 " from midnight of
    11 May 2013. *)
Definition axis3_sample : axis :=
  Eval vm_compute in
    match hours3 "14 17" (axis0 1368230400) with
    | Return (a, _) => a
    | Raise _ => axis0 0
    end.

Definition indices3_sample : gmap Z nat :=
  Eval vm_compute in
    match hours3 "14 17" (axis0 1368230400) with
    | Return (_, ind) => ind
    | Raise _ => ∅
    end.

Definition axis6_sample : axis :=
  Eval vm_compute in
    match hours6 "20 02 " axis3_sample with
    | Return (a, _) => a
    | Raise _ => axis0 0
    end.

Definition indices6_sample : gmap Z nat :=
  Eval vm_compute in
    match hours6 "20 02 " axis3_sample with
    | Return (_, ind) => ind
    | Raise _ => ∅
    end.

(** ** Notions for the index maps and the row sets *)

(** The index map [ind] gives every slot from [lo] up to [hi - 1] to
    exactly one column, and no other slot to any column. *)
Definition covers (ind : gmap Z nat) (lo hi : nat) : Prop :=
  (∀ k j, ind !! k = Some j → (lo ≤ j < hi)%nat) ∧
  (∀ j, (lo ≤ j < hi)%nat → ∃ k, ind !! k = Some j) ∧
  (∀ k1 k2 j, ind !! k1 = Some j → ind !! k2 = Some j → k1 = k2).

(** The state of the 6-hour scan at column [i] with the pending token
    [s]: the slots counted since [idx0] are covered, and every column of
    the map lies before the pending token. *)
Definition scan6_ok (idx0 : nat) (i : Z) (s : string) (a : axis)
    (ind : gmap Z nat) : Prop :=
  covers ind idx0 (idx a) ∧ (idx0 ≤ idx a)%nat ∧
  ∀ k j, ind !! k = Some j → k + 1 + Str.len s <= i - 1.

(** A line the row loop passes over: its label starts with "UTC", or it
    is no hour row and its label is not in the table. *)
Definition ignored (line : string) : bool :=
  Str.startswith (label_of line) "UTC"
  || (negb (Str.endswith (label_of line) "3HRLY")
      && negb (Str.endswith (label_of line) "6HRLY")
      && bool_decide (nws_label_dict !! label_of line = None)).

(** No character of [s] is white space. *)
Fixpoint no_space (s : string) : bool :=
  match s with
  | EmptyString => true
  | String c s' => negb (Str.isspace c) && no_space s'
  end.

(** The string is empty or its first character is white space. *)
Definition starts_blank (b : string) : Prop :=
  b = "" ∨ ∃ c b', b = String c b' ∧ Str.isspace c = true.

(** ** Downloading (forecast.py, lines 615-631, 856-873, 1105-1120)

    The network is an oracle: [net u k] is what the call number [k] (from
    0) of [urllib2.urlopen(u)] followed by [response.read()] does. *)

Inductive outcome : Set :=
  | Got (text : string)   (** the text of the response *)
  | NetError              (** [URLError], [socket.error], [BadStatusLine]
                              or [IncompleteRead], which the loop catches *)
  | Crash (e : exn).      (** any other exception, which it does not *)

(** [for count in range(tries): try: ... return text except ...: ...],
    from the call number [count] on; the result comes with the number of
    calls made so far. *)
Fixpoint fetch_loop (net : nat → outcome) (count tries : nat)
    : result (option string) * nat :=
  match tries with
  | O => (Return None, count)
  | S tries' =>
      match net count with
      | Got text => (Return (Some text), S count)
      | NetError => fetch_loop net (S count) tries'
      | Crash e => (Raise e, S count)
      end
  end.

Definition DEFAULT_NWS_PFM_URL : string :=
  "http://forecast.weather.gov/product.php?site=NWS&product=PFM&format=txt".

Definition DEFAULT_WU_URL : string := "http://api.wunderground.com/api".

Definition DownloadNWSForecast (net : string → nat → outcome)
    (foid url : string) (max_tries : Z) : result (option string) * nat :=
  let u := if decide (url = DEFAULT_NWS_PFM_URL)
           then url +:+ "&issuedby=" +:+ foid else url in
  fetch_loop (net u) 0 (Z.to_nat max_tries).

Definition DownloadWUForecast (net : string → nat → outcome)
    (api_key location url : string) (max_tries : Z)
    : result (option string) * nat :=
  let u := if decide (url = DEFAULT_WU_URL)
           then url +:+ "/" +:+ api_key +:+ "/forecast10day/q/" +:+ location
                +:+ ".json"
           else url in
  fetch_loop (net u) 0 (Z.to_nat max_tries).

Definition DownloadNOAATides (net : string → nat → outcome)
    (url : string) (max_tries : Z) : result (option string) * nat :=
  fetch_loop (net url) 0 (Z.to_nat max_tries).

(** What the retry loop does with the calls [net 0], [net 1], ...: at
    most [tries] calls; the text of the first call that succeeds, when
    every call before it failed with an error the loop catches, and no
    call after it; [None] exactly when all [tries] calls failed so. *)
Definition first_success (net : nat → outcome) (tries : nat)
    (res : result (option string) * nat) : Prop :=
  (res.2 ≤ tries)%nat ∧
  (∀ text, res.1 = Return (Some text) ↔
     ∃ k, (k < tries)%nat ∧ net k = Got text ∧
          (∀ j, (j < k)%nat → net j = NetError)) ∧
  (res.1 = Return None ↔ ∀ j, (j < tries)%nat → net j = NetError) ∧
  (∀ text, res.1 = Return (Some text) →
     net (res.2 - 1)%nat = Got text ∧ (0 < res.2)%nat) ∧
  (res.1 = Return None → res.2 = tries).

(** ** The records of the NWS forecast (forecast.py, lines 552-580) *)

(** The constants [weewx.US] and [weewx.METRIC]. *)
Inductive units : Set := US | METRIC.

(** A value of a record. *)
Inductive rval : Set :=
  | RUnits (u : units)
  | RInt (z : Z)
  | RStr (s : string)
  | RCell (c : cell).

(** [record[label] = matrix[label][i]] for one list of the matrix. *)
Definition record_label (i : nat) (record : gmap string rval)
    (ll : string * list cell) : result (gmap string rval) :=
  v ← index ll.2 i;
  Return (<[ll.1 := RCell v]> record).

(** The entries every record starts with. *)
Definition record_base (foid id : string) (m : matrix) (t : cell)
    : gmap string rval :=
  <["foid" := RStr foid]>
    (<["id" := RStr id]>
       (<["ts" := RCell t]>
          (<["dateTime" := RInt (m_dateTime m)]>
             (<["method" := RStr "NWS"]> (<["usUnits" := RUnits US]> ∅))))).

(** The body of [for i,ts in enumerate(matrix['ts'])]; the keys of the
    matrix that hold no list are passed over. *)
Definition nws_record (foid id : string) (m : matrix) (i : nat) (t : cell)
    : result (gmap string rval) :=
  for_each (record_label i) (record_base foid id m t)
    (map_to_list (m_lists m)).

Fixpoint records_from (foid id : string) (m : matrix) (i : nat)
    (axis_ts : list cell) : result (list (gmap string rval)) :=
  match axis_ts with
  | [] => Return []
  | t :: rest =>
      r ← nws_record foid id m i t;
      rs ← records_from foid id m (S i) rest;
      Return (r :: rs)
  end.

(** [NWSForecast.get_forecast] for a service configured with [foid],
    [url], [max_tries] and [id]. *)
Definition nws_get_forecast `{TimeLib} (net : string → nat → outcome)
    (foid url : string) (max_tries : Z) (id : string)
    : result (option (list (gmap string rval))) :=
  text ← (DownloadNWSForecast net foid url max_tries).1;
  match text with
  | None => Return None
  | Some text =>
      matrix ← ParseNWSForecast text id;
      match matrix with
      | None => Return None
      | Some m =>
          axis_ts ← getitem (m_lists m) "ts";
          rs ← records_from foid id m 0 axis_ts;
          Return (Some rs)
      end
  end.

(** ** The tide records of xtide (forecast.py, lines 1193-1216) *)

(** [time.mktime(time.strptime(s, '%Y.%m.%d %H:%M'))], which depends on
    the local time zone and raises when [s] does not match the format. *)
Class TideClock : Type := {
  strptime_mktime_tide : string → result Z
}.

Record tide_record : Set := TideRecord {
  t_usUnits : units;
  t_dateTime : Z;
  t_ts : Z;
  t_hilo : string;
  t_offset : string
}.

(** [string.split(string.rstrip(line), ',')] *)
Definition tide_fields (line : string) : list string :=
  Str.split "," (Str.rstrip line).

(** The body of [for line in lines]. *)
Definition tide_line `{TideClock} (now : Z) (records : list tide_record)
    (line : string) : result (list tide_record) :=
  let fields := tide_fields line in
  f4 ← index fields 4;
  if decide (f4 = "High Tide" ∨ f4 = "Low Tide") then
    f1 ← index fields 1;
    f2 ← index fields 2;
    t ← strptime_mktime_tide (f1 +:+ " " +:+ f2);
    f3 ← index fields 3;
    let ofields := Str.split " " f3 in
    o1 ← index ofields 1;
    o0 ← index ofields 0;
    Return (records ++
              [TideRecord (if decide (o1 = "ft") then US else METRIC) now t
                 (if decide (f4 = "High Tide") then "H" else "L") o0])
  else Return records.

(** [XTideForecast.parse_forecast(lines, now)] with the time [now]
    given. *)
Definition xtide_parse_forecast `{TideClock} (lines : list string) (now : Z)
    : result (list tide_record) :=
  for_each (tide_line now) [] lines.

(** The line announces a tide: its fifth field is 'High Tide' or 'Low
    Tide'. *)
Definition tide_event (line : string) : bool :=
  bool_decide (tide_fields line !! 4%nat = Some "High Tide"
               ∨ tide_fields line !! 4%nat = Some "Low Tide").

(** The record [r] is the one of the tide line [line]. *)
Definition tide_of `{TideClock} (now : Z) (line : string) (r : tide_record)
    : Prop :=
  t_dateTime r = now ∧
  (tide_fields line !! 4%nat = Some "High Tide" → t_hilo r = "H") ∧
  (tide_fields line !! 4%nat = Some "Low Tide" → t_hilo r = "L") ∧
  (∃ f1 f2, tide_fields line !! 1%nat = Some f1 ∧
            tide_fields line !! 2%nat = Some f2 ∧
            strptime_mktime_tide (f1 +:+ " " +:+ f2) = Return (t_ts r)) ∧
  (∃ f3 o1, tide_fields line !! 3%nat = Some f3 ∧
            Str.split " " f3 !! 0%nat = Some (t_offset r) ∧
            Str.split " " f3 !! 1%nat = Some o1 ∧
            (t_usUnits r = US ↔ o1 = "ft")).

(** A clock for sample tide lines: the time is the number of characters
    of the string. *)
Definition length_clock : TideClock :=
  {| strptime_mktime_tide := λ s, Return (Str.len s) |}.

(** ** Reading an integer option (forecast.py, lines 134-143) *)

(** A value of the configuration or a default: [None], an integer or a
    string. *)
Inductive cfgval : Set :=
  | CNone
  | CInt (z : Z)
  | CStr (s : string).

(** [s.lower()] on a byte string: the letters A to Z become a to z. *)
Definition lower_char (c : ascii) : ascii :=
  if decide (65 <= Str.ord c <= 90) then ascii_of_N (N_of_ascii c + 32) else c.

Fixpoint lower (s : string) : string :=
  match s with
  | EmptyString => EmptyString
  | String c s' => String (lower_char c) (lower s')
  end.

(** The value is returned as it is when [int] raises on it. *)
Definition get_int (config_dict : gmap string cfgval) (label : string)
    (default_value : cfgval) : cfgval :=
  let value := default default_value (config_dict !! label) in
  let value :=
    match value with
    | CStr s => if decide (lower s = "none") then CNone else value
    | _ => value
    end in
  match value with
  | CNone => CNone
  | CInt z => CInt z
  | CStr s =>
      match Str.int s with
      | Return z => CInt z
      | Raise _ => CStr s
      end
  end.

(** ** Wind directions of the Weather Underground (forecast.py, lines
    928-937) *)

Definition directions : gmap string string :=
  list_to_map [("North", "N"); ("South", "S"); ("East", "E"); ("West", "W")].

Definition dirstr (s : string) : string :=
  match directions !! s with
  | Some d => d
  | None => s
  end.

(** ** The names of the lists of a matrix *)

(** A field name of the label table. *)
Definition is_field (name : string) : Prop :=
  ∃ label, nws_label_dict !! label = Some name.

(** The names a list of the matrix can go by while it is filled. *)
Definition list_name (name : string) : Prop :=
  name = "ts" ∨ name = "hour" ∨ name = "tempMin" ∨ name = "tempMax"
  ∨ is_field name.

Definition names_ok (m : gmap string (list cell)) : Prop :=
  ∀ name, is_Some (m !! name) → list_name name.

Definition fields_only (rows : gmap string string) : Prop :=
  ∀ name, is_Some (rows !! name) → is_field name.

(** The records of [bulletin_padded] for the forecast office 'BOX'. *)
Definition records_padded : list (gmap string rval) :=
  Eval vm_compute in
    match @nws_get_forecast UTC.timelib (λ _ _, Got bulletin_padded)
            "BOX" "http://localhost/pfm" 3 "ABC123" with
    | Return (Some rs) => rs
    | _ => []
    end.

(** The last entries of [ts] and [hour] are those of the last hour seen,
    on the day reached. *)
Definition last_ok (a : axis) : Prop :=
  match lasth a with
  | Some l => last (ts a) = Some (day a + l * 3600) ∧ last (hour a) = Some l
  | None => ts a = [] ∧ hour a = []
  end.

(** The 6-hour pass on the row "20 02", which ends in a token. *)
Definition axis6_trailing : axis :=
  Eval vm_compute in
    match hours6 "20 02" axis3_sample with
    | Return (a, _) => a
    | Raise _ => axis0 0
    end.

Definition indices6_trailing : gmap Z nat :=
  Eval vm_compute in
    match hours6 "20 02" axis3_sample with
    | Return (_, ind) => ind
    | Raise _ => ∅
    end.

(** What the row loop has seen when it is in the state [st]: [P3] (or
    [P6]) holds when it is in 3-hour (or 6-hour) mode or has stored a
    3-hour (or 6-hour) row. *)
Definition seen_hour_rows (st : rowsets) (P3 P6 : Prop) : Prop :=
  (mode st = Some 3 → P3) ∧ (mode st = Some 6 → P6) ∧
  (∀ k, is_Some (rows3 st !! k) → P3) ∧
  (∀ k, is_Some (rows6 st !! k) → P6).

(** ** The pattern of the issuance-time line *)














(** ** The state of the min/max walk at a slot *)

Definition flip (t : turn) : turn :=
  match t with NextMin => NextMax | NextMax => NextMin end.

(** The state in which the walk comes to slot [i]: the starting state,
    flipped once for every earlier value that is not null. *)
Fixpoint turn_at (t : turn) (src : list cell) (i : nat) : turn :=
  match i, src with
  | S i', None :: src' => turn_at t src' i'
  | S i', Some _ :: src' => turn_at (flip t) src' i'
  | _, _ => t
  end.

(** The two walks of one call of [filldata], over the targets [tmin] and
    [tmax]: the sequence under 'tempMinMax', if any, from the state min,
    then the sequence under 'tempMaxMin', if any, from the state max. *)
Definition two_walks (minmax maxmin : option (list cell))
    (tmin tmax : list cell) : list cell * list cell :=
  let first :=
    match minmax with
    | Some src => overlay NextMin src tmin tmax
    | None => (tmin, tmax)
    end in
  match maxmin with
  | Some src => overlay NextMax src first.1 first.2
  | None => first
  end.

(** The targets as the first call of [filldata] leaves them on
    [bulletin_trailing]: the "55" of the MIN/MAX row at slot 1. *)
Definition targets_first_call : gmap string (list cell) :=
  list_to_map
    [ ("tempMin", [None; Some (PStr "55"); None; None]);
      ("tempMax", [None; None; None; None]) ].

(** * Properties *)

(** ** The block of one station *)

(** Decides the facts about the lines of a concrete bulletin. *)
Ltac lines_facts :=
  repeat first [ apply Forall_nil | apply Forall_cons; split ];
  vm_compute; intuition (discriminate || eauto).

Lemma block_loop_open_is_Some id ls alllines :
  is_Some (block_loop id (Some ls) alllines).
Proof.
  revert ls. induction alllines as [|l rest IH]; intros ls; simpl; [by eexists|].
  destruct (Str.startswith l id); [apply IH|].
  destruct (Str.startswith l "$$"); [by eexists | apply IH].
Qed.

Lemma block_loop_before id pre alllines :
  Forall (λ l, ¬ id_line id l) pre →
  block_loop id None (pre ++ alllines) = block_loop id None alllines.
Proof.
  induction 1 as [|l pre Hl _ IH]; simpl; [done|].
  unfold id_line in Hl. by destruct (Str.startswith l id).
Qed.

Lemma block_loop_restart id st mid b alllines :
  Forall (λ l, ¬ end_line id l) mid →
  id_line id b →
  block_loop id st (mid ++ b :: alllines) = block_loop id (Some [b]) alllines.
Proof.
  intros Hmid Hb. revert st.
  induction Hmid as [|l mid Hl _ IH]; intros st; simpl.
  - unfold id_line in Hb. by rewrite Hb.
  - unfold end_line in Hl.
    destruct (Str.startswith l id) eqn:Hid; [apply IH|].
    destruct st as [ls|]; [|apply IH].
    destruct (Str.startswith l "$$") eqn:Hend; [|apply IH].
    by destruct Hl.
Qed.

Lemma block_loop_collect id ls rest post :
  Forall (λ l, ¬ id_line id l ∧ Str.startswith l "$$" = false) rest →
  (post = [] ∨ ∃ t post', post = t :: post' ∧ end_line id t) →
  block_loop id (Some ls) (rest ++ post) = Some (ls ++ rest).
Proof.
  intros Hrest Hpost. revert ls.
  induction Hrest as [|l rest [Hid Hend] _ IH]; intros ls; simpl.
  - rewrite app_nil_r.
    destruct Hpost as [->|(t & post' & -> & Ht1 & Ht2)]; simpl; [done|].
    by rewrite Ht1, Ht2.
  - unfold id_line in Hid. destruct (Str.startswith l id); [done|].
    rewrite Hend, IH. by rewrite <- app_assoc.
Qed.

Lemma station_block_decompose id pre mid b rest post :
  Forall (λ l, ¬ id_line id l) pre →
  Forall (λ l, ¬ end_line id l) mid →
  id_line id b →
  Forall (λ l, ¬ id_line id l ∧ Str.startswith l "$$" = false) rest →
  (post = [] ∨ ∃ t post', post = t :: post' ∧ end_line id t) →
  station_block (pre ++ mid ++ b :: rest ++ post) id = Some (b :: rest).
Proof.
  intros Hpre Hmid Hb Hrest Hpost. unfold station_block.
  rewrite block_loop_before by done.
  rewrite block_loop_restart by done.
  by rewrite block_loop_collect.
Qed.

Lemma station_block_None id alllines :
  station_block alllines id = None ↔ Forall (λ l, ¬ id_line id l) alllines.
Proof.
  unfold station_block, id_line. induction alllines as [|l rest IH]; simpl.
  - by split.
  - destruct (Str.startswith l id) eqn:Hid.
    + split.
      * intros H. destruct (block_loop_open_is_Some id [l] rest) as [x Hx].
        congruence.
      * intros H. apply Forall_cons in H as [H _]. by destruct H.
    + rewrite IH. split.
      * intros H. apply Forall_cons. split; [congruence | done].
      * intros H. by apply Forall_cons in H as [_ H].
Qed.

Lemma until_end_collect rest post :
  Forall (λ l, Str.startswith l "$$" = false) rest →
  (post = [] ∨ ∃ t post', post = t :: post' ∧ Str.startswith t "$$" = true) →
  until_end (rest ++ post) = rest.
Proof.
  intros Hrest Hpost. induction Hrest as [|l rest Hl _ IH]; simpl.
  - destruct Hpost as [->|(t & post' & -> & Ht)]; simpl; [done | by rewrite Ht].
  - by rewrite Hl, IH.
Qed.

Lemma first_block_decompose id pre a rest post :
  Forall (λ l, ¬ id_line id l) pre →
  id_line id a →
  Forall (λ l, ¬ id_line id l ∧ Str.startswith l "$$" = false) rest →
  (post = [] ∨ ∃ t post', post = t :: post' ∧ end_line id t) →
  first_block (pre ++ a :: rest ++ post) id = Some (a :: rest).
Proof.
  intros Hpre Ha Hrest Hpost. unfold id_line in *.
  induction Hpre as [|l pre Hl _ IH]; simpl.
  - rewrite Ha, until_end_collect; [done | |].
    + eapply Forall_impl; [exact Hrest|]. by intros l [_ H].
    + destruct Hpost as [->|(t & post' & -> & _ & Ht)]; [by left | right; eauto].
  - by destruct (Str.startswith l id).
Qed.

(** C8 (as amended). The extractor returns [None] exactly when no line
    starts with the identifier. When one does, the block ends just before
    the first later line that starts with "$$" and not with the
    identifier, or at the end of the text, and it begins at the last line
    before that point that starts with the identifier. When that line is
    the only one starting with the identifier, this is the range the
    specification describes. *)
Theorem station_block_range (id : string) (alllines : list string) :
  (station_block alllines id = None ↔ Forall (λ l, ¬ id_line id l) alllines) ∧
  (∀ pre mid b rest post,
     alllines = pre ++ mid ++ b :: rest ++ post →
     Forall (λ l, ¬ id_line id l) pre →
     Forall (λ l, ¬ end_line id l) mid →
     id_line id b →
     Forall (λ l, ¬ id_line id l ∧ Str.startswith l "$$" = false) rest →
     (post = [] ∨ ∃ t post', post = t :: post' ∧ end_line id t) →
     station_block alllines id = Some (b :: rest) ∧
     (mid = [] → first_block alllines id = Some (b :: rest))).
Proof.
  split; [apply station_block_None|].
  intros pre mid b rest post -> Hpre Hmid Hb Hrest Hpost. split.
  - by apply station_block_decompose.
  - intros ->. by apply first_block_decompose.
Qed.

Lemma station_block_range_witness :
  station_block [ "PREAMBLE"; "ABC123 first"; "one"; "$$"; "three" ] "ABC123"
    = Some [ "ABC123 first"; "one" ] ∧
  first_block [ "PREAMBLE"; "ABC123 first"; "one"; "$$"; "three" ] "ABC123"
    = Some [ "ABC123 first"; "one" ].
Proof.
  pose proof (station_block_range "ABC123"
                [ "PREAMBLE"; "ABC123 first"; "one"; "$$"; "three" ]) as [_ H].
  destruct (H ["PREAMBLE"] [] "ABC123 first" ["one"] ["$$"; "three"])
    as [H1 H2].
  - reflexivity.
  - lines_facts.
  - lines_facts.
  - reflexivity.
  - lines_facts.
  - right. exists "$$", ["three"]. lines_facts.
  - split; [exact H1 | exact (H2 eq_refl)].
Defined.

(** C8 (as stated) fails: with two lines starting with the identifier
    before the terminator, the returned block is not the range that
    starts at the first of them. *)
Lemma station_block_not_first :
  station_block lines_twice "ABC123" ≠ first_block lines_twice "ABC123".
Proof. by vm_compute. Qed.

(** C10. When a line starting with the identifier comes again after the
    block has begun and before it is terminated, the block is begun anew
    there: the result starts at the last such line before the terminator,
    and the earlier identifier line and the lines after it are not part
    of it. *)
Theorem station_block_restart (id : string)
    (pre : list string) (a : string) (mid : list string) (b : string)
    (rest post : list string) :
  Forall (λ l, ¬ id_line id l) pre →
  id_line id a →
  Forall (λ l, ¬ end_line id l) mid →
  id_line id b →
  Forall (λ l, ¬ id_line id l ∧ Str.startswith l "$$" = false) rest →
  (post = [] ∨ ∃ t post', post = t :: post' ∧ end_line id t) →
  station_block (pre ++ a :: mid ++ b :: rest ++ post) id = Some (b :: rest).
Proof.
  intros Hpre Ha Hmid Hb Hrest Hpost.
  apply (station_block_decompose id pre (a :: mid) b rest post); try done.
  constructor; [|done]. intros [Hna _]. unfold id_line in Ha. congruence.
Qed.

Lemma station_block_restart_witness :
  station_block lines_twice "ABC123" = Some [ "ABC123 second"; "two" ].
Proof.
  apply (station_block_restart "ABC123" ["PREAMBLE"] "ABC123 first" ["one"]
           "ABC123 second" ["two"] ["$$"; "three"]).
  - lines_facts.
  - reflexivity.
  - lines_facts.
  - reflexivity.
  - lines_facts.
  - right. exists "$$", ["three"]. lines_facts.
Defined.

(** ** Sorting the rows by granularity *)

Lemma for_each_app {A S : Type} (body : S → A → result S) s l1 l2 :
  for_each body s (l1 ++ l2) = (s' ← for_each body s l1; for_each body s' l2).
Proof.
  revert s. induction l1 as [|x l1 IH]; intros s; simpl; [done|].
  destruct (body s x); simpl; [apply IH | done].
Qed.

Lemma endswith_3_6 (s : string) :
  Str.endswith s "3HRLY" = true → Str.endswith s "6HRLY" = false.
Proof.
  unfold Str.endswith. change (String.rev "3HRLY") with "YLRH3".
  change (String.rev "6HRLY") with "YLRH6".
  destruct (String.rev s) as [|a1 [|a2 [|a3 [|a4 [|a5 r]]]]]; simpl; try done;
    repeat case_decide; subst; try done.
Qed.

Lemma classify_line_hour (st : rowsets) (g : Z) (line : string) :
  hour_row g line →
  classify_line st line =
    Return (if decide (g = 3)
            then Rowsets (Some g) (<["hour" := data_of line]> (rows3 st)) (rows6 st)
            else Rowsets (Some g) (rows3 st) (<["hour" := data_of line]> (rows6 st))).
Proof.
  intros [Hutc Hg]. unfold classify_line. rewrite Hutc.
  destruct Hg as [[-> H3]|[-> H6]].
  - by rewrite H3.
  - destruct (Str.endswith (label_of line) "3HRLY") eqn:H3.
    + apply endswith_3_6 in H3. congruence.
    + by rewrite H6.
Qed.

Lemma classify_line_data (st : rowsets) (g : Z) (field line : string) :
  data_row field line →
  mode st = Some g →
  g = 3 ∨ g = 6 →
  classify_line st line =
    Return (if decide (g = 3)
            then Rowsets (Some g) (<[field := data_of line]> (rows3 st)) (rows6 st)
            else Rowsets (Some g) (rows3 st) (<[field := data_of line]> (rows6 st))).
Proof.
  intros (Hutc & H3 & H6 & Hf) Hm Hg. unfold classify_line.
  rewrite Hutc, H3, H6, Hf, Hm. by destruct Hg as [-> | ->].
Qed.

Lemma classify_line_keeps_mode (st : rowsets) (g : Z) (line : string) :
  ¬ hour_row 3 line → ¬ hour_row 6 line →
  mode st = Some g →
  ∃ st', classify_line st line = Return st' ∧ mode st' = Some g.
Proof.
  intros Hn3 Hn6 Hm. unfold classify_line, hour_row in *.
  destruct (Str.startswith (label_of line) "UTC"); [by eauto|].
  destruct (Str.endswith (label_of line) "3HRLY"); [destruct Hn3; by eauto|].
  destruct (Str.endswith (label_of line) "6HRLY"); [destruct Hn6; by eauto|].
  rewrite Hm. destruct (nws_label_dict !! label_of line); [|by eauto].
  repeat case_decide; by eauto.
Qed.

Lemma classify_keeps_mode (st : rowsets) (g : Z) (mid : list string) :
  Forall (λ l, ¬ hour_row 3 l ∧ ¬ hour_row 6 l) mid →
  mode st = Some g →
  ∃ st', for_each classify_line st mid = Return st' ∧ mode st' = Some g.
Proof.
  intros Hmid. revert st. induction Hmid as [|l mid [H3 H6] _ IH]; intros st Hm.
  - by exists st.
  - destruct (classify_line_keeps_mode st g l H3 H6 Hm) as (st1 & E1 & Hm1).
    destruct (IH st1 Hm1) as (st2 & E2 & Hm2).
    exists st2. simpl. by rewrite E1.
Qed.

(** C9 (as amended). A labeled data row is put into the row set of the
    nearest hour row before it, where an hour row is a row whose label
    ends with "3HRLY" or "6HRLY" and does not start with "UTC": a line
    whose label starts with "UTC" is passed over and leaves the mode and
    both row sets as they are, also when its label ends with "3HRLY" or
    "6HRLY". When the loop has come through the lines [pre], then an
    hour row of granularity [g], then lines [mid] none of which is an
    hour row, it is in mode [g], and the data row that follows is stored
    under its field in [rows3] when [g] is 3 and in [rows6] when [g] is
    6, the other row set being left as it was. *)
Theorem classify_by_nearest_hour_row (pre : list string) (h : string)
    (mid : list string) (row field : string) (g : Z) (st0 : rowsets) :
  for_each classify_line (Rowsets None ∅ ∅) pre = Return st0 →
  hour_row g h →
  Forall (λ l, ¬ hour_row 3 l ∧ ¬ hour_row 6 l) mid →
  data_row field row →
  (∀ st l, Str.startswith (label_of l) "UTC" = true →
           classify_line st l = Return st ∧ ¬ hour_row 3 l ∧ ¬ hour_row 6 l) ∧
  ∃ st1,
    for_each classify_line (Rowsets None ∅ ∅) (pre ++ h :: mid) = Return st1 ∧
    mode st1 = Some g ∧
    for_each classify_line (Rowsets None ∅ ∅) (pre ++ h :: mid ++ [row]) =
      Return (if decide (g = 3)
              then Rowsets (Some 3) (<[field := data_of row]> (rows3 st1)) (rows6 st1)
              else Rowsets (Some 6) (rows3 st1) (<[field := data_of row]> (rows6 st1))).
Proof.
  intros Hpre Hh Hmid Hrow. split.
  { intros st l Hutc. unfold classify_line, hour_row. rewrite Hutc.
    split_and!; [done| |]; by intros [? _]. }
  assert (g = 3 ∨ g = 6) as Hg by (destruct Hh as [_ [[-> _]|[-> _]]]; auto).
  pose proof (classify_line_hour st0 g h Hh) as Eh.
  set (sth := if decide (g = 3)
              then Rowsets (Some g) (<["hour" := data_of h]> (rows3 st0)) (rows6 st0)
              else Rowsets (Some g) (rows3 st0) (<["hour" := data_of h]> (rows6 st0)))
    in Eh.
  assert (mode sth = Some g) as Hmh by (unfold sth; by case_decide).
  destruct (classify_keeps_mode sth g mid Hmid Hmh) as (st1 & E1 & Hm1).
  exists st1. split_and!.
  - rewrite for_each_app, Hpre. simpl. by rewrite Eh.
  - done.
  - change (h :: mid ++ [row]) with ((h :: mid) ++ [row]).
    rewrite app_assoc, for_each_app, for_each_app, Hpre. simpl.
    rewrite Eh. simpl. rewrite E1. simpl.
    rewrite (classify_line_data st1 g field row Hrow Hm1 Hg).
    by destruct Hg as [-> | ->].
Qed.

Lemma classify_by_nearest_hour_row_witness :
  ∃ st1,
    for_each classify_line (Rowsets None ∅ ∅)
      (header ++ ["EDT 3HRLY     14 17"; "UTC 6HRLY     18 00"]) = Return st1 ∧
    mode st1 = Some 3 ∧
    for_each classify_line (Rowsets None ∅ ∅)
      (header ++ ["EDT 3HRLY     14 17"; "UTC 6HRLY     18 00";
                  "TEMP          50 60"]) =
      Return (Rowsets (Some 3) (<["temp" := "50 60"]> (rows3 st1)) (rows6 st1)).
Proof.
  refine (proj2 (classify_by_nearest_hour_row header "EDT 3HRLY     14 17"
                   ["UTC 6HRLY     18 00"] "TEMP          50 60" "temp" 3
                   (Rowsets None ∅ ∅) _ _ _ _)).
  - reflexivity.
  - by vm_compute; auto.
  - lines_facts.
  - by vm_compute.
Defined.

(** The claim as the specification words it fails on
    [lines_utc_hour_row]: the nearest row before the "TEMP" row whose
    label ends with "3HRLY" or "6HRLY" is the 6-hour row labeled in UTC,
    and the loop stores the "TEMP" row in the 3-hour row set and not in
    the 6-hour one. *)
Lemma utc_hour_row_does_not_switch :
  hour_label 6 "UTC 6HRLY     18 00" ∧
  data_row "temp" "TEMP          50 60" ∧
  ∃ rs, classify lines_utc_hour_row = Return rs ∧
        mode rs = Some 3 ∧
        rows3 rs !! "temp" = Some "50 60" ∧
        rows6 rs !! "temp" = None.
Proof.
  split_and!.
  - right. by vm_compute.
  - by vm_compute.
  - eexists. split; [by vm_compute|]. by vm_compute.
Qed.

(** ** The 3-hour pass of the time axis *)

Arguments hour3_cell : simpl never.

Lemma hour3_cell_done (row : string) (n : nat) a ind a' ind' :
  cells_done row n a ind →
  hour3_cell row (a, ind) (n * 3) = Return (a', ind') →
  cells_done row (S n) a' ind'.
Proof.
  intros (Hts & Hhour & Hidx & Hcells & Hind) Hstep.
  unfold hour3_cell in Hstep.
  destruct (Str.int (Str.slice (n * 3) (n * 3 + 2) row)) as [h|e] eqn:Hint;
    simpl in Hstep; [|done].
  injection Hstep as <- <-. unfold cells_done; simpl. split_and!.
  - rewrite length_app. simpl. lia.
  - rewrite length_app. simpl. lia.
  - by rewrite Hidx.
  - intros k Hk. destruct (decide (k = n)) as [->|Hne].
    + exists h, (rollover (day a) (lasth a) h). split_and!; [done| |].
      * rewrite lookup_app_r by lia. by rewrite Hhour, Nat.sub_diag.
      * rewrite lookup_app_r by lia. by rewrite Hts, Nat.sub_diag.
    + destruct (Hcells k ltac:(lia)) as (h' & d' & E1 & E2 & E3).
      exists h', d'. split_and!; [done| |].
      * rewrite lookup_app_l by lia. done.
      * rewrite lookup_app_l by lia. done.
  - intros z j. rewrite Hidx.
    destruct (decide (z = Z.of_nat (n * 3) + 1)) as [->|Hne].
    + rewrite lookup_insert_eq. split.
      * intros [= <-]. split; [lia | done].
      * intros [_ Hz]. f_equal. lia.
    + rewrite lookup_insert_ne by done. rewrite Hind. split.
      * intros [Hj ->]. split; [lia | done].
      * intros [Hj ->]. split; [|done].
        destruct (decide (j = n)) as [->|]; [done | lia].
Qed.

Lemma hours3_loop_done (row : string) (n s : nat) a ind a' ind' :
  cells_done row s a ind →
  for_each (hour3_cell row) (a, ind) ((λ k, k * 3)%nat <$> seq s n)
    = Return (a', ind') →
  cells_done row (s + n) a' ind'.
Proof.
  revert s a ind. induction n as [|n IH]; intros s a ind Hdone Hloop; simpl in *.
  - injection Hloop as <- <-. by rewrite Nat.add_0_r.
  - destruct (hour3_cell row (a, ind) (s * 3)) as [[a1 ind1]|e] eqn:Hstep;
      simpl in Hloop; [|done].
    replace (s + S n)%nat with (S s + n)%nat by lia.
    eapply IH; [|exact Hloop]. by eapply hour3_cell_done.
Qed.

Lemma hours3_loop_returns (row : string) (n : nat) :
  ∀ (s : nat) (st : axis * gmap Z nat),
    (∀ k, (s ≤ k < s + n)%nat →
          ∃ h, Str.int (Str.slice (k * 3) (k * 3 + 2) row) = Return h) →
    ∃ st', for_each (hour3_cell row) st ((λ k, k * 3)%nat <$> seq s n)
           = Return st'.
Proof.
  induction n as [|n IH]; intros s [a ind] Hcells; simpl.
  - by eexists.
  - destruct (Hcells s ltac:(lia)) as [h Hh].
    destruct (hour3_cell row (a, ind) (s * 3)) as [st1|e] eqn:Hstep; simpl.
    + apply IH. intros k Hk. apply Hcells. lia.
    + unfold hour3_cell in Hstep. by rewrite Hh in Hstep.
Qed.

(** C7 (as amended). The 3-hour pass emits one entry of the time axis per
    3-character cell of the hour row, in the order of the cells, and the
    3-hour index map has exactly one entry per cell: the slot index
    [j] of cell [j] is recorded under column [3*j + 1], the column of the
    cell's second character, which is where a two-digit token of that
    cell ends. The pass goes through whenever every cell reads as an
    integer. *)
Theorem hours3_one_slot_per_cell (row : string) (day_ts : Z) :
  let n := ((String.length row + 3 - 1) / 3)%nat in
  ((∀ k, (k < n)%nat →
         ∃ h, Str.int (Str.slice (k * 3) (k * 3 + 2) row) = Return h) →
   ∃ a indices3, hours3 row (axis0 day_ts) = Return (a, indices3)) ∧
  (∀ (a : axis) (indices3 : gmap Z nat),
     hours3 row (axis0 day_ts) = Return (a, indices3) →
     length (ts a) = n ∧ length (hour a) = n ∧ idx a = n ∧
     (∀ k, (k < n)%nat →
        ∃ h d, Str.int (Str.slice (k * 3) (k * 3 + 2) row) = Return h ∧
               hour a !! k = Some h ∧ ts a !! k = Some (d + h * 3600)) ∧
     (∀ z j, indices3 !! z = Some j ↔ (j < n)%nat ∧ z = Z.of_nat (j * 3) + 1)).
Proof.
  intros n. split.
  - intros Hcells.
    destruct (hours3_loop_returns row n 0 (axis0 day_ts, ∅)) as [[a ind] E].
    + intros k Hk. apply Hcells. lia.
    + by exists a, ind.
  - intros a indices3 Hrun. unfold hours3, range_step in Hrun.
    apply (hours3_loop_done row n 0 (axis0 day_ts) ∅); [|exact Hrun].
    unfold cells_done; simpl. split_and!; try done; try (intros; lia).
    intros z j. rewrite lookup_empty. split; [done | lia].
Qed.

Lemma hours3_one_slot_per_cell_witness :
  ∃ a indices3,
    hours3 "14 17" (axis0 1368230400) = Return (a, indices3) ∧
    length (ts a) = 2%nat ∧
    indices3 !! 1 = Some 0%nat ∧ indices3 !! 4 = Some 1%nat.
Proof.
  destruct (hours3_one_slot_per_cell "14 17" 1368230400) as [Hret Hdone].
  destruct Hret as (a & ind & Hrun).
  { intros k Hk. vm_compute in Hk.
    destruct k as [|[|k]]; [by eexists..|lia]. }
  destruct (Hdone a ind Hrun) as (Hlen & _ & _ & _ & Hind).
  exists a, ind. split_and!; [done | done | |].
  - apply Hind. vm_compute. split; [lia | done].
  - apply Hind. vm_compute. split; [lia | done].
Defined.

(** C7 (as stated) fails: the index map has no entry under the starting
    columns 0 and 3 of the two cells of the row "14 17"; the entries are
    under columns 1 and 4. *)
Lemma hours3_not_keyed_by_cell_start :
  ∃ a indices3,
    hours3 "14 17" (axis0 1368230400) = Return (a, indices3) ∧
    indices3 !! 0 = None ∧ indices3 !! 3 = None ∧
    indices3 !! 1 = Some 0%nat ∧ indices3 !! 4 = Some 1%nat.
Proof. eexists _, _. split; [by vm_compute|]. by vm_compute. Qed.

(** ** The 6-hour pass and the last token of its row *)

(** C1 (defect of the code). The token that ends the 6-hour row without
    white space after it is appended by the code after the loop, where
    the day is not advanced when the hour is less than the one before.
    The block of [bulletin_trailing] has the hours 14 17 and 20 02: the
    parse returns a matrix whose last timestamp, for hour 02, is 18 hours
    before the one for hour 20, so the time axis is not increasing. With
    white space after the 02 ([bulletin_padded]) the token is closed
    inside the loop and the same hours give an increasing axis. *)
Theorem trailing_hour_not_rolled_over :
  list_of "ts" (@ParseNWSForecast UTC.timelib bulletin_trailing "ABC123")
    = Some (ints [1368280800; 1368291600; 1368302400; 1368237600]) ∧
  list_of "ts" (@ParseNWSForecast UTC.timelib bulletin_padded "ABC123")
    = Some (ints [1368280800; 1368291600; 1368302400; 1368324000]).
Proof. split; by vm_compute. Qed.

(** ** The min/max walk *)

Arguments minmax_slot : simpl never.

Lemma minmax_slot_null src st i :
  src !! i = Some None → minmax_slot src st i = Return st.
Proof.
  intros Hv. unfold minmax_slot, index. destruct st as [[state tmin] tmax].
  by rewrite Hv.
Qed.

Lemma minmax_slot_min src tmin tmax i v :
  src !! i = Some (Some v) → (i < length tmin)%nat →
  minmax_slot src (0, tmin, tmax) i = Return (1, <[i := Some v]> tmin, tmax).
Proof.
  intros Hv Hi. unfold minmax_slot, index, setitem. rewrite Hv. simpl.
  by rewrite decide_True by done.
Qed.

Lemma minmax_slot_max src state tmin tmax i v :
  src !! i = Some (Some v) → (i < length tmax)%nat → state ≠ 0 →
  minmax_slot src (state, tmin, tmax) i
  = Return (0, tmin, <[i := Some v]> tmax).
Proof.
  intros Hv Hi Hne. unfold minmax_slot, index, setitem. rewrite Hv. simpl.
  rewrite decide_False by done. by rewrite decide_True by done.
Qed.

Lemma minmax_loop_overlay (src : list cell) :
  ∀ (pre pmin pmax qmin qmax : list cell) (state : Z),
    length pmin = length pre → length pmax = length pre →
    length qmin = length src → length qmax = length src →
    ∃ state',
      for_each (minmax_slot (pre ++ src)) (state, pmin ++ qmin, pmax ++ qmax)
        (seq (length pre) (length src))
      = Return (state',
                pmin ++ (overlay (turn_of state) src qmin qmax).1,
                pmax ++ (overlay (turn_of state) src qmin qmax).2).
Proof.
  induction src as [|v src IH]; intros pre pmin pmax qmin qmax state
    Hpmin Hpmax Hqmin Hqmax.
  - destruct qmin, qmax; try done. by exists state.
  - destruct qmin as [|x qmin], qmax as [|y qmax]; try done.
    simpl in Hqmin, Hqmax.
    assert ((pre ++ v :: src) !! length pre = Some v) as Hv
      by apply list_lookup_middle, eq_refl.
    cbn [length seq for_each].
    specialize (IH (pre ++ [v])).
    rewrite length_app, <- app_assoc in IH. simpl in IH.
    rewrite Nat.add_1_r in IH.
    destruct v as [v|].
    + destruct (decide (state = 0)) as [->|Hne].
      * destruct (IH (pmin ++ [Some v]) (pmax ++ [y]) qmin qmax 1)
          as [state' E]; rewrite ?length_app; simpl; try lia.
        exists state'.
        rewrite (minmax_slot_min _ _ _ _ v Hv)
          by (rewrite length_app; simpl; lia).
        simpl. rewrite insert_app_r_alt by lia.
        rewrite Hpmin, Nat.sub_diag. simpl.
        rewrite <- !app_assoc in E. simpl in E. rewrite E.
        change (turn_of 0) with NextMin. change (turn_of 1) with NextMax.
        simpl. by destruct (overlay NextMax src qmin qmax).
      * destruct (IH (pmin ++ [x]) (pmax ++ [Some v]) qmin qmax 0)
          as [state' E]; rewrite ?length_app; simpl; try lia.
        exists state'.
        rewrite (minmax_slot_max _ _ _ _ _ v Hv)
          by (done || rewrite length_app; simpl; lia).
        simpl. rewrite insert_app_r_alt by lia.
        rewrite Hpmax, Nat.sub_diag. simpl.
        rewrite <- !app_assoc in E. simpl in E. rewrite E.
        assert (turn_of state = NextMax) as ->
          by (unfold turn_of; by rewrite decide_False).
        change (turn_of 0) with NextMin.
        simpl. by destruct (overlay NextMin src qmin qmax).
    + destruct (IH (pmin ++ [x]) (pmax ++ [y]) qmin qmax state)
        as [state' E]; rewrite ?length_app; simpl; try lia.
      exists state'. rewrite (minmax_slot_null _ _ _ Hv). simpl.
      rewrite <- !app_assoc in E. simpl in E. rewrite E.
      simpl. by destruct (overlay (turn_of state) src qmin qmax).
Qed.

Lemma overlay_fresh (t : turn) (src : list cell) :
  overlay t src (replicate (length src) None) (replicate (length src) None)
  = resolver t src.
Proof.
  revert t. induction src as [|[v|] src IH]; intros t; simpl; [done| |].
  - destruct t; by rewrite IH.
  - by rewrite IH.
Qed.

Lemma resolve_removes (key : string) (state : Z) (nidx : nat)
    (m m' : gmap string (list cell)) :
  resolve key state nidx m = Return m' → m' !! key = None.
Proof.
  unfold resolve. destruct (m !! key) as [src|] eqn:Hkey; [|by intros [= <-]].
  destruct (getitem m "tempMin"); simpl; [|done].
  destruct (getitem m "tempMax"); simpl; [|done].
  destruct (minmax_walk state nidx src a a0) as [[[s mn] mx]|]; simpl; [|done].
  intros [= <-]. apply lookup_delete_eq.
Qed.

Lemma minmax_walk_overlay (state : Z) (src tmin tmax : list cell) :
  length tmin = length src → length tmax = length src →
  ∃ state',
    minmax_walk state (length src) src tmin tmax
    = Return (state', (overlay (turn_of state) src tmin tmax).1,
                      (overlay (turn_of state) src tmin tmax).2).
Proof.
  intros Hmin Hmax.
  exact (minmax_loop_overlay src [] [] [] tmin tmax state
           eq_refl eq_refl Hmin Hmax).
Qed.

(** ** Decoding a data row *)

Lemma bind_Return_r {A : Type} (r : result A) : (r ≫= Return) = r.
Proof. by destruct r. Qed.

Lemma bind_assoc {A B C : Type} (r : result A) (f : A → result B)
    (g : B → result C) :
  ((r ≫= f) ≫= g) = (r ≫= λ a, f a ≫= g).
Proof. by destruct r. Qed.

Lemma len_String c s : Str.len (String c s) = Str.len s + 1.
Proof. unfold Str.len. simpl. lia. Qed.

Arguments store : simpl never.

Lemma fill_loop_tokens (indices : gmap Z nat) (row : string) :
  ∀ (i : Z) (s : string) (l : list cell),
    (fill_loop indices row i s l ≫= λ '(s', l'),
       if decide (0 < Str.len s') then store indices (i + Str.len row - 1) s' l'
       else Return l')
    = for_each (store_token indices) l (tokens_from row i s).
Proof.
  induction row as [|c row IH]; intros i s l.
  - simpl. replace (i + Str.len "" - 1) with (i - 1) by (unfold Str.len; simpl; lia).
    case_decide; simpl; [|done]. unfold store_token. simpl.
    by rewrite bind_Return_r.
  - simpl. rewrite len_String.
    replace (i + (Str.len row + 1) - 1) with (i + 1 + Str.len row - 1) by lia.
    destruct (Str.isspace c).
    + rewrite bind_assoc.
      case_decide; cbn [app for_each].
      * change (store_token indices l (s, i - 1))
          with (store indices (i - 1) s l).
        destruct (store indices (i - 1) s l); simpl; [apply IH | done].
      * apply IH.
    + apply IH.
Qed.

Lemma fill_row_tokens (indices : gmap Z nat) (row : string) (l : list cell) :
  fill_row indices row l = for_each (store_token indices) l (tokens row).
Proof.
  unfold fill_row, tokens. rewrite <- fill_loop_tokens. simpl.
  by replace (0 + Str.len row - 1) with (Str.len row - 1) by lia.
Qed.

Lemma store_token_cases (indices : gmap Z nat) (l : list cell) tk :
  match indices !! tk.2 with
  | None => store_token indices l tk = Raise KeyError
  | Some j =>
      if decide (j < length l)%nat
      then store_token indices l tk = Return (<[j := Some (PStr tk.1)]> l)
      else store_token indices l tk = Raise IndexError
  end.
Proof.
  unfold store_token, store, getitem, setitem.
  destruct (indices !! tk.2) as [j|]; simpl; [|done]. by case_decide.
Qed.

Lemma store_tokens_length (indices : gmap Z nat) (tks : list (string * Z)) :
  ∀ l l', for_each (store_token indices) l tks = Return l' →
          length l' = length l.
Proof.
  induction tks as [|tk tks IH]; intros l l' Hrun; simpl in Hrun.
  - by injection Hrun as <-.
  - pose proof (store_token_cases indices l tk) as Hc.
    destruct (indices !! tk.2) as [j|]; [|by rewrite Hc in Hrun].
    case_decide; rewrite Hc in Hrun; simpl in Hrun; [|done].
    rewrite (IH _ _ Hrun). apply length_insert.
Qed.

Lemma store_tokens_unassignable (indices : gmap Z nat)
    (tks : list (string * Z)) :
  ∀ l, slots_below (length l) indices →
       Exists (unassignable indices) tks →
       for_each (store_token indices) l tks = Raise KeyError.
Proof.
  induction tks as [|tk tks IH]; intros l Hbelow Hex.
  - by apply Exists_nil in Hex.
  - simpl. pose proof (store_token_cases indices l tk) as Hc.
    destruct (indices !! tk.2) as [j|] eqn:Hj; [|by rewrite Hc].
    rewrite decide_True in Hc by (by eapply Hbelow). rewrite Hc. simpl.
    apply IH.
    + by rewrite length_insert.
    + apply Exists_cons in Hex as [Hbad|Hex]; [|done].
      unfold unassignable in Hbad. congruence.
Qed.

Lemma store_tokens_assignable (indices : gmap Z nat)
    (tks : list (string * Z)) :
  ∀ l, slots_below (length l) indices →
       ¬ Exists (unassignable indices) tks →
       ∃ l', for_each (store_token indices) l tks = Return l'.
Proof.
  induction tks as [|tk tks IH]; intros l Hbelow Hex.
  - by exists l.
  - simpl. pose proof (store_token_cases indices l tk) as Hc.
    destruct (indices !! tk.2) as [j|] eqn:Hj.
    + rewrite decide_True in Hc by (by eapply Hbelow). rewrite Hc. simpl.
      apply IH; [by rewrite length_insert|].
      intros H. apply Hex. by apply Exists_cons_tl.
    + destruct Hex. by apply Exists_cons_hd.
Qed.

(** ** What [filldata] keeps *)

Arguments fill_row : simpl never.
Arguments fill_label : simpl never.
Arguments resolve : simpl never.

Lemma default_none_length key nidx m :
  all_length nidx m → all_length nidx (default_none key nidx m).
Proof.
  intros Hm name l. unfold default_none.
  destruct (m !! key) eqn:Hkey; [apply Hm|].
  destruct (decide (key = name)) as [->|Hne].
  - rewrite lookup_insert_eq. intros [= <-]. apply length_replicate.
  - rewrite lookup_insert_ne by done. apply Hm.
Qed.

Lemma default_none_keeps key nidx (m : gmap string (list cell)) name :
  is_Some (m !! name) → is_Some (default_none key nidx m !! name).
Proof.
  intros Hname. unfold default_none. destruct (m !! key) eqn:Hkey; [done|].
  destruct (decide (key = name)) as [->|Hne].
  - rewrite lookup_insert_eq. by eexists.
  - by rewrite lookup_insert_ne.
Qed.

Lemma default_none_has key nidx (m : gmap string (list cell)) :
  is_Some (default_none key nidx m !! key).
Proof.
  unfold default_none. destruct (m !! key) eqn:Hkey.
  - rewrite Hkey. by eexists.
  - rewrite lookup_insert_eq. by eexists.
Qed.

Lemma fill_label_cases nidx indices m label row :
  all_length nidx m →
  ∃ l, length l = nidx ∧ default_none label nidx m !! label = Some l ∧
       fill_label nidx indices m (label, row)
       = (l' ← for_each (store_token indices) l (tokens row);
          Return (<[label := l']> (default_none label nidx m))).
Proof.
  intros Hm. destruct (default_none_has label nidx m) as [l Hl].
  exists l. split_and!.
  - by apply (default_none_length label nidx m Hm label).
  - done.
  - unfold fill_label, getitem. rewrite Hl. simpl.
    by rewrite fill_row_tokens.
Qed.

Lemma fill_label_keeps nidx indices m label row m' :
  all_length nidx m →
  fill_label nidx indices m (label, row) = Return m' →
  all_length nidx m' ∧ ∀ name, is_Some (m !! name) → is_Some (m' !! name).
Proof.
  intros Hm Hrun.
  destruct (fill_label_cases nidx indices m label row Hm) as (l & Hlen & Hl & E).
  rewrite E in Hrun.
  destruct (for_each (store_token indices) l (tokens row)) as [l'|] eqn:Hst;
    simpl in Hrun; [|done].
  injection Hrun as <-. apply store_tokens_length in Hst. split.
  - intros name l0. destruct (decide (label = name)) as [->|Hne].
    + rewrite lookup_insert_eq. intros [= <-]. congruence.
    + rewrite lookup_insert_ne by done. by apply default_none_length.
  - intros name Hname. destruct (decide (label = name)) as [->|Hne].
    + rewrite lookup_insert_eq. by eexists.
    + rewrite lookup_insert_ne by done. by apply default_none_keeps.
Qed.

Lemma fill_labels_keep nidx indices (rows : list (string * string)) :
  ∀ m m', all_length nidx m →
          for_each (fill_label nidx indices) m rows = Return m' →
          all_length nidx m' ∧ ∀ name, is_Some (m !! name) → is_Some (m' !! name).
Proof.
  induction rows as [|[label row] rows IH]; intros m m' Hm Hrun; simpl in Hrun.
  - by injection Hrun as <-.
  - destruct (fill_label nidx indices m (label, row)) as [m1|] eqn:Hstep;
      simpl in Hrun; [|done].
    destruct (fill_label_keeps _ _ _ _ _ _ Hm Hstep) as [Hm1 Hk1].
    destruct (IH m1 m' Hm1 Hrun) as [Hm' Hk']. split; [done|].
    intros name Hname. by apply Hk', Hk1.
Qed.

Lemma fill_labels_unassignable nidx indices (rows : list (string * string)) :
  ∀ m, all_length nidx m →
       slots_below nidx indices →
       Exists (λ lr, Exists (unassignable indices) (tokens lr.2)) rows →
       for_each (fill_label nidx indices) m rows = Raise KeyError.
Proof.
  induction rows as [|[label row] rows IH]; intros m Hm Hbelow Hex.
  - by apply Exists_nil in Hex.
  - simpl.
    destruct (fill_label_cases nidx indices m label row Hm) as (l & Hlen & Hl & E).
    rewrite E. rewrite <- Hlen in Hbelow.
    destruct (decide (Exists (unassignable indices) (tokens row))) as [Hbad|Hok].
    + by rewrite (store_tokens_unassignable indices (tokens row) l Hbelow Hbad).
    + destruct (store_tokens_assignable indices (tokens row) l Hbelow Hok)
        as [l' Hst].
      rewrite Hst. simpl. rewrite Hlen in Hbelow.
      apply IH; [|done|].
      * assert (fill_label nidx indices m (label, row)
                = Return (<[label:=l']> (default_none label nidx m))) as Hstep
          by (by rewrite E, Hst).
        by destruct (fill_label_keeps _ _ _ _ _ _ Hm Hstep).
      * apply Exists_cons in Hex as [Hbad|Hex]; [done | done].
Qed.

Lemma minmax_loop_length (src : list cell) (slots : list nat) :
  ∀ state tmin tmax state' tmin' tmax',
    for_each (minmax_slot src) (state, tmin, tmax) slots
    = Return (state', tmin', tmax') →
    length tmin' = length tmin ∧ length tmax' = length tmax.
Proof.
  induction slots as [|i slots IH]; intros state tmin tmax state' tmin' tmax' Hrun;
    simpl in Hrun.
  - by injection Hrun as <- <- <-.
  - destruct (minmax_slot src (state, tmin, tmax) i) as [[[s1 mn1] mx1]|] eqn:Hstep;
      simpl in Hrun; [|done].
    destruct (IH _ _ _ _ _ _ Hrun) as [-> ->].
    unfold minmax_slot, index, setitem in Hstep.
    destruct (src !! i) as [[v|]|]; simpl in Hstep; [| |done].
    + repeat case_decide; simpl in Hstep; try done;
        injection Hstep as <- <- <-; by rewrite ?length_insert.
    + by injection Hstep as <- <- <-.
Qed.

Lemma resolve_keeps key state nidx m m' :
  all_length nidx m →
  resolve key state nidx m = Return m' →
  all_length nidx m' ∧
  ∀ name, name ≠ key → is_Some (m !! name) → is_Some (m' !! name).
Proof.
  intros Hm Hrun. unfold resolve, getitem in Hrun.
  destruct (m !! key) as [src|] eqn:Hkey; [|by injection Hrun as <-].
  destruct (m !! "tempMin") as [tmin|] eqn:Hmin; simpl in Hrun; [|done].
  destruct (m !! "tempMax") as [tmax|] eqn:Hmax; simpl in Hrun; [|done].
  destruct (minmax_walk state nidx src tmin tmax) as [[[s mn] mx]|] eqn:Hwalk;
    simpl in Hrun; [|done].
  injection Hrun as <-.
  apply minmax_loop_length in Hwalk as [Hmn Hmx]. split.
  - intros name l Hl.
    apply lookup_delete_Some in Hl as [Hne Hl].
    apply lookup_insert_Some in Hl as [[<- <-]|[Hne1 Hl]].
    { rewrite Hmx. by apply (Hm "tempMax"). }
    apply lookup_insert_Some in Hl as [[<- <-]|[Hne2 Hl]].
    { rewrite Hmn. by apply (Hm "tempMin"). }
    by apply (Hm name).
  - intros name Hne Hname. rewrite lookup_delete_ne by done.
    destruct (decide ("tempMax" = name)) as [<-|Hne1];
      [rewrite lookup_insert_eq; by eexists|].
    rewrite lookup_insert_ne by done.
    destruct (decide ("tempMin" = name)) as [<-|Hne2];
      [rewrite lookup_insert_eq; by eexists|].
    by rewrite lookup_insert_ne.
Qed.

Lemma filldata_keeps m nidx rows indices m' :
  all_length nidx m →
  filldata m nidx rows indices = Return m' →
  all_length nidx m' ∧
  (∀ name, name ≠ "tempMinMax" → name ≠ "tempMaxMin" →
           is_Some (m !! name) → is_Some (m' !! name)) ∧
  is_Some (m' !! "tempMin") ∧ is_Some (m' !! "tempMax").
Proof.
  intros Hm Hrun. unfold filldata in Hrun.
  destruct (for_each (fill_label nidx indices) m (map_to_list rows)) as [m1|]
    eqn:Hfill; simpl in Hrun; [|done].
  destruct (fill_labels_keep _ _ _ _ _ Hm Hfill) as [Hm1 Hk1].
  set (m2 := default_none "tempMax" nidx (default_none "tempMin" nidx m1)) in *.
  assert (all_length nidx m2) as Hm2 by by do 2 apply default_none_length.
  destruct (resolve "tempMinMax" 0 nidx m2) as [m3|] eqn:Hr1; simpl in Hrun; [|done].
  destruct (resolve_keeps _ _ _ _ _ Hm2 Hr1) as [Hm3 Hk3].
  destruct (resolve_keeps _ _ _ _ _ Hm3 Hrun) as [Hm' Hk'].
  split_and!; [done| | |].
  - intros name Hn1 Hn2 Hname. apply Hk'; [done|]. apply Hk3; [done|].
    by do 2 apply default_none_keeps; apply Hk1.
  - apply Hk'; [done|]. apply Hk3; [done|].
    apply default_none_keeps, default_none_has.
  - apply Hk'; [done|]. apply Hk3; [done|]. apply default_none_has.
Qed.

(** ** A token without a slot *)

(** C2 (as amended). When a token of a data row ends in a column that
    has no entry in the index map, the token is not dropped: looking up
    its slot raises [KeyError], the rest of the row is not decoded, and
    the error leaves [filldata] (and with it the whole parse). *)
Theorem filldata_unassignable_token (m : gmap string (list cell)) (nidx : nat)
    (rows : gmap string string) (indices : gmap Z nat)
    (label row tok : string) (k : Z) :
  all_length nidx m →
  slots_below nidx indices →
  rows !! label = Some row →
  (tok, k) ∈ tokens row →
  indices !! k = None →
  fill_row indices row (replicate nidx None) = Raise KeyError ∧
  filldata m nidx rows indices = Raise KeyError.
Proof.
  intros Hm Hbelow Hrow Htok Hk.
  assert (Exists (unassignable indices) (tokens row)) as Hbad.
  { apply Exists_exists. by exists (tok, k). }
  split.
  - rewrite fill_row_tokens. apply store_tokens_unassignable; [|done].
    by rewrite length_replicate.
  - unfold filldata.
    rewrite (fill_labels_unassignable nidx indices (map_to_list rows) m);
      [done..|].
    apply Exists_exists. exists (label, row). split; [|done].
    by apply elem_of_map_to_list.
Qed.

Lemma filldata_unassignable_token_witness :
  fill_row indices_example "50  60" (replicate 5 None) = Raise KeyError ∧
  filldata ∅ 5 {[ "temp" := "50  60" ]} indices_example = Raise KeyError.
Proof.
  apply (filldata_unassignable_token ∅ 5 {[ "temp" := "50  60" ]}
           indices_example "temp" "50  60" "60" 5).
  - intros name l Hl. by rewrite lookup_empty in Hl.
  - intros k j Hkj. apply elem_of_list_to_map_2 in Hkj.
    repeat (apply elem_of_cons in Hkj as [[= _ ->]|Hkj]; [lia|]).
    by apply elem_of_nil in Hkj.
  - reflexivity.
  - vm_compute. apply list_elem_of_In. right. by left.
  - reflexivity.
Defined.

(** C2 (as stated) fails: in [bulletin_shifted] the second token of the
    "TEMP" row ends one column to the right of the second 3-hour cell;
    the parse raises [KeyError] instead of dropping the token. *)
Lemma unassignable_token_raises :
  fill_row indices_example "50  60" (replicate 5 None) = Raise KeyError ∧
  @ParseNWSForecast UTC.timelib bulletin_shifted "ABC123" = Raise KeyError.
Proof. split; by vm_compute. Qed.

(** ** The lists of a returned matrix *)

Arguments hour6_token : simpl never.

Lemma hours3_axis_ok row day_ts a indices3 :
  hours3 row (axis0 day_ts) = Return (a, indices3) → axis_ok a.
Proof.
  intros Hrun. unfold hours3, range_step in Hrun.
  apply (hours3_loop_done row _ 0 (axis0 day_ts) ∅) in Hrun
    as (Hts & Hhour & Hidx & _).
  - unfold axis_ok. by rewrite Hts, Hhour, Hidx.
  - unfold cells_done; simpl. split_and!; try done; try (intros; lia).
    intros z j. rewrite lookup_empty. split; [done | lia].
Qed.

Lemma hour6_token_ok s i a ind a' ind' :
  axis_ok a → hour6_token s i (a, ind) = Return (a', ind') → axis_ok a'.
Proof.
  intros [Hts Hhour] Hrun. unfold hour6_token in Hrun.
  destruct (Str.int s) as [h|]; simpl in Hrun; [|done].
  injection Hrun as <- _. unfold axis_ok; simpl.
  rewrite !length_app. simpl. lia.
Qed.

Lemma hours6_loop_ok (row : string) :
  ∀ i s a ind s' a' ind',
    axis_ok a →
    hours6_loop row i s (a, ind) = Return (s', (a', ind')) → axis_ok a'.
Proof.
  induction row as [|c row IH]; intros i s a ind s' a' ind' Hok Hrun;
    simpl in Hrun.
  - by injection Hrun as _ <- _.
  - destruct (Str.isspace c); [|by eapply IH].
    case_decide; simpl in Hrun; [|by eapply IH].
    destruct (hour6_token s i (a, ind)) as [[a1 ind1]|] eqn:Htok;
      simpl in Hrun; [|done].
    eapply IH; [|exact Hrun]. by eapply hour6_token_ok.
Qed.

Lemma hours6_axis_ok row a a' indices6 :
  axis_ok a → hours6 row a = Return (a', indices6) → axis_ok a'.
Proof.
  intros Hok Hrun. unfold hours6 in Hrun.
  destruct (hours6_loop row 0 "" (a, ∅)) as [[s [a1 ind1]]|] eqn:Hloop;
    simpl in Hrun; [|done].
  apply hours6_loop_ok in Hloop; [|done]. unfold hour6_last in Hrun.
  case_decide; [|by injection Hrun as <- _].
  destruct (Str.int s) as [h|]; simpl in Hrun; [|done].
  injection Hrun as <- _. destruct Hloop as [Hts Hhour].
  unfold axis_ok; simpl. rewrite !length_app. simpl. lia.
Qed.



(** ** A header that is not an issuance time *)


(** ** A block without hour rows *)

Lemma classify_line_no_hour (st st' : rowsets) (line : string) :
  no_hour_label line →
  mode st = None → rows3 st = ∅ →
  classify_line st line = Return st' →
  mode st' = None ∧ rows3 st' = ∅.
Proof.
  intros [H3 H6] Hmode Hrows. unfold classify_line. rewrite H3, H6, Hmode.
  destruct (Str.startswith (label_of line) "UTC"); [by intros [= <-]|].
  destruct (nws_label_dict !! label_of line); [done|]. by intros [= <-].
Qed.

Lemma classify_no_hours (lines : list string) :
  ∀ st st', Forall no_hour_label lines →
            mode st = None → rows3 st = ∅ →
            for_each classify_line st lines = Return st' →
            rows3 st' = ∅.
Proof.
  induction lines as [|l lines IH]; intros st st' Hlines Hmode Hrows Hrun;
    simpl in Hrun.
  - by injection Hrun as <-.
  - apply Forall_cons in Hlines as [Hl Hlines].
    destruct (classify_line st l) as [st1|] eqn:Hstep; simpl in Hrun; [|done].
    destruct (classify_line_no_hour st st1 l Hl Hmode Hrows Hstep) as [Hm1 Hr1].
    by apply (IH st1 st').
Qed.

(** C4 (as amended). When the block of the station has no hour rows,
    [ParseNWSForecast] does not return: it raises. When the block has a
    readable issuance time and the sorting of the rows went through, the
    exception is the [KeyError] of [rows3['hour']]. *)
Theorem no_hour_rows_raises `{TimeLib} (text id : string)
    (lines : list string) :
  station_block (Str.splitlines text) id = Some lines →
  Forall no_hour_label lines →
  (∃ e, ParseNWSForecast text id = Raise e) ∧
  (∀ hdr t rs, lines !! 3%nat = Some hdr → date2ts hdr = Return t →
               classify lines = Return rs →
               ParseNWSForecast text id = Raise KeyError).
Proof.
  intros Hblock Hlines.
  assert (∀ rs, classify lines = Return rs →
                getitem (rows3 rs) "hour" = Raise KeyError) as Hkey.
  { intros rs Hrs. apply classify_no_hours in Hrs; [|done..].
    unfold getitem. by rewrite Hrs, lookup_empty. }
  unfold ParseNWSForecast. rewrite Hblock. split.
  - destruct (index lines 3) as [hdr|e]; simpl; [|by eauto].
    destruct (date2ts hdr) as [t|e]; simpl; [|by eauto].
    destruct (classify lines) as [rs|e] eqn:Hrs; simpl; [|by eauto].
    destruct (index lines 1) as [desc|e]; simpl; [|by eauto].
    destruct (index lines 2) as [loc|e]; simpl; [|by eauto].
    rewrite (Hkey rs eq_refl). simpl. by eauto.
  - intros hdr t rs Hhdr Ht Hrs. unfold index. rewrite Hhdr. simpl.
    rewrite Ht. simpl. rewrite Hrs. simpl.
    destruct (lines !! 1%nat) as [desc|] eqn:H1; simpl.
    2:{ apply lookup_ge_None in H1. apply lookup_lt_Some in Hhdr. lia. }
    destruct (lines !! 2%nat) as [loc|] eqn:H2; simpl.
    2:{ apply lookup_ge_None in H2. apply lookup_lt_Some in Hhdr. lia. }
    by rewrite (Hkey rs Hrs).
Qed.

Lemma no_hour_rows_raises_witness :
  @ParseNWSForecast UTC.timelib bulletin_no_hours "ABC123" = Raise KeyError.
Proof.
  destruct (@no_hour_rows_raises UTC.timelib bulletin_no_hours "ABC123"
              (header ++ [ ""; "DATE             SAT 05/11/13" ]))
    as [_ Hkey].
  - by vm_compute.
  - lines_facts.
  - apply (Hkey "418 PM EDT SAT MAY 11 2013" 1368289080 (Rowsets None ∅ ∅));
      by vm_compute.
Defined.

(** C4 (as stated) fails: on [bulletin_no_hours], whose block has the
    identifier and no hour row, the parse does not return [None] or an
    empty matrix; it raises [KeyError]. *)
Lemma no_hour_rows_not_None :
  @ParseNWSForecast UTC.timelib bulletin_no_hours "ABC123" ≠ Return None ∧
  @ParseNWSForecast UTC.timelib bulletin_no_hours "ABC123" = Raise KeyError.
Proof. split; by vm_compute. Qed.

(** * Further properties of the decoder *)

(** ** No block, no forecast *)

Lemma parse_None_no_id_line `{TimeLib} (text id : string) :
  ParseNWSForecast text id = Return None ↔
  Forall (λ l, ¬ id_line id l) (Str.splitlines text).
Proof.
  rewrite <- station_block_None. unfold ParseNWSForecast.
  destruct (station_block (Str.splitlines text) id) as [lines|]; [|done].
  split; [|done]. intros Hrun. exfalso.
  destruct (index lines 3) as [hdr|]; simpl in Hrun; [|done].
  destruct (date2ts hdr) as [t|]; simpl in Hrun; [|done].
  destruct (classify lines) as [rs|]; simpl in Hrun; [|done].
  destruct (index lines 1) as [desc|]; simpl in Hrun; [|done].
  destruct (index lines 2) as [loc|]; simpl in Hrun; [|done].
  destruct (getitem (rows3 rs) "hour") as [row3|]; simpl in Hrun; [|done].
  destruct (hours3 row3 (Axis (startOfDay t) None [] [] 0)) as [[a3 ind3]|];
    simpl in Hrun; [|done].
  destruct (getitem (rows6 rs) "hour") as [row6|]; simpl in Hrun; [|done].
  destruct (hours6 row6 a3) as [[a6 ind6]|]; simpl in Hrun; [|done].
  destruct (filldata _ (idx a6) (rows3 rs) ind3) as [m1|]; simpl in Hrun; [|done].
  destruct (filldata m1 (idx a6) (rows6 rs) ind6) as [m2|]; simpl in Hrun; done.
Qed.

(** X1. [ParseNWSForecast] returns [None] exactly when no line of the
    text starts with the identifier; once a block is found the parse
    either returns a matrix or raises. *)
Theorem parse_None_iff_no_id_line `{TimeLib} (text id : string) :
  ParseNWSForecast text id = Return None ↔
  Forall (λ l, ¬ id_line id l) (Str.splitlines text).
Proof. apply parse_None_no_id_line. Qed.

(** ** The time axis is one calendar walk *)

Lemma stamps_snoc (hs : list Z) :
  ∀ d last h,
    stamps d last (hs ++ [h])
    = stamps d last hs
      ++ [rollover (calendar_end d last hs).1 (calendar_end d last hs).2 h
          + h * 3600].
Proof.
  induction hs as [|h0 hs IH]; intros d last h; simpl; [done|].
  by rewrite IH.
Qed.

Lemma calendar_end_snoc (hs : list Z) :
  ∀ d last h,
    calendar_end d last (hs ++ [h])
    = (rollover (calendar_end d last hs).1 (calendar_end d last hs).2 h,
       Some h).
Proof.
  induction hs as [|h0 hs IH]; intros d last h; simpl; [done|]. apply IH.
Qed.

Lemma walked_refl (a : axis) : walked a [] a.
Proof.
  unfold walked; simpl. rewrite !app_nil_r. split_and!; try done; lia.
Qed.

(** One more hour, as both loops append it. *)
Lemma walked_step (a0 a : axis) (hs : list Z) (h : Z) :
  walked a0 hs a →
  walked a0 (hs ++ [h])
    (Axis (rollover (day a) (lasth a) h) (Some h)
       (ts a ++ [rollover (day a) (lasth a) h + h * 3600])
       (hour a ++ [h]) (S (idx a))).
Proof.
  intros (Hts & Hhour & Hend & Hidx). unfold walked; simpl.
  rewrite stamps_snoc, calendar_end_snoc, <- Hend. simpl.
  rewrite Hts, Hhour, Hidx, length_app, !app_assoc. simpl.
  split_and!; try done. lia.
Qed.

Lemma hours3_loop_walked (row : string) (cells : list nat) :
  ∀ a0 a1 ind1 a ind hs,
    walked a0 hs a1 →
    for_each (hour3_cell row) (a1, ind1) cells = Return (a, ind) →
    ∃ hs', walked a0 hs' a.
Proof.
  induction cells as [|i cells IH]; intros a0 a1 ind1 a ind hs Hw Hrun;
    simpl in Hrun.
  - injection Hrun as <- _. by exists hs.
  - destruct (hour3_cell row (a1, ind1) i) as [[a2 ind2]|] eqn:Hstep;
      simpl in Hrun; [|done].
    unfold hour3_cell in Hstep.
    destruct (Str.int (Str.slice i (i + 2) row)) as [h|]; simpl in Hstep;
      [|done].
    injection Hstep as <- <-.
    eapply IH; [|exact Hrun]. by apply walked_step.
Qed.

Lemma hours6_loop_walked (row : string) :
  ∀ i s a0 a1 ind1 s' a ind hs,
    walked a0 hs a1 →
    hours6_loop row i s (a1, ind1) = Return (s', (a, ind)) →
    ∃ hs', walked a0 hs' a.
Proof.
  induction row as [|c row IH]; intros i s a0 a1 ind1 s' a ind hs Hw Hrun;
    simpl in Hrun.
  - injection Hrun as _ <- _. by exists hs.
  - destruct (Str.isspace c); [|by eapply IH].
    case_decide; simpl in Hrun; [|by eapply IH].
    destruct (hour6_token s i (a1, ind1)) as [[a2 ind2]|] eqn:Htok;
      simpl in Hrun; [|done].
    unfold hour6_token in Htok.
    destruct (Str.int s) as [h|]; simpl in Htok; [|done].
    injection Htok as <- <-.
    eapply IH; [|exact Hrun]. by apply walked_step.
Qed.

Lemma len_app (s1 s2 : string) : Str.len (s1 +:+ s2) = Str.len s1 + Str.len s2.
Proof.
  unfold Str.len. induction s1 as [|c s1 IH]; [done|].
  change (String c s1 +:+ s2) with (String c (s1 +:+ s2)).
  cbn [String.length]. lia.
Qed.

Lemma hours6_loop_blank_end (r : string) (c : ascii) :
  Str.isspace c = true →
  ∀ i s st s' st',
    hours6_loop (r +:+ String c "") i s st = Return (s', st') → s' = "".
Proof.
  intros Hc. induction r as [|c0 r IH]; intros i s st s' st' Hrun.
  - change ("" +:+ String c "") with (String c "") in Hrun. simpl in Hrun.
    rewrite Hc in Hrun.
    destruct (if decide (0 < Str.len s) then hour6_token s i st else Return st);
      simpl in Hrun; [|done].
    by injection Hrun as <- _.
  - change (String c0 r +:+ String c "") with (String c0 (r +:+ String c ""))
      in Hrun. simpl in Hrun.
    destruct (Str.isspace c0); [|by eapply IH].
    destruct (if decide (0 < Str.len s) then hour6_token s i st else Return st);
      simpl in Hrun; [|done].
    by eapply IH.
Qed.

Lemma hours6_blank_walked (row : string) (a0 a : axis) (ind : gmap Z nat) :
  ends_blank row →
  hours6 row a0 = Return (a, ind) →
  ∃ hs, walked a0 hs a.
Proof.
  intros Hblank Hrun. unfold hours6 in Hrun.
  destruct (hours6_loop row 0 "" (a0, ∅)) as [[s [a1 ind1]]|] eqn:Hloop;
    simpl in Hrun; [|done].
  assert (s = "") as ->.
  { destruct Hblank as [->|(r & c & -> & Hc)].
    - simpl in Hloop. by injection Hloop as <- _.
    - by eapply hours6_loop_blank_end. }
  unfold hour6_last, Str.len in Hrun. simpl in Hrun.
  injection Hrun as <- _.
  by eapply hours6_loop_walked; [apply walked_refl|].
Qed.

Lemma stamps_carried (hs3 : list Z) :
  ∀ d last hs6,
    stamps d last (hs3 ++ hs6)
    = stamps d last hs3
      ++ stamps (calendar_end d last hs3).1 (calendar_end d last hs3).2 hs6.
Proof.
  induction hs3 as [|h hs3 IH]; intros d last hs6; simpl; [done|].
  by rewrite IH.
Qed.

Lemma passes_walked (row3 row6 : string) (day_ts : Z)
    (a3 a6 : axis) (indices3 indices6 : gmap Z nat) :
  hours3 row3 (axis0 day_ts) = Return (a3, indices3) →
  hours6 row6 a3 = Return (a6, indices6) →
  ends_blank row6 →
  ts a6 = stamps day_ts None (hour a6) ∧
  (∃ hs6, hour a6 = hour a3 ++ hs6 ∧
          ts a6 = ts a3 ++ stamps (day a3) (lasth a3) hs6) ∧
  idx a6 = length (hour a6).
Proof.
  intros H3 H6 Hblank. unfold hours3 in H3.
  destruct (hours3_loop_walked row3 _ (axis0 day_ts) (axis0 day_ts) ∅ a3
              indices3 [] (walked_refl _) H3) as (hs3 & Hts3 & Hh3 & He3 & Hi3).
  destruct (hours6_blank_walked row6 a3 a6 indices6 Hblank H6)
    as (hs6 & Hts6 & Hh6 & He6 & Hi6).
  simpl in *. split_and!.
  - rewrite Hts6, Hh6, Hts3, Hh3, stamps_carried, <- He3. done.
  - by exists hs6.
  - rewrite Hi6, Hi3, Hh6, Hh3, length_app. simpl. lia.
Qed.

(** X2. The two passes make one calendar walk: when the 6-hour row is
    empty or ends in white space, the time axis after both passes is the
    walk of [stamps] over the whole list of hours, 3-hour hours first,
    started at the day of issue with no hour seen; the day reached and
    the last hour seen in the 3-hour pass are carried into the 6-hour
    pass. The slot counter is the number of hours. *)
Theorem time_axis_is_calendar_walk (row3 row6 : string) (day_ts : Z)
    (a3 a6 : axis) (indices3 indices6 : gmap Z nat) :
  hours3 row3 (axis0 day_ts) = Return (a3, indices3) →
  hours6 row6 a3 = Return (a6, indices6) →
  ends_blank row6 →
  ts a6 = stamps day_ts None (hour a6) ∧
  (∃ hs6, hour a6 = hour a3 ++ hs6 ∧
          ts a6 = ts a3 ++ stamps (day a3) (lasth a3) hs6) ∧
  idx a6 = length (hour a6).
Proof. apply passes_walked. Qed.

Lemma time_axis_is_calendar_walk_witness :
  ts axis6_sample = stamps 1368230400 None (hour axis6_sample) ∧
  (∃ hs6, hour axis6_sample = hour axis3_sample ++ hs6 ∧
          ts axis6_sample
          = ts axis3_sample
            ++ stamps (day axis3_sample) (lasth axis3_sample) hs6) ∧
  idx axis6_sample = length (hour axis6_sample).
Proof.
  apply (time_axis_is_calendar_walk "14 17" "20 02 " 1368230400
           axis3_sample axis6_sample indices3_sample indices6_sample).
  - by vm_compute.
  - by vm_compute.
  - right. exists "20 02", " "%char. by split.
Defined.

(** ** When the time axis is increasing *)

Lemma increasing_cons (x : Z) (l : list Z) :
  (∀ y, head l = Some y → x < y) → increasing l → increasing (x :: l).
Proof.
  intros Hhead Hl [|k] a b Ha Hb; simpl in *.
  - injection Ha as <-. apply Hhead. by destruct l.
  - by eapply Hl.
Qed.

Lemma stamps_increasing (hs : list Z) :
  ∀ d last,
    (∀ h, h ∈ hs → 0 <= h < 24) →
    no_repeat hs →
    (∀ l, last = Some l → 0 <= l < 24 ∧ head hs ≠ Some l) →
    increasing (stamps d last hs) ∧
    (∀ l x, last = Some l → head (stamps d last hs) = Some x →
            d + l * 3600 < x).
Proof.
  induction hs as [|h hs IH]; intros d last Hday Hrep Hlast; simpl.
  - split; [by intros []|done].
  - assert (0 <= h < 24) as Hh by (apply Hday; by left).
    destruct (IH (rollover d last h) (Some h)) as [Hinc Hfirst].
    + intros h' Hh'. apply Hday. by right.
    + intros k x y Hx Hy. by apply (Hrep (S k)).
    + intros l [= <-]. split; [done|].
      destruct hs as [|h' hs']; [done|]. intros [= Heq].
      by apply (Hrep 0%nat h h').
    + split.
      * apply increasing_cons; [|done]. intros y Hy.
        by apply (Hfirst h).
      * intros l x -> [= <-]. destruct (Hlast l eq_refl) as [Hl Hne].
        assert (h ≠ l) by (intros ->; by apply Hne).
        unfold rollover. case_decide; lia.
Qed.

(** X3. When the 6-hour row is empty or ends in white space, every hour
    read from the two rows is an hour of the day (0 to 23) and no hour is
    followed by the same hour, the time axis is strictly increasing. *)
Theorem time_axis_increasing (row3 row6 : string) (day_ts : Z)
    (a3 a6 : axis) (indices3 indices6 : gmap Z nat) :
  hours3 row3 (axis0 day_ts) = Return (a3, indices3) →
  hours6 row6 a3 = Return (a6, indices6) →
  ends_blank row6 →
  (∀ h, h ∈ hour a6 → 0 <= h < 24) →
  no_repeat (hour a6) →
  increasing (ts a6).
Proof.
  intros H3 H6 Hblank Hday Hrep.
  destruct (passes_walked _ _ _ _ _ _ _ H3 H6 Hblank) as (-> & _ & _).
  by apply stamps_increasing.
Qed.

Lemma time_axis_increasing_witness : increasing (ts axis6_sample).
Proof.
  apply (time_axis_increasing "14 17" "20 02 " 1368230400
           axis3_sample axis6_sample indices3_sample indices6_sample).
  - by vm_compute.
  - by vm_compute.
  - right. exists "20 02", " "%char. by split.
  - intros h Hh. vm_compute in Hh.
    repeat (apply elem_of_cons in Hh as [->|Hh]; [lia|]).
    by apply elem_of_nil in Hh.
  - intros [|[|[|[|k]]]] x y Hx Hy; vm_compute in Hx, Hy; congruence.
Defined.

(** ** The two index maps share out the slots *)

Lemma covers_insert (ind : gmap Z nat) (lo hi : nat) (k : Z) :
  covers ind lo hi → (lo ≤ hi)%nat → ind !! k = None →
  covers (<[k := hi]> ind) lo (S hi).
Proof.
  intros (Hran & Hsur & Hinj) Hle Hk. split_and!.
  - intros k' j Hj. apply lookup_insert_Some in Hj as [[_ <-]|[_ Hj]]; [lia|].
    apply Hran in Hj. lia.
  - intros j Hj. destruct (decide (j = hi)) as [->|Hne].
    + exists k. apply lookup_insert_eq.
    + destruct (Hsur j ltac:(lia)) as [k' Hk']. exists k'.
      rewrite lookup_insert_ne; [done|]. intros <-. congruence.
  - intros k1 k2 j H1 H2.
    apply lookup_insert_Some in H1 as [[<- <-]|[Hn1 H1]];
      apply lookup_insert_Some in H2 as [[<- Hj]|[Hn2 H2]]; try done.
    + apply Hran in H2. lia.
    + apply Hran in H1. lia.
    + by eapply Hinj.
Qed.

Lemma cells_done_covers row n a ind : cells_done row n a ind → covers ind 0 n.
Proof.
  intros (_ & _ & _ & _ & Hind). split_and!.
  - intros k j Hj. apply Hind in Hj. lia.
  - intros j Hj. exists (Z.of_nat (j * 3) + 1). apply Hind. split; [lia|done].
  - intros k1 k2 j H1 H2. apply Hind in H1 as [_ ->]. by apply Hind in H2 as [_ ->].
Qed.

Lemma hour6_token_scan idx0 i s a ind a' ind' :
  scan6_ok idx0 i s a ind →
  hour6_token s i (a, ind) = Return (a', ind') →
  scan6_ok idx0 (i + 1) "" a' ind'.
Proof.
  intros (Hcov & Hle & Hcol) Hrun. unfold hour6_token in Hrun.
  destruct (Str.int s) as [h|]; simpl in Hrun; [|done].
  injection Hrun as <- <-. unfold scan6_ok; simpl.
  assert (0 <= Str.len s) as Hlen by (unfold Str.len; lia).
  split_and!.
  - apply covers_insert; [done..|].
    destruct (ind !! (i - 1)) as [j|] eqn:Hj; [|done].
    apply Hcol in Hj. lia.
  - lia.
  - intros k j Hj. change (Str.len "") with 0.
    apply lookup_insert_Some in Hj as [[<- _]|[_ Hj]]; [lia|].
    apply Hcol in Hj. lia.
Qed.

Lemma hours6_loop_scan (row : string) (idx0 : nat) :
  ∀ i s a ind s' a' ind',
    scan6_ok idx0 i s a ind →
    hours6_loop row i s (a, ind) = Return (s', (a', ind')) →
    scan6_ok idx0 (i + Str.len row) s' a' ind'.
Proof.
  induction row as [|c row IH]; intros i s a ind s' a' ind' Hok Hrun;
    simpl in Hrun.
  - injection Hrun as <- <- <-. change (Str.len "") with 0.
    by rewrite Z.add_0_r.
  - rewrite len_String.
    replace (i + (Str.len row + 1)) with (i + 1 + Str.len row) by lia.
    destruct (Str.isspace c).
    + case_decide; simpl in Hrun.
      * destruct (hour6_token s i (a, ind)) as [[a1 ind1]|] eqn:Htok;
          simpl in Hrun; [|done].
        eapply IH; [|exact Hrun]. by eapply hour6_token_scan.
      * eapply IH; [|exact Hrun].
        destruct Hok as (Hcov & Hle & Hcol). split_and!; [done..|].
        intros k j Hj. apply Hcol in Hj. change (Str.len "") with 0.
        assert (0 <= Str.len s) by (unfold Str.len; lia). lia.
    + eapply IH; [|exact Hrun].
      destruct Hok as (Hcov & Hle & Hcol). split_and!; [done..|].
      intros k j Hj. apply Hcol in Hj. rewrite len_app.
      change (Str.len (String c "")) with 1. lia.
Qed.

Lemma hours6_covers (row : string) (a a' : axis) (ind' : gmap Z nat) :
  hours6 row a = Return (a', ind') →
  covers ind' (idx a) (idx a') ∧ (idx a ≤ idx a')%nat.
Proof.
  intros Hrun. unfold hours6 in Hrun.
  destruct (hours6_loop row 0 "" (a, ∅)) as [[s [a1 ind1]]|] eqn:Hloop;
    simpl in Hrun; [|done].
  apply (hours6_loop_scan row (idx a)) in Hloop as (Hcov & Hle & Hcol).
  - unfold hour6_last in Hrun. case_decide; [|by injection Hrun as <- <-].
    destruct (Str.int s) as [h|]; simpl in Hrun; [|done].
    injection Hrun as <- <-. simpl. split; [|lia].
    apply covers_insert; [done..|].
    destruct (ind1 !! (Str.len row - 1)) as [j|] eqn:Hj; [|done].
    apply Hcol in Hj. lia.
  - split_and!; [|done|by intros k j; rewrite lookup_empty].
    split_and!; [by intros k j; rewrite lookup_empty | intros j; lia
                | by intros k1 k2 j; rewrite lookup_empty].
Qed.

(** X4. The two index maps share out the slots of the time axis: the
    3-hour map gives each of the first [idx a3] slots to exactly one
    column, the 6-hour map gives each of the remaining slots to exactly
    one column, and neither map holds any other slot. Every slot they
    hold is below the length of the time axis. *)
Theorem index_maps_partition_slots (row3 row6 : string) (day_ts : Z)
    (a3 a6 : axis) (indices3 indices6 : gmap Z nat) :
  hours3 row3 (axis0 day_ts) = Return (a3, indices3) →
  hours6 row6 a3 = Return (a6, indices6) →
  covers indices3 0 (idx a3) ∧
  covers indices6 (idx a3) (idx a6) ∧
  (idx a3 ≤ idx a6)%nat ∧ idx a6 = length (ts a6) ∧
  slots_below (idx a6) indices3 ∧ slots_below (idx a6) indices6.
Proof.
  intros H3 H6.
  assert (cells_done row3 (idx a3) a3 indices3) as Hdone.
  { unfold hours3, range_step in H3.
    assert (cells_done row3 ((String.length row3 + 3 - 1) `div` 3) a3 indices3)
      as Hc.
    { apply (hours3_loop_done row3 _ 0 (axis0 day_ts) ∅ a3 indices3); [|done].
      unfold cells_done; simpl.
      split_and!; try done; try (intros; lia).
      intros z j. rewrite lookup_empty. split; [done | lia]. }
    destruct Hc as (? & ? & Hidx & ?). by rewrite Hidx. }
  pose proof (cells_done_covers _ _ _ _ Hdone) as Hc3.
  destruct (hours6_covers _ _ _ _ H6) as [Hc6 Hle].
  pose proof (hours3_axis_ok _ _ _ _ H3) as Hok3.
  destruct (hours6_axis_ok _ _ _ _ Hok3 H6) as [Hts _].
  split_and!; try done.
  - intros k j Hj. apply Hc3 in Hj. lia.
  - intros k j Hj. apply Hc6 in Hj. lia.
Qed.

Lemma index_maps_partition_slots_witness :
  covers indices3_sample 0 (idx axis3_sample) ∧
  covers indices6_sample (idx axis3_sample) (idx axis6_sample) ∧
  (idx axis3_sample ≤ idx axis6_sample)%nat ∧
  idx axis6_sample = length (ts axis6_sample) ∧
  slots_below (idx axis6_sample) indices3_sample ∧
  slots_below (idx axis6_sample) indices6_sample.
Proof.
  apply (index_maps_partition_slots "14 17" "20 02 " 1368230400
           axis3_sample axis6_sample indices3_sample indices6_sample).
  - vm_compute. reflexivity.
  - vm_compute. reflexivity.
Defined.

(** ** Rows the loop passes over *)

Lemma classify_line_ignored (st : rowsets) (line : string) :
  ignored line = true → classify_line st line = Return st.
Proof.
  unfold ignored. intros Hig. apply orb_true_iff in Hig as [Hutc|Hig].
  - unfold classify_line. by rewrite Hutc.
  - apply andb_true_iff in Hig as [Hig Hnone].
    apply andb_true_iff in Hig as [H3 H6].
    apply negb_true_iff in H3, H6. apply bool_decide_eq_true in Hnone.
    unfold classify_line. rewrite H3, H6, Hnone.
    destruct (Str.startswith (label_of line) "UTC"); [done|]. by destruct st.
Qed.

(** X7. Lines whose label starts with "UTC", and lines that are no hour
    row and whose label is not in the label table, have no effect on the
    sorting of the rows: taking them out of the block changes neither
    the row sets nor the mode, nor whether the loop raises. *)
Theorem classify_skips_ignored_lines (lines : list string) :
  classify (filter (λ l, ignored l = false) lines) = classify lines.
Proof.
  unfold classify. generalize (Rowsets None ∅ ∅).
  induction lines as [|l lines IH]; intros st; [done|].
  destruct (ignored l) eqn:Hig.
  - rewrite filter_cons_False by (by rewrite Hig). simpl.
    rewrite classify_line_ignored by done. simpl. apply IH.
  - rewrite filter_cons_True by done. simpl.
    destruct (classify_line st l); simpl; [apply IH | done].
Qed.

(** ** When [filldata] goes through *)

Lemma fill_labels_assignable nidx indices (rows : list (string * string)) :
  ∀ m, all_length nidx m →
       slots_below nidx indices →
       ¬ Exists (λ lr, Exists (unassignable indices) (tokens lr.2)) rows →
       ∃ m', for_each (fill_label nidx indices) m rows = Return m'.
Proof.
  induction rows as [|[label row] rows IH]; intros m Hm Hbelow Hok.
  - by exists m.
  - simpl.
    destruct (fill_label_cases nidx indices m label row Hm) as (l & Hlen & Hl & E).
    destruct (store_tokens_assignable indices (tokens row) l) as [l' Hst].
    + by rewrite Hlen.
    + intros Hbad. apply Hok. by apply Exists_cons_hd.
    + assert (fill_label nidx indices m (label, row)
              = Return (<[label:=l']> (default_none label nidx m))) as Hstep
        by (by rewrite E, Hst).
      rewrite Hstep. simpl. apply IH; [|done|].
      * by destruct (fill_label_keeps _ _ _ _ _ _ Hm Hstep).
      * intros Hbad. apply Hok. by apply Exists_cons_tl.
Qed.

Lemma resolve_returns key state nidx (m : gmap string (list cell)) :
  all_length nidx m →
  is_Some (m !! "tempMin") → is_Some (m !! "tempMax") →
  ∃ m', resolve key state nidx m = Return m'.
Proof.
  intros Hm [tmin Hmin] [tmax Hmax]. unfold resolve, getitem.
  destruct (m !! key) as [src|] eqn:Hsrc; [|by eexists].
  rewrite Hmin, Hmax. simpl.
  rewrite <- (Hm _ _ Hsrc).
  destruct (minmax_walk_overlay state src tmin tmax) as [state' E].
  - rewrite (Hm _ _ Hmin). symmetry. by apply (Hm key).
  - rewrite (Hm _ _ Hmax). symmetry. by apply (Hm key).
  - rewrite E. simpl. by eexists.
Qed.

(** X5. On a matrix whose lists all have [nidx] entries and with an index
    map whose slots are below [nidx], as [ParseNWSForecast] calls it,
    [filldata] returns exactly when every token of every row ends in a
    column of the index map; otherwise it raises [KeyError]. It raises
    nothing else: no list is ever indexed out of range. *)
Theorem filldata_returns_iff (m : gmap string (list cell)) (nidx : nat)
    (rows : gmap string string) (indices : gmap Z nat) :
  all_length nidx m →
  slots_below nidx indices →
  ((∃ m', filldata m nidx rows indices = Return m') ↔
   (∀ label row tk, rows !! label = Some row → tk ∈ tokens row →
                    is_Some (indices !! tk.2))) ∧
  ((∃ m', filldata m nidx rows indices = Return m') ∨
   filldata m nidx rows indices = Raise KeyError).
Proof.
  intros Hm Hbelow.
  set (bad := Exists (λ lr : string * string,
                        Exists (unassignable indices) (tokens lr.2))
                (map_to_list rows)).
  assert (bad ↔ ¬ (∀ label row tk, rows !! label = Some row → tk ∈ tokens row →
                                    is_Some (indices !! tk.2))) as Hbad.
  { unfold bad. rewrite Exists_exists. split.
    - intros ([label row] & Hin & Hex) Hall. apply Exists_exists in Hex
        as (tk & Htk & Hun). apply elem_of_map_to_list in Hin.
      destruct (Hall label row tk Hin Htk) as [j Hj].
      unfold unassignable in Hun. congruence.
    - intros Hnall.
      destruct (decide (Exists (λ lr : string * string,
                          Exists (unassignable indices) (tokens lr.2))
                          (map_to_list rows))) as [Hex|Hnex].
      + by apply Exists_exists in Hex.
      + exfalso. apply Hnall. intros label row tk Hrow Htk.
        destruct (indices !! tk.2) as [j|] eqn:Hj; [by eexists|].
        exfalso. apply Hnex. apply Exists_exists. exists (label, row).
        split; [by apply elem_of_map_to_list|].
        apply Exists_exists. by exists tk. }
  assert (bad → filldata m nidx rows indices = Raise KeyError) as Hraise.
  { intros Hb. unfold filldata.
    by rewrite (fill_labels_unassignable nidx indices _ m Hm Hbelow Hb). }
  assert (¬ bad → ∃ m', filldata m nidx rows indices = Return m') as Hret.
  { intros Hnb. unfold filldata.
    destruct (fill_labels_assignable nidx indices _ m Hm Hbelow Hnb) as [m1 E1].
    rewrite E1. simpl.
    destruct (fill_labels_keep _ _ _ _ _ Hm E1) as [Hm1 _].
    set (m2 := default_none "tempMax" nidx (default_none "tempMin" nidx m1)).
    assert (all_length nidx m2) as Hm2 by by do 2 apply default_none_length.
    destruct (resolve_returns "tempMinMax" 0 nidx m2 Hm2) as [m3 E3].
    { apply default_none_keeps, default_none_has. }
    { apply default_none_has. }
    rewrite E3. simpl.
    destruct (resolve_keeps _ _ _ _ _ Hm2 E3) as [Hm3 Hk3].
    apply resolve_returns; [done| |]; apply Hk3; try done.
    - apply default_none_keeps, default_none_has.
    - apply default_none_has. }
  destruct (decide bad) as [Hb|Hnb].
  - split; [|right; by apply Hraise]. split.
    + intros [m' E]. rewrite (Hraise Hb) in E. done.
    + intros Hall. by apply Hbad in Hb.
  - split; [|left; by apply Hret]. split.
    + intros _ label row tk Hrow Htk.
      destruct (indices !! tk.2) as [j|] eqn:Hj; [by eexists|].
      exfalso. apply Hnb. apply Hbad. intros Hall.
      destruct (Hall label row tk Hrow Htk) as [j Hj']. congruence.
    + intros _. by apply Hret.
Qed.

Lemma filldata_returns_iff_witness :
  ((∃ m', filldata ∅ 5 {[ "temp" := "50 60" ]} indices_example = Return m') ↔
   (∀ label row tk, ({[ "temp" := "50 60" ]} : gmap string string) !! label
                    = Some row →
                    tk ∈ tokens row → is_Some (indices_example !! tk.2))) ∧
  ((∃ m', filldata ∅ 5 {[ "temp" := "50 60" ]} indices_example = Return m') ∨
   filldata ∅ 5 {[ "temp" := "50 60" ]} indices_example = Raise KeyError).
Proof.
  apply (filldata_returns_iff ∅ 5 {[ "temp" := "50 60" ]} indices_example).
  - intros name l Hl. by rewrite lookup_empty in Hl.
  - intros k j Hkj. apply elem_of_list_to_map_2 in Hkj.
    repeat (apply elem_of_cons in Hkj as [[= _ ->]|Hkj]; [lia|]).
    by apply elem_of_nil in Hkj.
Defined.

(** ** Where the tokens of a row are stored *)

Lemma tokens_from_sorted (row : string) :
  ∀ i s,
    Forall (λ tk, i - 1 <= tk.2) (tokens_from row i s) ∧
    StronglySorted (λ a b : string * Z, a.2 < b.2) (tokens_from row i s).
Proof.
  induction row as [|c row IH]; intros i s; simpl.
  - case_decide; [|by split; constructor].
    split; [by repeat constructor | by repeat constructor].
  - destruct (Str.isspace c).
    + destruct (IH (i + 1) "") as [Hge Hsort].
      case_decide; simpl.
      * split.
        -- constructor; [simpl; lia|].
           eapply Forall_impl; [exact Hge|]. simpl. intros; lia.
        -- constructor; [done|].
           eapply Forall_impl; [exact Hge|]. simpl. intros; lia.
      * split; [|done]. eapply Forall_impl; [exact Hge|]. simpl. intros; lia.
    + destruct (IH (i + 1) (s +:+ String c "")) as [Hge Hsort].
      split; [|done]. eapply Forall_impl; [exact Hge|]. simpl. intros; lia.
Qed.

Lemma store_tokens_places (indices : gmap Z nat) (tks : list (string * Z)) :
  (∀ k1 k2 j, indices !! k1 = Some j → indices !! k2 = Some j → k1 = k2) →
  StronglySorted (λ a b : string * Z, a.2 < b.2) tks →
  ∀ l l',
    for_each (store_token indices) l tks = Return l' →
    (∀ tok k j, (tok, k) ∈ tks → indices !! k = Some j →
                l' !! j = Some (Some (PStr tok))) ∧
    (∀ j, (∀ tok k, (tok, k) ∈ tks → indices !! k ≠ Some j) →
          l' !! j = l !! j).
Proof.
  intros Hinj Hsort. induction Hsort as [|[tok0 k0] tks Hsort IH Hlt];
    intros l l' Hrun; simpl in Hrun.
  - injection Hrun as <-. split; [|done].
    intros tok k j Hin. by apply elem_of_nil in Hin.
  - pose proof (store_token_cases indices l (tok0, k0)) as Hc. simpl in Hc.
    destruct (indices !! k0) as [j0|] eqn:Hj0; [|by rewrite Hc in Hrun].
    case_decide as Hlen; rewrite Hc in Hrun; simpl in Hrun; [|done].
    destruct (IH _ _ Hrun) as [Hput Hkeep].
    assert (∀ tok k, (tok, k) ∈ tks → indices !! k ≠ Some j0) as Hfree.
    { intros tok k Hin Hk. assert (k = k0) as -> by by eapply Hinj.
      rewrite Forall_forall in Hlt. apply Hlt in Hin. simpl in Hin. lia. }
    split.
    + intros tok k j Hin Hk. apply elem_of_cons in Hin as [[= -> ->]|Hin].
      * assert (j = j0) as -> by congruence.
        rewrite (Hkeep j0 Hfree). by apply list_lookup_insert_eq.
      * by eapply Hput.
    + intros j Hj. rewrite (Hkeep j).
      * apply list_lookup_insert_ne. intros <-.
        apply (Hj tok0 k0); [by left | done].
      * intros tok k Hin. apply (Hj tok k). by right.
Qed.

(** X6. When the decoding of a row returns and the index map gives no
    slot to two columns, every token of the row is found in the returned
    list at the slot mapped from the column of its last character, every
    slot that no token is mapped to holds what it held before, and the
    list has the length it had. *)
Theorem fill_row_places_tokens (indices : gmap Z nat) (row : string)
    (l l' : list cell) :
  (∀ k1 k2 j, indices !! k1 = Some j → indices !! k2 = Some j → k1 = k2) →
  fill_row indices row l = Return l' →
  length l' = length l ∧
  (∀ tok k j, (tok, k) ∈ tokens row → indices !! k = Some j →
              l' !! j = Some (Some (PStr tok))) ∧
  (∀ j, (∀ tok k, (tok, k) ∈ tokens row → indices !! k ≠ Some j) →
        l' !! j = l !! j).
Proof.
  intros Hinj Hrun. rewrite fill_row_tokens in Hrun. split.
  - by eapply store_tokens_length.
  - eapply store_tokens_places; [done| |done].
    apply (tokens_from_sorted row 0 "").
Qed.

Lemma fill_row_places_tokens_witness :
  length [Some (PStr "50"); Some (PStr "60"); None; None; @None pyval] = 5%nat ∧
  (∀ tok k j, (tok, k) ∈ tokens "50 60" → indices_example !! k = Some j →
              [Some (PStr "50"); Some (PStr "60"); None; None; None] !! j
              = Some (Some (PStr tok))) ∧
  (∀ j, (∀ tok k, (tok, k) ∈ tokens "50 60" → indices_example !! k ≠ Some j) →
        [Some (PStr "50"); Some (PStr "60"); None; None; None] !! j
        = replicate 5 (@None pyval) !! j).
Proof.
  apply (fill_row_places_tokens indices_example "50 60" (replicate 5 None)).
  - intros k1 k2 j H1 H2.
    apply elem_of_list_to_map_2 in H1. apply elem_of_list_to_map_2 in H2.
    repeat (apply elem_of_cons in H1 as [H1|H1]);
      try (by apply elem_of_nil in H1);
      repeat (apply elem_of_cons in H2 as [H2|H2]);
      try (by apply elem_of_nil in H2); by simplify_eq.
  - by vm_compute.
Defined.

(** ** What the tokens of a row are *)

Lemma str_app_assoc (a b c : string) : (a +:+ b) +:+ c = a +:+ b +:+ c.
Proof.
  induction a as [|x a IH]; [done|].
  change ((String x a +:+ b) +:+ c) with (String x ((a +:+ b) +:+ c)).
  change (String x a +:+ b +:+ c) with (String x (a +:+ b +:+ c)).
  by rewrite IH.
Qed.

Lemma no_space_snoc (s : string) (c : ascii) :
  no_space s = true → Str.isspace c = false →
  no_space (s +:+ String c "") = true.
Proof.
  intros Hs Hc. induction s as [|x s IH].
  - change ("" +:+ String c "") with (String c ""). simpl. by rewrite Hc.
  - change (String x s +:+ String c "") with (String x (s +:+ String c "")).
    simpl in *. apply andb_true_iff in Hs as [Hx Hs].
    by rewrite Hx, IH.
Qed.

Lemma tokens_from_runs (row : string) :
  ∀ pre s i tok k,
    i = Str.len pre + Str.len s →
    no_space s = true →
    ends_blank pre →
    (tok, k) ∈ tokens_from row i s →
    ∃ a b, pre +:+ s +:+ row = a +:+ tok +:+ b ∧
           Str.len a + Str.len tok = k + 1 ∧
           0 < Str.len tok ∧ no_space tok = true ∧
           ends_blank a ∧ starts_blank b.
Proof.
  induction row as [|c row IH]; intros pre s i tok k Hi Hs Hpre Hin;
    simpl in Hin.
  - case_decide; [|by apply elem_of_nil in Hin].
    apply list_elem_of_singleton in Hin as [= -> ->].
    exists pre, "". split_and!; try done; [lia | by left].
  - destruct (Str.isspace c) eqn:Hc.
    + apply elem_of_app in Hin as [Hin|Hin].
      * case_decide; [|by apply elem_of_nil in Hin].
        apply list_elem_of_singleton in Hin as [= -> ->].
        exists pre, (String c row). split_and!; try done; [lia|].
        right. by exists c, row.
      * destruct (IH (pre +:+ s +:+ String c "") "" (i + 1) tok k) as
          (a & b & Heq & Hrest); try done.
        -- rewrite !len_app. change (Str.len (String c "")) with 1.
           change (Str.len "") with 0. lia.
        -- right. exists (pre +:+ s), c. by rewrite str_app_assoc.
        -- exists a, b. split; [|done]. rewrite <- Heq.
           change ("" +:+ row) with row.
           by rewrite !str_app_assoc.
    + destruct (IH pre (s +:+ String c "") (i + 1) tok k) as
        (a & b & Heq & Hrest); try done.
      * rewrite len_app. change (Str.len (String c "")) with 1. lia.
      * by apply no_space_snoc.
      * exists a, b. split; [|done]. rewrite <- Heq.
        by rewrite !str_app_assoc.
Qed.

(** X8. Every token that the scan of a row finds is a run of the row's
    characters that holds no white space and is not empty, that ends in
    the column recorded with it, and that cannot be made longer: the row
    is [a +:+ tok +:+ b] where [a] is empty or ends in white space, [b]
    is empty or starts with white space, and [tok] ends in column
    [len a + len tok - 1]. The columns of the tokens increase along the
    row. *)
Theorem tokens_are_maximal_runs (row : string) :
  (∀ tok k, (tok, k) ∈ tokens row →
     ∃ a b, row = a +:+ tok +:+ b ∧
            Str.len a + Str.len tok = k + 1 ∧
            0 < Str.len tok ∧ no_space tok = true ∧
            ends_blank a ∧ starts_blank b) ∧
  StronglySorted (λ x y : string * Z, x.2 < y.2) (tokens row).
Proof.
  split; [|apply (tokens_from_sorted row 0 "")].
  intros tok k Hin.
  apply (tokens_from_runs row "" "" 0 tok k); try done. by left.
Qed.

Lemma tokens_are_maximal_runs_witness :
  ∃ a b, "50  60" = a +:+ "60" +:+ b ∧
         Str.len a + Str.len "60" = 5 + 1 ∧
         0 < Str.len "60" ∧ no_space "60" = true ∧
         ends_blank a ∧ starts_blank b.
Proof.
  destruct (tokens_are_maximal_runs "50  60") as [Hruns _].
  apply (Hruns "60" 5). vm_compute. apply list_elem_of_In. right. by left.
Defined.

(** * Downloading *)

Lemma fetch_loop_spec (net : nat → outcome) (tries : nat) :
  ∀ count,
    let '(r, calls) := fetch_loop net count tries in
    (count ≤ calls ≤ count + tries)%nat ∧
    (∀ text, r = Return (Some text) ↔
       ∃ k, (k < tries)%nat ∧ net (count + k)%nat = Got text ∧
            (∀ j, (j < k)%nat → net (count + j)%nat = NetError)) ∧
    (r = Return None ↔
       ∀ j, (j < tries)%nat → net (count + j)%nat = NetError) ∧
    (∀ text, r = Return (Some text) →
       net (calls - 1)%nat = Got text ∧ (0 < calls)%nat) ∧
    (r = Return None → calls = (count + tries)%nat).
Proof.
  induction tries as [|tries IH]; intros count; simpl.
  - split_and!; try lia; try done.
    + intros text. split; [done|]. intros (k & Hk & _). lia.
    + split; [intros _ j Hj; lia | done].
  - destruct (net count) as [text0| |e] eqn:Hnet.
    + split_and!; try lia.
      * intros text. split.
        -- intros [= <-]. exists 0%nat. rewrite Nat.add_0_r.
           split_and!; [lia | done | intros j Hj; lia].
        -- intros (k & Hk & Hgot & Hbefore). destruct k as [|k].
           ++ rewrite Nat.add_0_r in Hgot. congruence.
           ++ specialize (Hbefore 0%nat ltac:(lia)).
              rewrite Nat.add_0_r in Hbefore. congruence.
      * split; [done|]. intros Hall. specialize (Hall 0%nat ltac:(lia)).
        rewrite Nat.add_0_r in Hall. congruence.
      * intros text [= <-]. simpl. rewrite Nat.sub_0_r. split; [done | lia].
      * done.
    + specialize (IH (S count)).
      destruct (fetch_loop net (S count) tries) as [r calls].
      destruct IH as (Hcalls & Hsome & Hnone & Hlast & Hall).
      split_and!; try lia.
      * intros text. rewrite Hsome. split.
        -- intros (k & Hk & Hgot & Hbefore). exists (S k).
           replace (count + S k)%nat with (S count + k)%nat by lia.
           split_and!; [lia | done |]. intros [|j] Hj.
           ++ by rewrite Nat.add_0_r.
           ++ replace (count + S j)%nat with (S count + j)%nat by lia.
              apply Hbefore. lia.
        -- intros (k & Hk & Hgot & Hbefore). destruct k as [|k].
           ++ rewrite Nat.add_0_r in Hgot. congruence.
           ++ exists k.
              replace (S count + k)%nat with (count + S k)%nat by lia.
              split_and!; [lia | done |]. intros j Hj.
              replace (S count + j)%nat with (count + S j)%nat by lia.
              apply Hbefore. lia.
      * rewrite Hnone. split.
        -- intros Hfail [|j] Hj; [by rewrite Nat.add_0_r|].
           replace (count + S j)%nat with (S count + j)%nat by lia.
           apply Hfail. lia.
        -- intros Hfail j Hj.
           replace (S count + j)%nat with (count + S j)%nat by lia.
           apply Hfail. lia.
      * done.
      * intros Hr. rewrite (Hall Hr). lia.
    + split_and!; try lia; try done.
      * intros text. split; [done|].
        intros (k & Hk & Hgot & Hbefore). destruct k as [|k].
        -- rewrite Nat.add_0_r in Hgot. congruence.
        -- specialize (Hbefore 0%nat ltac:(lia)).
           rewrite Nat.add_0_r in Hbefore. congruence.
      * split; [done|]. intros Hall. specialize (Hall 0%nat ltac:(lia)).
        rewrite Nat.add_0_r in Hall. congruence.
Qed.

Lemma fetch_loop_first_success (net : nat → outcome) (tries : nat) :
  first_success net tries (fetch_loop net 0 tries).
Proof.
  pose proof (fetch_loop_spec net tries 0) as Hspec.
  destruct (fetch_loop net 0 tries) as [r0 c0]. simpl in *.
  destruct Hspec as (Hcalls & Hsome & Hnone & Hlast & Hall).
  unfold first_success; simpl. split_and!; [lia|done..].
Qed.

(** X9. The three download functions make at most [max_tries] calls
    (none when [max_tries] is not positive). Each returns the text of the
    first call that succeeds, provided every call before it failed with
    one of the errors its loop catches, and makes no call after it; it
    returns [None] exactly when each of the [max_tries] calls failed with
    such an error. The NWS and the WU function build their address from
    the default one and call a configured address as it is. *)
Theorem download_first_success (net : string → nat → outcome)
    (foid api_key location url : string) (max_tries : Z) :
  first_success
    (net (if decide (url = DEFAULT_NWS_PFM_URL)
          then url +:+ "&issuedby=" +:+ foid else url))
    (Z.to_nat max_tries) (DownloadNWSForecast net foid url max_tries) ∧
  first_success
    (net (if decide (url = DEFAULT_WU_URL)
          then url +:+ "/" +:+ api_key +:+ "/forecast10day/q/" +:+ location
               +:+ ".json"
          else url))
    (Z.to_nat max_tries) (DownloadWUForecast net api_key location url max_tries) ∧
  first_success (net url) (Z.to_nat max_tries)
    (DownloadNOAATides net url max_tries).
Proof. split_and!; apply fetch_loop_first_success. Qed.

Lemma download_first_success_witness :
  (DownloadNWSForecast
     (λ (u : string) (k : nat), if decide (k = 1%nat) then Got "text" else NetError)
     "BOX" "http://localhost/pfm" 3).1 = Return (Some "text").
Proof.
  destruct (download_first_success
              (λ (u : string) (k : nat),
                 if decide (k = 1%nat) then Got "text" else NetError)
              "BOX" "" "" "http://localhost/pfm" 3)
    as ((_ & Hsome & _) & _).
  apply Hsome. exists 1%nat. split_and!; [vm_compute; lia | done |].
  intros [|j] Hj; [done | lia].
Defined.

(** * The records of the NWS forecast *)

Lemma parse_lists_all_length `{TimeLib} (text id : string) (m : matrix) :
  ParseNWSForecast text id = Return (Some m) →
  ∃ axis_ts, m_lists m !! "ts" = Some axis_ts ∧
             all_length (length axis_ts) (m_lists m).
Proof.
  intros Hrun. unfold ParseNWSForecast in Hrun.
  destruct (station_block (Str.splitlines text) id) as [lines|]; [|done].
  destruct (index lines 3) as [hdr|]; simpl in Hrun; [|done].
  destruct (date2ts hdr) as [t|]; simpl in Hrun; [|done].
  destruct (classify lines) as [rs|]; simpl in Hrun; [|done].
  destruct (index lines 1) as [desc|]; simpl in Hrun; [|done].
  destruct (index lines 2) as [loc|]; simpl in Hrun; [|done].
  destruct (getitem (rows3 rs) "hour") as [row3|]; simpl in Hrun; [|done].
  destruct (hours3 row3 (Axis (startOfDay t) None [] [] 0)) as [[a3 ind3]|]
    eqn:H3; simpl in Hrun; [|done].
  destruct (getitem (rows6 rs) "hour") as [row6|]; simpl in Hrun; [|done].
  destruct (hours6 row6 a3) as [[a6 ind6]|] eqn:H6; simpl in Hrun; [|done].
  apply hours3_axis_ok in H3. apply (hours6_axis_ok _ _ _ _ H3) in H6.
  destruct H6 as [Hts Hhour].
  set (m0 := <["hour":=ints (hour a6)]> (<["ts":=ints (ts a6)]> ∅)) in Hrun.
  assert (all_length (idx a6) m0) as Hm0.
  { intros name l Hl. unfold m0 in Hl.
    apply lookup_insert_Some in Hl as [[_ <-]|[_ Hl]];
      [unfold ints; by rewrite length_fmap|].
    apply lookup_insert_Some in Hl as [[_ <-]|[_ Hl]];
      [unfold ints; by rewrite length_fmap|].
    by rewrite lookup_empty in Hl. }
  assert (is_Some (m0 !! "ts")) as Hts0.
  { unfold m0. rewrite lookup_insert_ne by done. rewrite lookup_insert_eq.
    by eexists. }
  destruct (filldata m0 (idx a6) (rows3 rs) ind3) as [m1|] eqn:Hf1;
    simpl in Hrun; [|done].
  destruct (filldata m1 (idx a6) (rows6 rs) ind6) as [m2|] eqn:Hf2;
    simpl in Hrun; [|done].
  injection Hrun as <-. simpl.
  destruct (filldata_keeps _ _ _ _ _ Hm0 Hf1) as (Hm1 & Hk1 & _).
  destruct (filldata_keeps _ _ _ _ _ Hm1 Hf2) as (Hm2 & Hk2 & _).
  destruct (Hk2 "ts" ltac:(done) ltac:(done) (Hk1 "ts" ltac:(done) ltac:(done) Hts0))
    as [axis_ts Haxis].
  exists axis_ts. split; [done|]. by rewrite (Hm2 _ _ Haxis).
Qed.

Arguments record_label : simpl never.
Arguments record_base : simpl never.

Lemma record_label_at (i : nat) record label (l : list cell) v :
  l !! i = Some v →
  record_label i record (label, l) = Return (<[label := RCell v]> record).
Proof. intros Hv. unfold record_label, index. simpl. by rewrite Hv. Qed.

Lemma record_labels_spec (i : nat) (lists : list (string * list cell)) :
  ∀ record,
    NoDup lists.*1 →
    (∀ label l, (label, l) ∈ lists → (i < length l)%nat) →
    ∃ r, for_each (record_label i) record lists = Return r ∧
         (∀ label l, (label, l) ∈ lists →
                     ∃ v, l !! i = Some v ∧ r !! label = Some (RCell v)) ∧
         (∀ key, key ∉ lists.*1 → r !! key = record !! key).
Proof.
  induction lists as [|[label0 l0] lists IH]; intros record Hnd Hlen.
  - exists record. split_and!; [done| |done].
    intros label l Hin. by apply elem_of_nil in Hin.
  - simpl in Hnd. apply NoDup_cons in Hnd as [Hfresh Hnd].
    destruct (lookup_lt_is_Some_2 l0 i) as [v0 Hv0].
    { apply (Hlen label0). by left. }
    destruct (IH (<[label0 := RCell v0]> record) Hnd) as (r & Hrun & Hput & Hkeep).
    { intros label l Hin. apply (Hlen label). by right. }
    exists r. split_and!.
    + simpl. rewrite (record_label_at i record label0 l0 v0 Hv0). simpl.
      exact Hrun.
    + intros label l Hin. apply elem_of_cons in Hin as [[= -> ->]|Hin].
      * exists v0. split; [done|]. rewrite (Hkeep label0 Hfresh).
        apply lookup_insert_eq.
      * by apply Hput.
    + intros key Hkey. simpl in Hkey. apply not_elem_of_cons in Hkey as [Hne Hkey].
      rewrite (Hkeep key Hkey). by apply lookup_insert_ne.
Qed.

Lemma records_from_spec (foid id : string) (m : matrix) (axis_ts : list cell) :
  ∀ i0,
    all_length (i0 + length axis_ts) (m_lists m) →
    ∃ rs, records_from foid id m i0 axis_ts = Return rs ∧
          length rs = length axis_ts ∧
          ∀ k r t, rs !! k = Some r → axis_ts !! k = Some t →
            (∀ label l, m_lists m !! label = Some l →
               ∃ v, l !! (i0 + k)%nat = Some v ∧ r !! label = Some (RCell v)) ∧
            (∀ key, m_lists m !! key = None →
               r !! key = record_base foid id m t !! key).
Proof.
  induction axis_ts as [|t axis_ts IH]; intros i0 Hm.
  - exists []. split_and!; try done.
  - destruct (record_labels_spec i0 (map_to_list (m_lists m))
                (record_base foid id m t)) as (r & Hr & Hput & Hkeep).
    + apply NoDup_fst_map_to_list.
    + intros label l Hin. apply elem_of_map_to_list in Hin.
      rewrite (Hm _ _ Hin). simpl. lia.
    + destruct (IH (S i0)) as (rs & Hrs & Hlen & Hrec).
      { simpl in Hm. by replace (S i0 + length axis_ts)%nat
          with (i0 + S (length axis_ts))%nat by lia. }
      exists (r :: rs). split_and!.
      * simpl. unfold nws_record. rewrite Hr. simpl. by rewrite Hrs.
      * simpl. by rewrite Hlen.
      * intros [|k] r' t' Hr' Ht'; simpl in Hr', Ht'.
        -- injection Hr' as <-. injection Ht' as <-. rewrite Nat.add_0_r. split.
           ++ intros label l Hl. apply Hput. by apply elem_of_map_to_list.
           ++ intros key Hkey. apply Hkeep. intros Hin.
              apply list_elem_of_fmap in Hin as ([key' l] & -> & Hin).
              apply elem_of_map_to_list in Hin. simpl in Hkey. congruence.
        -- replace (i0 + S k)%nat with (S i0 + k)%nat by lia.
           by apply (Hrec k r' t').
Qed.

(** X10. When the download gives a text from which [ParseNWSForecast]
    returns a matrix, [get_forecast] returns one record per entry of the
    time axis, in order, and never indexes a list out of range: record
    [i] holds, under the name of every list of the matrix, that list's
    entry [i], and under every other name what the record started with
    (the units, the method 'NWS', the time of issue, the station and the
    forecast office). *)
Theorem nws_get_forecast_records `{TimeLib} (net : string → nat → outcome)
    (foid url : string) (max_tries : Z) (id text : string) (m : matrix) :
  (DownloadNWSForecast net foid url max_tries).1 = Return (Some text) →
  ParseNWSForecast text id = Return (Some m) →
  ∃ rs axis_ts,
    nws_get_forecast net foid url max_tries id = Return (Some rs) ∧
    m_lists m !! "ts" = Some axis_ts ∧
    length rs = length axis_ts ∧
    ∀ i r t, rs !! i = Some r → axis_ts !! i = Some t →
      (∀ label l, m_lists m !! label = Some l →
         ∃ v, l !! i = Some v ∧ r !! label = Some (RCell v)) ∧
      (∀ key, m_lists m !! key = None →
         r !! key = record_base foid id m t !! key).
Proof.
  intros Hdl Hparse.
  destruct (parse_lists_all_length text id m Hparse) as (axis_ts & Hts & Hm).
  destruct (records_from_spec foid id m axis_ts 0 Hm) as (rs & Hrs & Hlen & Hrec).
  exists rs, axis_ts. split_and!; try done.
  unfold nws_get_forecast, getitem. rewrite Hdl. simpl. rewrite Hparse. simpl.
  rewrite Hts. simpl. by rewrite Hrs.
Qed.

Lemma nws_get_forecast_records_witness :
  ∃ rs axis_ts,
    @nws_get_forecast UTC.timelib (λ _ _, Got bulletin_padded)
      "BOX" "http://localhost/pfm" 3 "ABC123" = Return (Some rs) ∧
    m_lists matrix_padded !! "ts" = Some axis_ts ∧
    length rs = length axis_ts ∧
    ∀ i r t, rs !! i = Some r → axis_ts !! i = Some t →
      (∀ label l, m_lists matrix_padded !! label = Some l →
         ∃ v, l !! i = Some v ∧ r !! label = Some (RCell v)) ∧
      (∀ key, m_lists matrix_padded !! key = None →
         r !! key = record_base "BOX" "ABC123" matrix_padded t !! key).
Proof.
  apply (@nws_get_forecast_records UTC.timelib (λ _ _, Got bulletin_padded)
           "BOX" "http://localhost/pfm" 3 "ABC123" bulletin_padded
           matrix_padded).
  - reflexivity.
  - vm_compute. reflexivity.
Defined.

(** X11. [get_forecast] returns [None] in exactly two cases: the
    download returned [None], or it returned a text none of whose lines
    starts with the station identifier. In every other case it returns
    records or raises; an exception of the download or of the parse is
    not caught. *)
Theorem nws_get_forecast_None_iff `{TimeLib} (net : string → nat → outcome)
    (foid url : string) (max_tries : Z) (id : string) :
  let download := (DownloadNWSForecast net foid url max_tries).1 in
  (nws_get_forecast net foid url max_tries id = Return None ↔
   download = Return None ∨
   ∃ text, download = Return (Some text) ∧
           Forall (λ l, ¬ id_line id l) (Str.splitlines text)) ∧
  (∀ e, download = Raise e →
        nws_get_forecast net foid url max_tries id = Raise e) ∧
  (∀ text e, download = Return (Some text) →
             ParseNWSForecast text id = Raise e →
             nws_get_forecast net foid url max_tries id = Raise e).
Proof.
  intros download. unfold nws_get_forecast. fold download.
  split_and!.
  - destruct download as [[text|]|e]; simpl.
    + destruct (ParseNWSForecast text id) as [[m|]|e] eqn:Hparse; simpl.
      * split.
        -- intros Hrun.
           destruct (getitem (m_lists m) "ts") as [axis_ts|]; simpl in Hrun;
             [|done].
           by destruct (records_from foid id m 0 axis_ts).
        -- intros [?|(text' & [= <-] & Hno)]; [done|].
           apply parse_None_no_id_line in Hno. congruence.
      * split; [|done]. intros _. right. exists text. split; [done|].
        by apply parse_None_no_id_line.
      * split; [done|]. intros [?|(text' & [= <-] & Hno)]; [done|].
        apply parse_None_no_id_line in Hno. congruence.
    + split; [by left | done].
    + split; [done|]. by intros [?|(text & ? & _)].
  - by intros e ->.
  - intros text e -> Hparse. simpl. by rewrite Hparse.
Qed.

Lemma nws_get_forecast_None_iff_witness :
  @nws_get_forecast UTC.timelib (λ _ _, Got bulletin_bad_header)
    "BOX" "http://localhost/pfm" 3 "ABC123" = Raise IndexError.
Proof.
  destruct (@nws_get_forecast_None_iff UTC.timelib
              (λ _ _, Got bulletin_bad_header)
              "BOX" "http://localhost/pfm" 3 "ABC123") as (_ & _ & Hraise).
  apply (Hraise bulletin_bad_header); [reflexivity | by vm_compute].
Defined.

(** * The tide records of xtide *)

Arguments tide_line : simpl never.

Lemma for_each_raises {A S : Type} (body : S → A → result S) (l : list A)
    (x : A) :
  x ∈ l → (∀ s, ∃ e, body s x = Raise e) →
  ∀ s, ∃ e, for_each body s l = Raise e.
Proof.
  intros Hin Hx. induction l as [|y l IH]; intros s; [by apply elem_of_nil in Hin|].
  simpl. apply elem_of_cons in Hin as [<-|Hin].
  - destruct (Hx s) as [e ->]. by exists e.
  - destruct (body s y) as [s'|e]; simpl; [by apply IH | by exists e].
Qed.

Lemma tide_line_event `{TideClock} now records line records' :
  tide_event line = true →
  tide_line now records line = Return records' →
  ∃ r, records' = records ++ [r] ∧ tide_of now line r.
Proof.
  intros Hev Hrun. unfold tide_line, index in Hrun.
  apply bool_decide_eq_true in Hev.
  destruct (tide_fields line !! 4%nat) as [f4|] eqn:Hf4; simpl in Hrun; [|done].
  rewrite decide_True in Hrun by (destruct Hev as [[= ->]|[= ->]]; auto).
  destruct (tide_fields line !! 1%nat) as [f1|] eqn:Hf1; simpl in Hrun; [|done].
  destruct (tide_fields line !! 2%nat) as [f2|] eqn:Hf2; simpl in Hrun; [|done].
  destruct (strptime_mktime_tide (f1 +:+ " " +:+ f2)) as [t|] eqn:Ht;
    simpl in Hrun; [|done].
  destruct (tide_fields line !! 3%nat) as [f3|] eqn:Hf3; simpl in Hrun; [|done].
  destruct (Str.split " " f3 !! 1%nat) as [o1|] eqn:Ho1; simpl in Hrun; [|done].
  destruct (Str.split " " f3 !! 0%nat) as [o0|] eqn:Ho0; simpl in Hrun; [|done].
  injection Hrun as <-. eexists. split; [done|].
  unfold tide_of; simpl. split_and!.
  - done.
  - intros Hh. rewrite Hf4 in Hh. injection Hh as ->. by rewrite decide_True.
  - intros Hl. rewrite Hf4 in Hl. injection Hl as ->. by rewrite decide_False.
  - by exists f1, f2.
  - exists f3, o1. split_and!; try done. by case_decide.
Qed.

Lemma tide_lines_records `{TideClock} now (lines : list string) :
  ∀ records records',
    for_each (tide_line now) records lines = Return records' →
    ∃ news, records' = records ++ news ∧
            Forall2 (tide_of now) (filter (λ l, tide_event l = true) lines) news.
Proof.
  induction lines as [|line lines IH]; intros records records' Hrun;
    simpl in Hrun.
  - injection Hrun as <-. exists []. by rewrite app_nil_r.
  - destruct (tide_line now records line) as [records1|] eqn:Hstep;
      simpl in Hrun; [|done].
    destruct (IH _ _ Hrun) as (news & -> & Hnews).
    destruct (tide_event line) eqn:Hev.
    + destruct (tide_line_event _ _ _ _ Hev Hstep) as (r & -> & Hr).
      exists (r :: news). rewrite <- app_assoc. split; [done|].
      rewrite filter_cons_True by done. by constructor.
    + rewrite filter_cons_False by (by rewrite Hev).
      exists news. split; [|done]. f_equal.
      unfold tide_line, index in Hstep.
      destruct (tide_fields line !! 4%nat) as [f4|] eqn:Hf4; simpl in Hstep;
        [|done].
      rewrite decide_False in Hstep; [by injection Hstep as <-|].
      apply bool_decide_eq_false in Hev. rewrite Hf4 in Hev.
      intros [->| ->]; apply Hev; auto.
Qed.

(** X12. When [parse_forecast] returns, its records are those of the
    lines whose fifth field is 'High Tide' or 'Low Tide', one record per
    such line and in the order of the lines; every other line adds
    nothing. The record of a line carries the time [now], 'H' for a high
    and 'L' for a low tide, the time read from the second and third
    field, the first word of the fourth field as offset, and US units
    exactly when the second word of the fourth field is 'ft'. *)
Theorem xtide_records_of_tide_lines `{TideClock} (lines : list string)
    (now : Z) (records : list tide_record) :
  xtide_parse_forecast lines now = Return records →
  Forall2 (tide_of now) (filter (λ l, tide_event l = true) lines) records.
Proof.
  intros Hrun. destruct (tide_lines_records now lines [] records Hrun)
    as (news & -> & Hnews). done.
Qed.

Lemma xtide_records_of_tide_lines_witness :
  Forall2 (@tide_of length_clock 7)
    (filter (λ l, tide_event l = true)
       [ "Portland,2013.08.20,05:58,9.8 ft,High Tide";
         "Portland,2013.08.20,06:04,,Sunrise";
         "Portland,2013.08.20,12:05,-0.3 ft,Low Tide" ])
    [ TideRecord US 7 16 "H" "9.8"; TideRecord US 7 16 "L" "-0.3" ].
Proof.
  apply (@xtide_records_of_tide_lines length_clock).
  by vm_compute.
Defined.

(** X13. A line with fewer than five fields between commas, such as an
    empty line, makes [parse_forecast] raise: the fifth field is read
    before anything else is tested, so no records are returned, whatever
    the other lines hold. *)
Theorem xtide_short_line_raises `{TideClock} (lines : list string) (now : Z)
    (line : string) :
  line ∈ lines →
  (length (tide_fields line) < 5)%nat →
  ∃ e, xtide_parse_forecast lines now = Raise e.
Proof.
  intros Hin Hlen. apply (for_each_raises _ _ line Hin).
  intros records. exists IndexError. unfold tide_line, index.
  destruct (tide_fields line !! 4%nat) as [f4|] eqn:Hf4; [|done].
  apply lookup_lt_Some in Hf4. lia.
Qed.

Lemma xtide_short_line_raises_witness :
  ∃ e, @xtide_parse_forecast length_clock
         [ "Portland,2013.08.20,05:58,9.8 ft,High Tide"; "" ] 7 = Raise e.
Proof.
  apply (@xtide_short_line_raises length_clock _ 7 "").
  - right. by left.
  - vm_compute. lia.
Defined.

(** * Options and wind directions *)

(** X14. [get_int] returns [None], an integer, or a string it could not
    read: it returns [None] exactly when the value found (or the default,
    when the label is absent) is [None] or a string that is 'none' up to
    the case of its letters; a string is returned only when [int] raises
    on it, and then it is returned as it was. Reading the result again
    changes nothing. *)
Theorem get_int_result (config_dict : gmap string cfgval) (label : string)
    (default_value : cfgval) :
  let value := default default_value (config_dict !! label) in
  (get_int config_dict label default_value = CNone ↔
   value = CNone ∨ ∃ s, value = CStr s ∧ lower s = "none") ∧
  (∀ s, get_int config_dict label default_value = CStr s →
        value = CStr s ∧ lower s ≠ "none" ∧ Str.int s = Raise ValueError) ∧
  (∀ z, value = CInt z → get_int config_dict label default_value = CInt z) ∧
  (∀ s z, value = CStr s → lower s ≠ "none" → Str.int s = Return z →
          get_int config_dict label default_value = CInt z) ∧
  (∀ label' default',
     get_int {[ label' := get_int config_dict label default_value ]}
       label' default'
     = get_int config_dict label default_value).
Proof.
  intros value. unfold get_int. fold value.
  assert (∀ s e, Str.int s = Raise e → e = ValueError) as Hval.
  { intros s e. unfold Str.int.
    by destruct (match Str.strip s with
                 | String "-" s' => Z.opp <$> Str.unsigned s'
                 | String "+" s' => Str.unsigned s'
                 | s' => Str.unsigned s'
                 end); intros [= <-]. }
  split_and!.
  - destruct value as [|z|s].
    + split; [by left | done].
    + split; [done|]. by intros [?|(s & ? & _)].
    + case_decide as Hl.
      * split; [|done]. intros _. right. by exists s.
      * destruct (Str.int s); (split; [done|]);
          intros [?|(s' & [= <-] & ?)]; done.
  - intros s0 Hres. destruct value as [|z|s]; try done.
    case_decide as Hl; [done|].
    destruct (Str.int s) as [z|e] eqn:Hint; [done|].
    injection Hres as <-. by rewrite (Hval _ _ Hint) in Hint.
  - by intros z ->.
  - intros s z -> Hl Hint. rewrite decide_False by done. by rewrite Hint.
  - intros label' default'. rewrite lookup_singleton_eq. simpl.
    destruct value as [|z|s]; try done.
    case_decide as Hl; [done|].
    destruct (Str.int s) as [z|e] eqn:Hint; [done|].
    rewrite decide_False by done. by rewrite Hint.
Qed.

Lemma get_int_result_witness :
  get_int {[ "interval" := CStr " 300 " ]} "interval" (CInt 10800) = CInt 300 ∧
  get_int {[ "max_age" := CStr "None" ]} "max_age" (CInt 604800) = CNone.
Proof.
  destruct (get_int_result {[ "interval" := CStr " 300 " ]} "interval"
              (CInt 10800)) as (_ & _ & _ & Hint & _).
  destruct (get_int_result {[ "max_age" := CStr "None" ]} "max_age"
              (CInt 604800)) as (Hnone & _).
  split.
  - by apply (Hint " 300 " 300).
  - apply Hnone. right. by exists "None".
Defined.

(** X15. [dirstr] turns the four long names 'North', 'South', 'East' and
    'West' into 'N', 'S', 'E' and 'W' and returns every other string as
    it is; its result is never one of the long names, so applying it
    twice is the same as applying it once. *)
Theorem dirstr_idempotent (s : string) :
  dirstr "North" = "N" ∧ dirstr "South" = "S" ∧
  dirstr "East" = "E" ∧ dirstr "West" = "W" ∧
  ((s ∉ ["North"; "South"; "East"; "West"]) → dirstr s = s) ∧
  (dirstr s ∉ ["North"; "South"; "East"; "West"]) ∧
  dirstr (dirstr s) = dirstr s ∧
  directions !! dirstr s = None ∧
  (directions !! s = None → dirstr s = s).
Proof.
  split_and!; try reflexivity.
  - intros Hs. unfold dirstr, directions.
    by rewrite (not_elem_of_list_to_map_1 _ s).
  - unfold dirstr. destruct (directions !! s) as [d|] eqn:Hd.
    + apply elem_of_list_to_map_2 in Hd.
      repeat (apply elem_of_cons in Hd as [[= _ ->]|Hd];
              [by apply (bool_decide_unpack _); vm_compute|]).
      by apply elem_of_nil in Hd.
    + by apply (not_elem_of_list_to_map_2 _ s) in Hd.
  - unfold dirstr. destruct (directions !! s) as [d|] eqn:Hd.
    + apply elem_of_list_to_map_2 in Hd.
      repeat (apply elem_of_cons in Hd as [[= _ ->]|Hd]; [by vm_compute|]).
      by apply elem_of_nil in Hd.
    + by rewrite Hd.
  - unfold dirstr. destruct (directions !! s) as [d|] eqn:Hd.
    + apply elem_of_list_to_map_2 in Hd.
      repeat (apply elem_of_cons in Hd as [[= _ ->]|Hd]; [by vm_compute|]).
      by apply elem_of_nil in Hd.
    + done.
  - unfold dirstr. by intros ->.
Qed.

(** * The names and the scalar entries of a returned matrix *)

Lemma classify_line_fields (st st' : rowsets) (line : string) :
  fields_only (rows3 st) → fields_only (rows6 st) →
  classify_line st line = Return st' →
  fields_only (rows3 st') ∧ fields_only (rows6 st').
Proof.
  intros H3 H6. unfold classify_line.
  destruct (Str.startswith (label_of line) "UTC"); [by intros [= <-]|].
  destruct (if Str.endswith (label_of line) "3HRLY" then ("HOUR", Some 3)
            else if Str.endswith (label_of line) "6HRLY" then ("HOUR", Some 6)
            else (label_of line, mode st)) as [label mode'].
  destruct (nws_label_dict !! label) as [field|] eqn:Hfield;
    [|by intros [= <-]].
  assert (∀ rows : gmap string string,
            fields_only rows → fields_only (<[field := data_of line]> rows))
    as Hins.
  { intros rows Hrows name Hname.
    destruct (decide (field = name)) as [<-|Hne]; [by exists label|].
    rewrite lookup_insert_ne in Hname by done. by apply Hrows. }
  destruct mode' as [md|]; [|done].
  repeat case_decide; intros [= <-]; simpl; auto.
Qed.

Lemma classify_fields (lines : list string) :
  ∀ st st', fields_only (rows3 st) → fields_only (rows6 st) →
            for_each classify_line st lines = Return st' →
            fields_only (rows3 st') ∧ fields_only (rows6 st').
Proof.
  induction lines as [|l lines IH]; intros st st' H3 H6 Hrun; simpl in Hrun.
  - by injection Hrun as <-.
  - destruct (classify_line st l) as [st1|] eqn:Hstep; simpl in Hrun; [|done].
    destruct (classify_line_fields _ _ _ H3 H6 Hstep) as [H31 H61].
    by apply (IH st1 st').
Qed.

Lemma default_none_names key nidx m :
  list_name key → names_ok m → names_ok (default_none key nidx m).
Proof.
  intros Hkey Hm name Hname. unfold default_none in Hname.
  destruct (m !! key); [by apply Hm|].
  destruct (decide (key = name)) as [<-|Hne]; [done|].
  rewrite lookup_insert_ne in Hname by done. by apply Hm.
Qed.

Lemma fill_labels_names nidx indices (rows : list (string * string)) :
  ∀ m m', names_ok m →
          (∀ label row, (label, row) ∈ rows → is_field label) →
          for_each (fill_label nidx indices) m rows = Return m' →
          names_ok m'.
Proof.
  induction rows as [|[label row] rows IH]; intros m m' Hm Hrows Hrun;
    simpl in Hrun.
  - by injection Hrun as <-.
  - destruct (fill_label nidx indices m (label, row)) as [m1|] eqn:Hstep;
      simpl in Hrun; [|done].
    apply (IH m1 m'); [|intros l r Hin; apply (Hrows l r); by right|done].
    assert (is_field label) as Hlabel by (apply (Hrows label row); by left).
    unfold fill_label in Hstep.
    destruct (getitem (default_none label nidx m) label) as [l|];
      simpl in Hstep; [|done].
    destruct (fill_row indices row l) as [l'|]; simpl in Hstep; [|done].
    injection Hstep as <-. intros name Hname.
    destruct (decide (label = name)) as [<-|Hne].
    + repeat right. done.
    + rewrite lookup_insert_ne in Hname by done.
      apply (default_none_names label nidx m); [repeat right; done|done|done].
Qed.

Lemma resolve_names key state nidx m m' :
  names_ok m → resolve key state nidx m = Return m' →
  names_ok m' ∧ ∀ name, m !! name = None → name ≠ "tempMin" →
                        name ≠ "tempMax" → m' !! name = None.
Proof.
  intros Hm Hrun. unfold resolve in Hrun.
  destruct (m !! key) as [src|]; [|by injection Hrun as <-].
  destruct (getitem m "tempMin") as [tmin|]; simpl in Hrun; [|done].
  destruct (getitem m "tempMax") as [tmax|]; simpl in Hrun; [|done].
  destruct (minmax_walk state nidx src tmin tmax) as [[[s mn] mx]|];
    simpl in Hrun; [|done].
  injection Hrun as <-. split.
  - intros name [l Hl]. apply lookup_delete_Some in Hl as [_ Hl].
    apply lookup_insert_Some in Hl as [[<- _]|[_ Hl]];
      [right; right; right; by left|].
    apply lookup_insert_Some in Hl as [[<- _]|[_ Hl]];
      [right; right; by left|].
    apply Hm. by eexists.
  - intros name Hnone Hn1 Hn2.
    destruct (decide (key = name)) as [<-|Hne]; [apply lookup_delete_eq|].
    rewrite lookup_delete_ne by done.
    rewrite lookup_insert_ne by done. by rewrite lookup_insert_ne.
Qed.

Lemma filldata_names m nidx rows indices m' :
  names_ok m → fields_only rows →
  filldata m nidx rows indices = Return m' →
  names_ok m' ∧ m' !! "tempMinMax" = None ∧ m' !! "tempMaxMin" = None.
Proof.
  intros Hm Hrows Hrun. unfold filldata in Hrun.
  destruct (for_each (fill_label nidx indices) m (map_to_list rows)) as [m1|]
    eqn:Hfill; simpl in Hrun; [|done].
  assert (names_ok m1) as Hm1.
  { eapply fill_labels_names; [exact Hm| |exact Hfill].
    intros label row Hin. apply elem_of_map_to_list in Hin.
    apply Hrows. by eexists. }
  set (m2 := default_none "tempMax" nidx (default_none "tempMin" nidx m1)) in *.
  assert (names_ok m2) as Hm2.
  { apply default_none_names; [right; right; right; by left|].
    apply default_none_names; [right; right; by left|done]. }
  destruct (resolve "tempMinMax" 0 nidx m2) as [m3|] eqn:Hr1; simpl in Hrun;
    [|done].
  destruct (resolve_names _ _ _ _ _ Hm2 Hr1) as [Hm3 _].
  destruct (resolve_names _ _ _ _ _ Hm3 Hrun) as [Hm' Hnone].
  split_and!; [done| |by eapply resolve_removes].
  apply Hnone; [by eapply resolve_removes|done..].
Qed.

Lemma parse_names_scalars `{TimeLib} (text id : string) (m : matrix) :
  ParseNWSForecast text id = Return (Some m) →
  (∀ name, is_Some (m_lists m !! name) → list_name name) ∧
  m_lists m !! "tempMinMax" = None ∧ m_lists m !! "tempMaxMin" = None ∧
  m_id m = id ∧
  ∃ lines hdr,
    station_block (Str.splitlines text) id = Some lines ∧
    lines !! 1%nat = Some (m_desc m) ∧
    lines !! 2%nat = Some (m_location m) ∧
    lines !! 3%nat = Some hdr ∧
    date2ts hdr = Return (m_dateTime m).
Proof.
  intros Hrun. unfold ParseNWSForecast in Hrun.
  destruct (station_block (Str.splitlines text) id) as [lines|]; [|done].
  unfold index in Hrun.
  destruct (lines !! 3%nat) as [hdr|] eqn:Hhdr; simpl in Hrun; [|done].
  destruct (date2ts hdr) as [t|] eqn:Ht; simpl in Hrun; [|done].
  destruct (classify lines) as [rs|] eqn:Hcl; simpl in Hrun; [|done].
  destruct (lines !! 1%nat) as [desc|] eqn:Hdesc; simpl in Hrun; [|done].
  destruct (lines !! 2%nat) as [loc|] eqn:Hloc; simpl in Hrun; [|done].
  destruct (getitem (rows3 rs) "hour") as [row3|]; simpl in Hrun; [|done].
  destruct (hours3 row3 (Axis (startOfDay t) None [] [] 0)) as [[a3 ind3]|];
    simpl in Hrun; [|done].
  destruct (getitem (rows6 rs) "hour") as [row6|]; simpl in Hrun; [|done].
  destruct (hours6 row6 a3) as [[a6 ind6]|]; simpl in Hrun; [|done].
  set (m0 := <["hour":=ints (hour a6)]> (<["ts":=ints (ts a6)]> ∅)) in Hrun.
  assert (names_ok m0) as Hm0.
  { intros name [l Hl]. unfold m0 in Hl.
    apply lookup_insert_Some in Hl as [[<- _]|[_ Hl]]; [right; by left|].
    apply lookup_insert_Some in Hl as [[<- _]|[_ Hl]]; [by left|].
    by rewrite lookup_empty in Hl. }
  destruct (classify_fields lines (Rowsets None ∅ ∅) rs) as [Hf3 Hf6];
    [by intros name [x Hx]; simpl in Hx; rewrite lookup_empty in Hx..|done|].
  destruct (filldata m0 (idx a6) (rows3 rs) ind3) as [m1|] eqn:Hf1;
    simpl in Hrun; [|done].
  destruct (filldata m1 (idx a6) (rows6 rs) ind6) as [m2|] eqn:Hf2;
    simpl in Hrun; [|done].
  injection Hrun as <-. simpl.
  destruct (filldata_names _ _ _ _ _ Hm0 Hf3 Hf1) as (Hm1 & _).
  destruct (filldata_names _ _ _ _ _ Hm1 Hf6 Hf2) as (Hm2 & Hn1 & Hn2).
  split_and!; try done. by exists lines, hdr.
Qed.

(** X16. The lists of a matrix that [ParseNWSForecast] returns go by a
    closed set of names: 'ts', 'hour', 'tempMin', 'tempMax' and the field
    names of the label table; the two combined names 'tempMinMax' and
    'tempMaxMin' are never among them. The scalar entries are the
    identifier asked for, the second and third line of the station's
    block as description and location, and the issuance time read from
    its fourth line. *)
Theorem matrix_names_and_scalars `{TimeLib} (text id : string) (m : matrix) :
  ParseNWSForecast text id = Return (Some m) →
  (∀ name, is_Some (m_lists m !! name) → list_name name) ∧
  m_lists m !! "tempMinMax" = None ∧ m_lists m !! "tempMaxMin" = None ∧
  m_id m = id ∧
  ∃ lines hdr,
    station_block (Str.splitlines text) id = Some lines ∧
    lines !! 1%nat = Some (m_desc m) ∧
    lines !! 2%nat = Some (m_location m) ∧
    lines !! 3%nat = Some hdr ∧
    date2ts hdr = Return (m_dateTime m).
Proof. apply parse_names_scalars. Qed.

Lemma matrix_names_and_scalars_witness :
  (∀ name, is_Some (m_lists matrix_padded !! name) → list_name name) ∧
  m_lists matrix_padded !! "tempMinMax" = None ∧
  m_lists matrix_padded !! "tempMaxMin" = None ∧
  m_id matrix_padded = "ABC123" ∧
  ∃ lines hdr,
    station_block (Str.splitlines bulletin_padded) "ABC123" = Some lines ∧
    lines !! 1%nat = Some (m_desc matrix_padded) ∧
    lines !! 2%nat = Some (m_location matrix_padded) ∧
    lines !! 3%nat = Some hdr ∧
    @date2ts UTC.timelib hdr = Return (m_dateTime matrix_padded).
Proof.
  apply (@matrix_names_and_scalars UTC.timelib bulletin_padded "ABC123"
           matrix_padded).
  vm_compute. reflexivity.
Defined.

Lemma base_names_no_list_names (name : string) :
  name ∈ ["usUnits"; "method"; "dateTime"; "id"; "foid"] → ¬ list_name name.
Proof.
  intros Hin Hname.
  assert (¬ is_field name) as Hnf.
  { intros [label Hl]. apply elem_of_list_to_map_2 in Hl.
    repeat (apply elem_of_cons in Hin as [->|Hin]);
      try (by apply elem_of_nil in Hin);
      repeat (apply elem_of_cons in Hl as [Hl|Hl]; [by simplify_eq|]);
      by apply elem_of_nil in Hl. }
  destruct Hname as [->|[->|[->|[->|Hf]]]]; [| | | |done];
    repeat (apply elem_of_cons in Hin as [?|Hin]; [done|]);
    by apply elem_of_nil in Hin.
Qed.

(** X17. No list of the matrix goes by the name of one of the entries a
    record starts with, so every record that [get_forecast] returns
    keeps them: the units [weewx.US], the method 'NWS', the issuance time
    of the matrix, the station identifier and the forecast office; its
    'ts' entry is the entry of the time axis for its slot. *)
Theorem nws_records_keep_base `{TimeLib} (net : string → nat → outcome)
    (foid url : string) (max_tries : Z) (id text : string) (m : matrix)
    (rs : list (gmap string rval)) :
  (DownloadNWSForecast net foid url max_tries).1 = Return (Some text) →
  ParseNWSForecast text id = Return (Some m) →
  nws_get_forecast net foid url max_tries id = Return (Some rs) →
  ∀ i r, rs !! i = Some r →
    r !! "usUnits" = Some (RUnits US) ∧
    r !! "method" = Some (RStr "NWS") ∧
    r !! "dateTime" = Some (RInt (m_dateTime m)) ∧
    r !! "id" = Some (RStr id) ∧
    r !! "foid" = Some (RStr foid) ∧
    ∃ t axis_ts, m_lists m !! "ts" = Some axis_ts ∧ axis_ts !! i = Some t ∧
                 r !! "ts" = Some (RCell t).
Proof.
  intros Hdl Hparse Hrun i r Hr.
  destruct (parse_lists_all_length text id m Hparse) as (axis_ts & Hts & Hm).
  destruct (records_from_spec foid id m axis_ts 0 Hm) as (rs' & Hrs & Hlen & Hrec).
  unfold nws_get_forecast, getitem in Hrun.
  rewrite Hdl in Hrun. simpl in Hrun. rewrite Hparse in Hrun. simpl in Hrun.
  rewrite Hts in Hrun. simpl in Hrun. rewrite Hrs in Hrun. simpl in Hrun.
  injection Hrun as <-.
  destruct (lookup_lt_is_Some_2 axis_ts i) as [t Ht].
  { rewrite <- Hlen. by eapply lookup_lt_Some. }
  destruct (Hrec i r t Hr Ht) as [Hput Hkeep].
  destruct (parse_names_scalars text id m Hparse) as (Hnames & _).
  assert (∀ key, key ∈ ["usUnits"; "method"; "dateTime"; "id"; "foid"] →
                 r !! key = record_base foid id m t !! key) as Hbase.
  { intros key Hkey. apply Hkeep.
    destruct (m_lists m !! key) eqn:Hk; [|done].
    destruct (base_names_no_list_names key Hkey). apply Hnames. by eexists. }
  split_and!.
  - rewrite Hbase by (repeat constructor). done.
  - rewrite Hbase by (repeat constructor). done.
  - rewrite Hbase by (repeat constructor). done.
  - rewrite Hbase by (repeat constructor). done.
  - rewrite Hbase by (repeat constructor). done.
  - exists t, axis_ts. split_and!; [done..|].
    destruct (Hput "ts" axis_ts Hts) as (v & Hv & Hrv).
    simpl in Hv. congruence.
Qed.

Lemma nws_records_keep_base_witness :
  ∃ r, records_padded !! 0%nat = Some r ∧
    r !! "usUnits" = Some (RUnits US) ∧
    r !! "method" = Some (RStr "NWS") ∧
    r !! "dateTime" = Some (RInt (m_dateTime matrix_padded)) ∧
    r !! "id" = Some (RStr "ABC123") ∧
    r !! "foid" = Some (RStr "BOX") ∧
    ∃ t axis_ts, m_lists matrix_padded !! "ts" = Some axis_ts ∧
                 axis_ts !! 0%nat = Some t ∧ r !! "ts" = Some (RCell t).
Proof.
  eexists. split; [vm_compute; reflexivity|].
  apply (@nws_records_keep_base UTC.timelib (λ _ _, Got bulletin_padded)
           "BOX" "http://localhost/pfm" 3 "ABC123" bulletin_padded
           matrix_padded records_padded).
  - reflexivity.
  - vm_compute. reflexivity.
  - vm_compute. reflexivity.
  - vm_compute. reflexivity.
Defined.

(** * The last token of the 6-hour row, in general *)

Lemma hours3_loop_last_ok (row : string) (cells : list nat) :
  ∀ a ind a' ind',
    last_ok a →
    for_each (hour3_cell row) (a, ind) cells = Return (a', ind') →
    last_ok a'.
Proof.
  induction cells as [|i cells IH]; intros a ind a' ind' Hok Hrun;
    simpl in Hrun.
  - by injection Hrun as <- _.
  - destruct (hour3_cell row (a, ind) i) as [[a1 ind1]|] eqn:Hstep;
      simpl in Hrun; [|done].
    unfold hour3_cell in Hstep.
    destruct (Str.int (Str.slice i (i + 2) row)) as [h|]; simpl in Hstep;
      [|done].
    injection Hstep as <- <-.
    eapply IH; [|exact Hrun]. unfold last_ok; simpl. by rewrite !last_snoc.
Qed.

Lemma hours6_loop_last_ok (row : string) :
  ∀ i s a ind s' a' ind',
    last_ok a →
    hours6_loop row i s (a, ind) = Return (s', (a', ind')) →
    last_ok a'.
Proof.
  induction row as [|c row IH]; intros i s a ind s' a' ind' Hok Hrun;
    simpl in Hrun.
  - by injection Hrun as _ <- _.
  - destruct (Str.isspace c); [|by eapply IH].
    case_decide; simpl in Hrun; [|by eapply IH].
    destruct (hour6_token s i (a, ind)) as [[a1 ind1]|] eqn:Htok;
      simpl in Hrun; [|done].
    unfold hour6_token in Htok.
    destruct (Str.int s) as [h|]; simpl in Htok; [|done].
    injection Htok as <- <-.
    eapply IH; [|exact Hrun]. unfold last_ok; simpl. by rewrite !last_snoc.
Qed.

Lemma hours6_loop_pending_end (r : string) (c : ascii) :
  Str.isspace c = false →
  ∀ i s st s' st',
    hours6_loop (r +:+ String c "") i s st = Return (s', st') →
    0 < Str.len s'.
Proof.
  intros Hc. induction r as [|c0 r IH]; intros i s st s' st' Hrun.
  - change ("" +:+ String c "") with (String c "") in Hrun. simpl in Hrun.
    rewrite Hc in Hrun. injection Hrun as <- _. rewrite len_app.
    change (Str.len (String c "")) with 1. unfold Str.len. lia.
  - change (String c0 r +:+ String c "") with (String c0 (r +:+ String c ""))
      in Hrun. simpl in Hrun.
    destruct (Str.isspace c0); [|by eapply IH].
    destruct (if decide (0 < Str.len s) then hour6_token s i st else Return st);
      simpl in Hrun; [|done].
    by eapply IH.
Qed.

(** X18. When the 6-hour row ends in a token with no white space after
    it, the timestamp of that last hour is put on the day of the hour
    before it: whatever the two hours are, the last timestamp is the one
    before it plus the difference of the two hours, so it lies before it
    whenever the last hour is the smaller one (as 02 after 20). *)
Theorem trailing_hour_stays_on_the_day (row3 r : string) (c : ascii)
    (day_ts : Z) (a3 a6 : axis) (indices3 indices6 : gmap Z nat)
    (k : nat) (l h x y : Z) :
  hours3 row3 (axis0 day_ts) = Return (a3, indices3) →
  hours6 (r +:+ String c "") a3 = Return (a6, indices6) →
  Str.isspace c = false →
  length (hour a6) = S (S k) →
  hour a6 !! k = Some l → hour a6 !! S k = Some h →
  ts a6 !! k = Some x → ts a6 !! S k = Some y →
  y = x + (h - l) * 3600.
Proof.
  intros H3 H6 Hc Hlen Hl Hh Hx Hy.
  pose proof (hours3_axis_ok _ _ _ _ H3) as Hok3.
  assert (last_ok a3) as Hlast3.
  { unfold hours3 in H3. eapply hours3_loop_last_ok; [|exact H3]. done. }
  unfold hours6 in H6.
  destruct (hours6_loop (r +:+ String c "") 0 "" (a3, ∅)) as [[s [a1 ind1]]|]
    eqn:Hloop; simpl in H6; [|done].
  pose proof (hours6_loop_pending_end r c Hc _ _ _ _ _ Hloop) as Hs.
  pose proof (hours6_loop_ok _ _ _ _ _ _ _ _ Hok3 Hloop) as [Hts1 Hhour1].
  pose proof (hours6_loop_last_ok _ _ _ _ _ _ _ _ Hlast3 Hloop) as Hlast1.
  unfold hour6_last in H6. rewrite decide_True in H6 by done.
  destruct (Str.int s) as [h'|]; simpl in H6; [|done].
  injection H6 as <- _. simpl in *.
  rewrite length_app in Hlen. simpl in Hlen.
  assert (length (hour a1) = S k) as Hk by lia.
  rewrite lookup_app_l in Hl by lia. rewrite lookup_app_l in Hx by lia.
  rewrite lookup_app_r in Hh by lia. rewrite lookup_app_r in Hy by lia.
  replace (S k - length (hour a1))%nat with 0%nat in Hh by lia.
  replace (S k - length (ts a1))%nat with 0%nat in Hy by lia.
  simpl in Hh, Hy. injection Hh as ->. injection Hy as <-.
  assert (last (hour a1) = Some l) as Hll.
  { rewrite last_lookup. by rewrite Hk. }
  assert (last (ts a1) = Some x) as Hlx.
  { rewrite last_lookup. replace (length (ts a1)) with (S k) by lia. done. }
  unfold last_ok in Hlast1. destruct (lasth a1) as [l'|].
  - destruct Hlast1 as [Hlt Hlh]. rewrite Hll in Hlh. injection Hlh as <-.
    rewrite Hlx in Hlt. injection Hlt as ->. lia.
  - destruct Hlast1 as [_ Hnil]. by rewrite Hnil in Hll.
Qed.

Lemma trailing_hour_stays_on_the_day_witness :
  1368237600 = 1368302400 + (2 - 20) * 3600.
Proof.
  apply (trailing_hour_stays_on_the_day "14 17" "20 0" "2"%char 1368230400
           axis3_sample axis6_trailing indices3_sample indices6_trailing
           2%nat 20 2 1368302400 1368237600); by vm_compute.
Defined.

(** * What a block needs for a matrix *)

Lemma classify_line_seen (st st' : rowsets) (line : string) (P3 P6 : Prop) :
  seen_hour_rows st P3 P6 →
  classify_line st line = Return st' →
  seen_hour_rows st' (P3 ∨ hour_row 3 line) (P6 ∨ hour_row 6 line).
Proof.
  intros (Hm3 & Hm6 & Hr3 & Hr6).
  assert (∀ (rows : gmap string string) (P Q : Prop),
            (∀ k, is_Some (rows !! k) → P) →
            ∀ k, is_Some (rows !! k) → P ∨ Q) as Hkeep.
  { intros rows P Q Hrows k Hk. left. eauto. }
  destruct (Str.startswith (label_of line) "UTC") eqn:Hutc.
  { unfold classify_line. rewrite Hutc. intros [= <-].
    split_and!; [intros ?; left; auto | intros ?; left; auto
                 | by apply Hkeep | by apply Hkeep]. }
  destruct (Str.endswith (label_of line) "3HRLY") eqn:H3.
  { assert (hour_row 3 line) as Hh by (split; auto).
    rewrite (classify_line_hour st 3 line Hh). simpl. intros [= <-]. simpl.
    split_and!; [by right | done | intros k _; by right | by apply Hkeep]. }
  destruct (Str.endswith (label_of line) "6HRLY") eqn:H6.
  { assert (hour_row 6 line) as Hh by (split; auto).
    rewrite (classify_line_hour st 6 line Hh). simpl. intros [= <-]. simpl.
    split_and!; [done | by right | by apply Hkeep | intros k _; by right]. }
  unfold classify_line. rewrite Hutc, H3, H6.
  destruct (nws_label_dict !! label_of line) as [field|].
  - destruct (mode st) as [md|] eqn:Hmode; [|done].
    repeat case_decide; intros [= <-]; simpl; subst.
    + split_and!; [intros _; left; auto | done | | by apply Hkeep].
      intros k _. left. auto.
    + split_and!; [done | intros _; left; auto | by apply Hkeep |].
      intros k _. left. auto.
    + split_and!; [by intros [= ?] | by intros [= ?]
                   | by apply Hkeep | by apply Hkeep].
  - intros [= <-]. simpl.
    split_and!; [intros ?; left; auto | intros ?; left; auto
                 | by apply Hkeep | by apply Hkeep].
Qed.

Lemma classify_seen (lines : list string) :
  ∀ st st' (P3 P6 : Prop),
    seen_hour_rows st P3 P6 →
    for_each classify_line st lines = Return st' →
    seen_hour_rows st' (P3 ∨ Exists (hour_row 3) lines)
                       (P6 ∨ Exists (hour_row 6) lines).
Proof.
  induction lines as [|l lines IH]; intros st st' P3 P6 Hseen Hrun;
    simpl in Hrun.
  - injection Hrun as <-. destruct Hseen as (Hm3 & Hm6 & Hr3 & Hr6).
    split_and!; try (intros; left; eauto).
  - destruct (classify_line st l) as [st1|] eqn:Hstep; simpl in Hrun; [|done].
    pose proof (classify_line_seen _ _ _ _ _ Hseen Hstep) as Hseen1.
    destruct (IH _ _ _ _ Hseen1 Hrun) as (Hm3 & Hm6 & Hr3 & Hr6).
    assert (∀ g (P : Prop),
              (P ∨ hour_row g l) ∨ Exists (hour_row g) lines →
              P ∨ Exists (hour_row g) (l :: lines)) as Hor.
    { intros g P [[HP|Hl]|Hex]; [by left | right; by left | right; by right]. }
    split_and!; intros; apply Hor; eauto.
Qed.

(** X19. A matrix is returned only for a block of at least four lines
    that holds a 3-hour hour row and a 6-hour hour row (rows whose label
    ends in '3HRLY' or '6HRLY' and does not start with 'UTC'): when
    either is missing, or the block is shorter, the parse raises. *)
Theorem matrix_needs_both_hour_rows `{TimeLib} (text id : string)
    (m : matrix) :
  ParseNWSForecast text id = Return (Some m) →
  ∃ lines,
    station_block (Str.splitlines text) id = Some lines ∧
    (4 ≤ length lines)%nat ∧
    Exists (hour_row 3) lines ∧ Exists (hour_row 6) lines.
Proof.
  intros Hrun. unfold ParseNWSForecast in Hrun.
  destruct (station_block (Str.splitlines text) id) as [lines|]; [|done].
  exists lines. split; [done|]. unfold index in Hrun.
  destruct (lines !! 3%nat) as [hdr|] eqn:Hhdr; simpl in Hrun; [|done].
  apply lookup_lt_Some in Hhdr.
  destruct (date2ts hdr) as [t|]; simpl in Hrun; [|done].
  destruct (classify lines) as [rs|] eqn:Hcl; simpl in Hrun; [|done].
  destruct (lines !! 1%nat) as [desc|]; simpl in Hrun; [|done].
  destruct (lines !! 2%nat) as [loc|]; simpl in Hrun; [|done].
  unfold getitem in Hrun.
  destruct (rows3 rs !! "hour") as [row3|] eqn:Hrow3; simpl in Hrun; [|done].
  destruct (hours3 row3 (Axis (startOfDay t) None [] [] 0)) as [[a3 ind3]|];
    simpl in Hrun; [|done].
  destruct (rows6 rs !! "hour") as [row6|] eqn:Hrow6; simpl in Hrun; [|done].
  destruct (classify_seen lines (Rowsets None ∅ ∅) rs False False)
    as (_ & _ & Hr3 & Hr6); [|done|].
  { split_and!; try done; intros k [x Hx]; simpl in Hx;
      by rewrite lookup_empty in Hx. }
  split_and!; [lia| |].
  - destruct (Hr3 "hour") as [[]|Hex]; [by eexists | done].
  - destruct (Hr6 "hour") as [[]|Hex]; [by eexists | done].
Qed.

Lemma matrix_needs_both_hour_rows_witness :
  ∃ lines,
    station_block (Str.splitlines bulletin_padded) "ABC123" = Some lines ∧
    (4 ≤ length lines)%nat ∧
    Exists (hour_row 3) lines ∧ Exists (hour_row 6) lines.
Proof.
  apply (@matrix_needs_both_hour_rows UTC.timelib bulletin_padded "ABC123"
           matrix_padded).
  vm_compute. reflexivity.
Defined.

Lemma dirstr_idempotent_witness :
  dirstr "North" = "N" ∧ dirstr "West" = "W" ∧ dirstr "NNW" = "NNW" ∧
  dirstr (dirstr "South") = "S".
Proof.
  destruct (dirstr_idempotent "NNW") as (Hn & _ & _ & Hw & Hsame & _).
  destruct (dirstr_idempotent "South") as (_ & Hs & _ & _ & _ & _ & Htwice & _).
  split_and!; [exact Hn | exact Hw | | by rewrite Htwice].
  apply Hsame. apply (bool_decide_unpack _). vm_compute. exact I.
Defined.

(** * The issuance-time line, part by part *)






(** * The min/max walk over targets that hold values *)

Lemma overlay_length (src : list cell) :
  ∀ t tmin tmax,
    length tmin = length src → length tmax = length src →
    length (overlay t src tmin tmax).1 = length src ∧
    length (overlay t src tmin tmax).2 = length src.
Proof.
  induction src as [|v src IH]; intros t tmin tmax Hmin Hmax.
  - by destruct tmin, tmax.
  - destruct tmin as [|x tmin], tmax as [|y tmax]; try done.
    simpl in Hmin, Hmax.
    destruct v as [v|]; simpl.
    + destruct t.
      * destruct (IH NextMax tmin tmax) as [H1 H2]; [lia..|].
        destruct (overlay NextMax src tmin tmax); simpl in *; lia.
      * destruct (IH NextMin tmin tmax) as [H1 H2]; [lia..|].
        destruct (overlay NextMin src tmin tmax); simpl in *; lia.
    + destruct (IH t tmin tmax) as [H1 H2]; [lia..|].
      destruct (overlay t src tmin tmax); simpl in *; lia.
Qed.

(** What the walk leaves at one slot. *)
Lemma overlay_slot (src : list cell) :
  ∀ t tmin tmax i,
    length tmin = length src → length tmax = length src →
    match src !! i with
    | Some None =>
        (overlay t src tmin tmax).1 !! i = tmin !! i ∧
        (overlay t src tmin tmax).2 !! i = tmax !! i
    | Some (Some v) =>
        match turn_at t src i with
        | NextMin =>
            (overlay t src tmin tmax).1 !! i = Some (Some v) ∧
            (overlay t src tmin tmax).2 !! i = tmax !! i
        | NextMax =>
            (overlay t src tmin tmax).1 !! i = tmin !! i ∧
            (overlay t src tmin tmax).2 !! i = Some (Some v)
        end
    | None => True
    end.
Proof.
  induction src as [|v src IH]; intros t tmin tmax i Hmin Hmax; [done|].
  destruct tmin as [|x tmin], tmax as [|y tmax]; try done.
  simpl in Hmin, Hmax.
  destruct i as [|i].
  - destruct v as [v|]; simpl.
    + destruct t.
      * by destruct (overlay NextMax src tmin tmax).
      * by destruct (overlay NextMin src tmin tmax).
    + by destruct (overlay t src tmin tmax).
  - destruct v as [v|]; simpl.
    + destruct t; simpl.
      * specialize (IH NextMax tmin tmax i ltac:(lia) ltac:(lia)).
        by destruct (overlay NextMax src tmin tmax).
      * specialize (IH NextMin tmin tmax i ltac:(lia) ltac:(lia)).
        by destruct (overlay NextMin src tmin tmax).
    + specialize (IH t tmin tmax i ltac:(lia) ltac:(lia)).
      by destruct (overlay t src tmin tmax).
Qed.

Lemma resolve_overlay (key : string) (state : Z) (nidx : nat)
    (m : gmap string (list cell)) (src tmin tmax : list cell) :
  all_length nidx m →
  m !! key = Some src → m !! "tempMin" = Some tmin → m !! "tempMax" = Some tmax →
  resolve key state nidx m =
    Return (delete key
              (<["tempMax" := (overlay (turn_of state) src tmin tmax).2]>
                 (<["tempMin" := (overlay (turn_of state) src tmin tmax).1]> m))).
Proof.
  intros Hm Hkey Hmin Hmax. unfold resolve, getitem.
  rewrite Hkey, Hmin, Hmax. simpl.
  rewrite <- (Hm _ _ Hkey).
  destruct (minmax_walk_overlay state src tmin tmax) as [state' E].
  - by rewrite (Hm _ _ Hmin), (Hm _ _ Hkey).
  - by rewrite (Hm _ _ Hmax), (Hm _ _ Hkey).
  - by rewrite E.
Qed.

Lemma default_none_other key nidx (m : gmap string (list cell)) name :
  name ≠ key → default_none key nidx m !! name = m !! name.
Proof.
  intros Hne. unfold default_none. destruct (m !! key); [done|].
  by rewrite lookup_insert_ne.
Qed.

(** One walk of [filldata]: the combined sequence under [key], if any,
    is walked over the two targets and deleted. *)
Lemma resolve_walk (key : string) (state : Z) (nidx : nat)
    (m : gmap string (list cell)) (tmin tmax : list cell) :
  key ≠ "tempMin" → key ≠ "tempMax" →
  all_length nidx m →
  m !! "tempMin" = Some tmin → m !! "tempMax" = Some tmax →
  ∃ m', resolve key state nidx m = Return m' ∧
        all_length nidx m' ∧
        m' !! key = None ∧
        (∀ name, name ≠ key → name ≠ "tempMin" → name ≠ "tempMax" →
                 m' !! name = m !! name) ∧
        m' !! "tempMin"
          = Some (match m !! key with
                  | Some src => (overlay (turn_of state) src tmin tmax).1
                  | None => tmin
                  end) ∧
        m' !! "tempMax"
          = Some (match m !! key with
                  | Some src => (overlay (turn_of state) src tmin tmax).2
                  | None => tmax
                  end).
Proof.
  intros Hk1 Hk2 Hm Hmin Hmax.
  destruct (m !! key) as [src|] eqn:Hkey.
  - eexists. split; [by apply resolve_overlay|].
    destruct (overlay_length src (turn_of state) tmin tmax) as [Hl1 Hl2];
      [by rewrite (Hm _ _ Hmin), (Hm _ _ Hkey)
      |by rewrite (Hm _ _ Hmax), (Hm _ _ Hkey)|].
    split_and!.
    + intros name l Hl. apply lookup_delete_Some in Hl as [_ Hl].
      apply lookup_insert_Some in Hl as [[_ <-]|[_ Hl]];
        [by rewrite Hl2, (Hm _ _ Hkey)|].
      apply lookup_insert_Some in Hl as [[_ <-]|[_ Hl]];
        [by rewrite Hl1, (Hm _ _ Hkey)|].
      by apply (Hm name).
    + apply lookup_delete_eq.
    + intros name H1 H2 H3.
      rewrite lookup_delete_ne by done.
      by rewrite !lookup_insert_ne by done.
    + rewrite lookup_delete_ne by done.
      rewrite lookup_insert_ne by done. by rewrite lookup_insert_eq.
    + rewrite lookup_delete_ne by done. by rewrite lookup_insert_eq.
  - exists m. unfold resolve. rewrite Hkey. by split_and!.
Qed.

Lemma default_none_same key nidx (m : gmap string (list cell)) :
  default_none key nidx m !! key
  = Some (default (replicate nidx None) (m !! key)).
Proof.
  unfold default_none. destruct (m !! key) eqn:Hkey.
  - by rewrite Hkey.
  - by rewrite lookup_insert_eq.
Qed.

(** The two walks of one call of [filldata]. *)
Lemma filldata_two_walks (m : gmap string (list cell)) (nidx : nat)
    (rows : gmap string string) (indices : gmap Z nat)
    (m1 : gmap string (list cell)) :
  all_length nidx m →
  for_each (fill_label nidx indices) m (map_to_list rows) = Return m1 →
  ∃ m',
    filldata m nidx rows indices = Return m' ∧
    m' !! "tempMinMax" = None ∧ m' !! "tempMaxMin" = None ∧
    m' !! "tempMin"
      = Some (two_walks (m1 !! "tempMinMax") (m1 !! "tempMaxMin")
                (default (replicate nidx None) (m1 !! "tempMin"))
                (default (replicate nidx None) (m1 !! "tempMax"))).1 ∧
    m' !! "tempMax"
      = Some (two_walks (m1 !! "tempMinMax") (m1 !! "tempMaxMin")
                (default (replicate nidx None) (m1 !! "tempMin"))
                (default (replicate nidx None) (m1 !! "tempMax"))).2 ∧
    ∀ name, name ≠ "tempMinMax" → name ≠ "tempMaxMin" →
            name ≠ "tempMin" → name ≠ "tempMax" → m' !! name = m1 !! name.
Proof.
  intros Hm Hfill.
  destruct (fill_labels_keep _ _ _ _ _ Hm Hfill) as [Hm1 _].
  unfold filldata. rewrite Hfill. simpl.
  set (tmin := default (replicate nidx None) (m1 !! "tempMin")).
  set (tmax := default (replicate nidx None) (m1 !! "tempMax")).
  set (m2 := default_none "tempMax" nidx (default_none "tempMin" nidx m1)).
  assert (all_length nidx m2) as Hm2 by by do 2 apply default_none_length.
  assert (m2 !! "tempMin" = Some tmin) as Hmin2.
  { unfold m2. rewrite default_none_other by done. apply default_none_same. }
  assert (m2 !! "tempMax" = Some tmax) as Hmax2.
  { unfold m2. rewrite default_none_same.
    by rewrite default_none_other by done. }
  assert (∀ name, name ≠ "tempMin" → name ≠ "tempMax" → m2 !! name = m1 !! name)
    as Hother.
  { intros name H1 H2. unfold m2. by rewrite !default_none_other by done. }
  destruct (resolve_walk "tempMinMax" 0 nidx m2 tmin tmax)
    as (m3 & E3 & Hm3 & Hdel3 & Hoth3 & Hmin3 & Hmax3); try done.
  rewrite E3. simpl.
  destruct (resolve_walk "tempMaxMin" 1 nidx m3 _ _ ltac:(done) ltac:(done)
              Hm3 Hmin3 Hmax3)
    as (m4 & E4 & Hm4 & Hdel4 & Hoth4 & Hmin4 & Hmax4).
  exists m4. rewrite (Hoth3 "tempMaxMin") in Hmin4, Hmax4 by done.
  rewrite !Hother in Hmin4, Hmax4 by done.
  change (turn_of 0) with NextMin in *. change (turn_of 1) with NextMax in *.
  split_and!.
  - done.
  - by rewrite (Hoth4 "tempMinMax") by done.
  - done.
  - rewrite Hmin4. unfold two_walks.
    by destruct (m1 !! "tempMinMax"), (m1 !! "tempMaxMin").
  - rewrite Hmax4. unfold two_walks.
    by destruct (m1 !! "tempMinMax"), (m1 !! "tempMaxMin").
  - intros name H1 H2 H3 H4.
    rewrite Hoth4, Hoth3, Hother by done. done.
Qed.

(** C5 (as amended). The min/max walk of [filldata] goes through the
    slots in order with a state of two values; a value of the combined
    sequence that is not null is put into the target of the state, at
    its slot, and flips the state, and a null leaves both targets at
    that slot as they were and the state as it is. The targets are the
    lists 'tempMin' and 'tempMax' of the matrix, made all null only when
    the matrix has none: at a null of the sequence they hold a null, or
    what an earlier walk put there, in the same call of [filldata] or in
    the call before. In each call the sequence of a MIN/MAX row ('tempMinMax')
    is walked first, from the state min, then that of a MAX/MIN row
    ('tempMaxMin'), from the state max, over what the first walk left;
    both sequences are deleted from the result. The specification's
    example gives the stated pair. *)
Theorem minmax_walk_overlays_targets :
  (∀ (state : Z) (src tmin tmax : list cell),
     length tmin = length src → length tmax = length src →
     ∃ state',
       minmax_walk state (length src) src tmin tmax
       = Return (state', (overlay (turn_of state) src tmin tmax).1,
                         (overlay (turn_of state) src tmin tmax).2)) ∧
  (∀ (t : turn) (src tmin tmax : list cell) (i : nat),
     length tmin = length src → length tmax = length src →
     match src !! i with
     | Some None =>
         (overlay t src tmin tmax).1 !! i = tmin !! i ∧
         (overlay t src tmin tmax).2 !! i = tmax !! i
     | Some (Some v) =>
         match turn_at t src i with
         | NextMin =>
             (overlay t src tmin tmax).1 !! i = Some (Some v) ∧
             (overlay t src tmin tmax).2 !! i = tmax !! i
         | NextMax =>
             (overlay t src tmin tmax).1 !! i = tmin !! i ∧
             (overlay t src tmin tmax).2 !! i = Some (Some v)
         end
     | None => True
     end) ∧
  (∀ (t : turn) (src : list cell),
     overlay t src (replicate (length src) None) (replicate (length src) None)
     = resolver t src) ∧
  (∀ (state : Z) (src : list cell),
     ∃ state',
       minmax_walk state (length src) src
         (replicate (length src) None) (replicate (length src) None)
       = Return (state', (resolver (turn_of state) src).1,
                         (resolver (turn_of state) src).2)) ∧
  (∀ (key : string) (state : Z) (nidx : nat) (m m' : gmap string (list cell)),
     resolve key state nidx m = Return m' → m' !! key = None) ∧
  nws_label_dict !! "MIN/MAX" = Some "tempMinMax" ∧
  nws_label_dict !! "MAX/MIN" = Some "tempMaxMin" ∧
  (∀ (m : gmap string (list cell)) (nidx : nat) (rows : gmap string string)
     (indices : gmap Z nat) (m1 : gmap string (list cell)),
     all_length nidx m →
     for_each (fill_label nidx indices) m (map_to_list rows) = Return m1 →
     ∃ m',
       filldata m nidx rows indices = Return m' ∧
       m' !! "tempMinMax" = None ∧ m' !! "tempMaxMin" = None ∧
       m' !! "tempMin"
         = Some (two_walks (m1 !! "tempMinMax") (m1 !! "tempMaxMin")
                   (default (replicate nidx None) (m1 !! "tempMin"))
                   (default (replicate nidx None) (m1 !! "tempMax"))).1 ∧
       m' !! "tempMax"
         = Some (two_walks (m1 !! "tempMinMax") (m1 !! "tempMaxMin")
                   (default (replicate nidx None) (m1 !! "tempMin"))
                   (default (replicate nidx None) (m1 !! "tempMax"))).2 ∧
       ∀ name, name ≠ "tempMinMax" → name ≠ "tempMaxMin" →
               name ≠ "tempMin" → name ≠ "tempMax" → m' !! name = m1 !! name) ∧
  resolver NextMin src_example
  = ([None; Some (PStr "45"); None; None; Some (PStr "30")],
     [None; None; None; Some (PStr "62"); None]) ∧
  filldata ∅ 5 {[ "tempMinMax" := row_example ]} indices_example
  = Return (list_to_map
      [ ("tempMin", [None; Some (PStr "45"); None; None; Some (PStr "30")]);
        ("tempMax", [None; None; None; Some (PStr "62"); None]) ]) ∧
  filldata ∅ 5 {[ "tempMaxMin" := row_example ]} indices_example
  = Return (list_to_map
      [ ("tempMin", [None; None; None; Some (PStr "62"); None]);
        ("tempMax", [None; Some (PStr "45"); None; None; Some (PStr "30")]) ]).
Proof.
  split_and!.
  - apply minmax_walk_overlay.
  - intros t src. apply overlay_slot.
  - apply overlay_fresh.
  - intros state src.
    destruct (minmax_walk_overlay state src (replicate (length src) None)
                (replicate (length src) None)) as [state' E];
      [by rewrite length_replicate..|].
    exists state'. by rewrite E, overlay_fresh.
  - apply resolve_removes.
  - reflexivity.
  - reflexivity.
  - apply filldata_two_walks.
  - reflexivity.
  - by vm_compute.
  - by vm_compute.
Qed.

Lemma minmax_walk_overlays_targets_witness :
  (∃ state',
     minmax_walk 1 4 [None; None; Some (PStr "70"); None]
       [None; Some (PStr "55"); None; None] [None; None; None; None]
     = Return (state', [None; Some (PStr "55"); None; None],
                       [None; None; Some (PStr "70"); None])) ∧
  (∃ m', filldata targets_first_call 4 {[ "tempMaxMin" := "70" ]}
           indices6_trailing = Return m' ∧
         m' !! "tempMaxMin" = None ∧
         m' !! "tempMin" = Some [None; Some (PStr "55"); None; None] ∧
         m' !! "tempMax" = Some [None; None; Some (PStr "70"); None]).
Proof.
  destruct minmax_walk_overlays_targets
    as (Hwalk & _ & _ & _ & _ & _ & _ & Hfill & _).
  split.
  - exact (Hwalk 1 [None; None; Some (PStr "70"); None]
             [None; Some (PStr "55"); None; None] [None; None; None; None]
             eq_refl eq_refl).
  - destruct (Hfill targets_first_call 4%nat {[ "tempMaxMin" := "70" ]}
                indices6_trailing
                (<["tempMaxMin" := [None; None; Some (PStr "70"); None]]>
                   targets_first_call))
      as (m' & E & _ & Hdel & Hmin & Hmax & _).
    + intros name l Hl. apply elem_of_list_to_map_2 in Hl.
      repeat (apply elem_of_cons in Hl as [[= _ ->]|Hl]; [reflexivity|]).
      by apply elem_of_nil in Hl.
    + by vm_compute.
    + exists m'. split_and!; [exact E | exact Hdel | |].
      * rewrite Hmin. by vm_compute.
      * rewrite Hmax. by vm_compute.
Defined.

(** C5 (as stated) fails where the targets hold values: a null of the
    combined sequence leaves them as they are, not null. In the second
    call of [filldata] on [bulletin_trailing] the sequence of the MAX/MIN
    row is null at slot 1, where 'tempMin' holds the "55" of the first
    call; the walk leaves it there, in the walk on its own, in a call of
    [filldata] on these targets and in the matrix of the parse, while the
    resolver as the specification words it has a null at that slot. *)
Lemma null_source_keeps_earlier_value :
  [None; None; Some (PStr "70"); @None pyval] !! 1%nat = Some None ∧
  minmax_walk 1 4 [None; None; Some (PStr "70"); None]
    [None; Some (PStr "55"); None; None] [None; None; None; None]
  = Return (0, [None; Some (PStr "55"); None; None],
               [None; None; Some (PStr "70"); None]) ∧
  (resolver NextMax [None; None; Some (PStr "70"); None]).1
  = [None; None; None; None] ∧
  filldata targets_first_call 4 {[ "tempMaxMin" := "70" ]} indices6_trailing
  = Return (list_to_map
      [ ("tempMin", [None; Some (PStr "55"); None; None]);
        ("tempMax", [None; None; Some (PStr "70"); None]) ]) ∧
  list_of "tempMin" (@ParseNWSForecast UTC.timelib bulletin_trailing "ABC123")
  = Some [None; Some (PStr "55"); None; None] ∧
  list_of "tempMax" (@ParseNWSForecast UTC.timelib bulletin_trailing "ABC123")
  = Some [None; None; Some (PStr "70"); None].
Proof. split_and!; by vm_compute. Qed.
